(** * Token-gated membership core: verification.py and verify_cron.py

    A shallow embedding of the shared verification-and-moderation engine:
    the persistent store ([load_json_file], [save_json_file]), the 3-strike
    rejection tracker, the balance verifier with its provider fallback, and
    the periodic reverification pass.

    Python values are embedded as the JSON-shaped type [pyval]; Python
    dictionaries keep their insertion order (association lists with unique
    keys); code that can raise lives in a state-and-exception monad over the
    [World] (files, database rows, and the trace of external calls). *)

From Stdlib Require Import ZArith QArith Lia Ascii String.
From stdpp Require Import base option list strings gmap pretty.

Open Scope Z_scope.

(** ** Exceptions and results *)

(** Every handler in the sources is [except Exception], so only the fact that
    something was raised matters; the class is kept for readability. *)
Inductive exn :=
  | KeyError | TypeError | ValueError | IndexError | AttributeError
  | OverflowError | ZeroDivisionError
  | ExternalError (msg : string).

Inductive outcome (A : Type) :=
  | Ret (a : A)
  | Raise (e : exn).
Arguments Ret {A} a.
Arguments Raise {A} e.

Definition is_ret {A} (o : outcome A) : bool :=
  match o with Ret _ => true | Raise _ => false end.

(** ** Python floats

    A finite binary64 value is the rational it denotes (the sign of zero is
    not kept: no modelled operation observes it). *)
Inductive pyfloat :=
  | FFin (q : Q)
  | FPosInf
  | FNegInf
  | FNan.

Definition pow2Q (k : Z) : Q :=
  if 0 <=? k then inject_Z (2 ^ k) else 1 # Z.to_pos (2 ^ (- k)).

(** Round-half-even of the positive rational [n / d] to 53 significant bits
    (or to a multiple of 2^-1074 in the subnormal range): the result is
    [m * 2^k]. *)
Definition b64_round_pos (n d : Z) : Z * Z :=
  let e0 := Z.log2 n - Z.log2 d in
  let ge := if 0 <=? e0 then d * 2 ^ e0 <=? n else d <=? n * 2 ^ (- e0) in
  let e := if ge then e0 else e0 - 1 in
  let k := Z.max (e - 52) (-1074) in
  let num := if 0 <=? k then n else n * 2 ^ (- k) in
  let den := if 0 <=? k then d * 2 ^ k else d in
  let m0 := num / den in
  let r := num mod den in
  let m := if 2 * r <? den then m0
           else if den <? 2 * r then m0 + 1
           else if Z.even m0 then m0 else m0 + 1 in
  (m, k).

(** Nearest binary64 value of a rational; [None] when the rounded magnitude
    is 2^1024 or more. *)
Definition b64_nearest (q : Q) : option Q :=
  let n := Qnum q in
  let d := Zpos (Qden q) in
  if n =? 0 then Some 0%Q
  else
    let '(m, k) := b64_round_pos (Z.abs n) d in
    if (0 <=? k) && (2 ^ 1024 <=? m * 2 ^ k) then None
    else
      let v := (inject_Z m * pow2Q k)%Q in
      Some (Qred (if n <? 0 then - v else v)%Q).

(** ** Python values (what [json.load] produces) *)

#[local] Set Warnings "-register-all".


Inductive pyval :=
  | JNull
  | JBool (b : bool)
  | JInt (z : Z)
  | JFloat (f : pyfloat)
  | JStr (s : string)
  | JList (l : list pyval)
  | JDict (d : list (string * pyval)).

(** Python dictionaries with string keys: insertion-ordered, keys unique. *)
Abbreviation pydict := (list (string * pyval)).

Fixpoint dict_get (d : pydict) (k : string) : option pyval :=
  match d with
  | [] => None
  | (k', v) :: d' => if String.eqb k' k then Some v else dict_get d' k
  end.

(** [d[k] = v]: overwrite in place, or append a new key at the end. *)
Fixpoint dict_set (d : pydict) (k : string) (v : pyval) : pydict :=
  match d with
  | [] => [(k, v)]
  | (k', v') :: d' =>
      if String.eqb k' k then (k', v) :: d' else (k', v') :: dict_set d' k v
  end.

Definition dict_mem (d : pydict) (k : string) : bool :=
  match dict_get d k with Some _ => true | None => false end.

Definition dict_keys (d : pydict) : list string := map fst d.

(** Truth value testing ([if x:], [x or y], [not x]). *)
Definition truthy (v : pyval) : bool :=
  match v with
  | JNull => false
  | JBool b => b
  | JInt z => negb (z =? 0)
  | JFloat (FFin q) => negb (Qnum q =? 0)
  | JFloat _ => true
  | JStr s => negb (String.eqb s "")
  | JList l => match l with [] => false | _ => true end
  | JDict d => match d with [] => false | _ => true end
  end.

(** [a or b] *)
Definition py_or (a b : pyval) : pyval := if truthy a then a else b.

(** ** Python arithmetic on numbers *)

(** Numbers are [int], [float] and [bool] (a subclass of [int]). *)
Inductive pynum :=
  | NInt (z : Z)
  | NFloat (f : pyfloat).

Definition num_of (v : pyval) : option pynum :=
  match v with
  | JInt z => Some (NInt z)
  | JBool b => Some (NInt (if b then 1 else 0))
  | JFloat f => Some (NFloat f)
  | _ => None
  end.

(** [float(z)] for an int: correctly rounded, [OverflowError] when too large. *)
Definition float_of_int (z : Z) : outcome pyfloat :=
  match b64_nearest (inject_Z z) with
  | Some q => Ret (FFin q)
  | None => Raise OverflowError
  end.

(** IEEE result of an exact rational: overflow gives an infinity. *)
Definition float_of_Q (q : Q) : pyfloat :=
  match b64_nearest q with
  | Some r => FFin r
  | None => if Qnum q <? 0 then FNegInf else FPosInf
  end.

(** [10 ** d]: an [int] for [d >= 0]; for a negative exponent Python goes
    through the C library's [pow], taken here as correctly rounded. *)
Definition pow10 (d : Z) : pynum :=
  if 0 <=? d then NInt (10 ^ d)
  else NFloat (float_of_Q (1 # Z.to_pos (10 ^ (- d)))).

(** Float division [a / b]: a zero divisor raises, overflow gives an
    infinity. *)
Definition float_div (a b : pyfloat) : outcome pyfloat :=
  match b with
  | FFin qb =>
      if Qnum qb =? 0 then Raise ZeroDivisionError
      else
        match a with
        | FFin qa => Ret (float_of_Q (qa / qb))
        | FPosInf => Ret (if Qnum qb <? 0 then FNegInf else FPosInf)
        | FNegInf => Ret (if Qnum qb <? 0 then FPosInf else FNegInf)
        | FNan => Ret FNan
        end
  | FNan => Ret FNan
  | _ => match a with FFin _ => Ret (FFin 0) | _ => Ret FNan end
  end.

(** True division [a / b]: [int / int] is correctly rounded and raises
    [OverflowError] when the quotient does not fit; any other mix converts
    the [int] operand to [float] first. *)
Definition num_truediv (a b : pynum) : outcome pyfloat :=
  match a, b with
  | NInt x, NInt y =>
      if y =? 0 then Raise ZeroDivisionError
      else match b64_nearest (inject_Z x / inject_Z y) with
           | Some q => Ret (FFin q)
           | None => Raise OverflowError
           end
  | NInt x, NFloat fb =>
      match float_of_int x with
      | Ret fa => float_div fa fb
      | Raise e => Raise e
      end
  | NFloat fa, NInt y =>
      match float_of_int y with
      | Ret fb => float_div fa fb
      | Raise e => Raise e
      end
  | NFloat fa, NFloat fb => float_div fa fb
  end.

(** [x + 1] as written in [rejection_count += 1]. *)
Definition num_succ (a : pynum) : pyval :=
  match a with
  | NInt x => JInt (x + 1)
  | NFloat (FFin q) => JFloat (float_of_Q (q + 1))
  | NFloat f => JFloat f
  end.

(** Exact order on numbers: [int] against [float] is compared without
    rounding, as Python does. *)
Definition float_le (a b : pyfloat) : bool :=
  match a, b with
  | FNan, _ | _, FNan => false
  | FNegInf, _ => true
  | _, FPosInf => true
  | FFin x, FFin y => Qle_bool x y
  | _, _ => false
  end.

Definition float_lt (a b : pyfloat) : bool :=
  match a, b with
  | FNan, _ | _, FNan => false
  | _, _ => negb (float_le b a)
  end.

Definition float_of_num (a : pynum) : pyfloat :=
  match a with
  | NInt x => FFin (inject_Z x)
  | NFloat f => f
  end.

Definition num_le (a b : pynum) : bool := float_le (float_of_num a) (float_of_num b).
Definition num_lt (a b : pynum) : bool := float_lt (float_of_num a) (float_of_num b).

(** [a >= b], [a > b], [a <= b] on Python values; one operand is always a
    number in the sources, so anything but a number on the other side is a
    [TypeError]. *)
Definition py_ge (a b : pyval) : outcome bool :=
  match num_of a, num_of b with
  | Some x, Some y => Ret (num_le y x)
  | _, _ => Raise TypeError
  end.

Definition py_gt (a b : pyval) : outcome bool :=
  match num_of a, num_of b with
  | Some x, Some y => Ret (num_lt y x)
  | _, _ => Raise TypeError
  end.

Definition py_le (a b : pyval) : outcome bool := py_ge b a.

(** ** Strings: [int(s)], [str(n)], [s.lower()] *)

(** Strings are byte strings: the whitespace, digits and letters outside
    ASCII that Python also recognises are not modelled. *)
Definition is_space (c : ascii) : bool :=
  let n := nat_of_ascii c in
  ((9 <=? n) && (n <=? 13))%nat || ((28 <=? n) && (n <=? 32))%nat.

Definition digit_of (c : ascii) : option Z :=
  let n := nat_of_ascii c in
  if ((48 <=? n) && (n <=? 57))%nat then Some (Z.of_nat n - 48) else None.

Fixpoint lstrip (s : string) : string :=
  match s with
  | String c s' => if is_space c then lstrip s' else s
  | EmptyString => s
  end.

(** Digits with single underscores between them, then optional trailing
    whitespace.  [started] tells whether a digit has been read, [us] whether
    the previous character was an underscore. *)
Fixpoint parse_digits (s : string) (acc : Z) (started us : bool) : option Z :=
  match s with
  | EmptyString => if started && negb us then Some acc else None
  | String c s' =>
      match digit_of c with
      | Some v => parse_digits s' (10 * acc + v) true false
      | None =>
          if Ascii.eqb c "_" then
            if started && negb us then parse_digits s' acc true true else None
          else if is_space c && started && negb us && String.eqb (lstrip s') ""
          then Some acc
          else None
      end
  end.

(** [int(s)] for a (byte) string. *)
Definition parse_int (s : string) : option Z :=
  match lstrip s with
  | String "-" s' => Z.opp <$> parse_digits s' 0 false false
  | String "+" s' => parse_digits s' 0 false false
  | s' => parse_digits s' 0 false false
  end.

(** [int(v)] *)
Definition py_int (v : pyval) : outcome Z :=
  match v with
  | JInt z => Ret z
  | JBool b => Ret (if b then 1 else 0)
  | JFloat (FFin q) => Ret (Z.quot (Qnum q) (Zpos (Qden q)))
  | JFloat FNan => Raise ValueError
  | JFloat _ => Raise OverflowError
  | JStr s => match parse_int s with Some z => Ret z | None => Raise ValueError end
  | _ => Raise TypeError
  end.

(** [str(n)] for an int. *)
Definition str_of_int (z : Z) : string := pretty z.

Definition lower_ascii (c : ascii) : ascii :=
  let n := nat_of_ascii c in
  if ((65 <=? n) && (n <=? 90))%nat then ascii_of_nat (n + 32) else c.

Fixpoint lower (s : string) : string :=
  match s with
  | EmptyString => EmptyString
  | String c s' => String (lower_ascii c) (lower s')
  end.

(** ** Operations on Python objects *)

Definition empty_dict : pyval := JDict [].

(** [k in c] for a string [k]. *)
Definition py_in (k : string) (c : pyval) : outcome bool :=
  match c with
  | JDict d => Ret (dict_mem d k)
  | JList l =>
      Ret (existsb (fun x => match x with JStr s => String.eqb s k | _ => false end) l)
  | JStr s => Ret (match index 0 k s with Some _ => true | None => false end)
  | _ => Raise TypeError
  end.

(** [c[k]] for a string [k]. *)
Definition py_getitem (c : pyval) (k : string) : outcome pyval :=
  match c with
  | JDict d => match dict_get d k with Some v => Ret v | None => Raise KeyError end
  | _ => Raise TypeError
  end.

(** [c[k] = v] for a string [k]. *)
Definition py_setitem (c : pyval) (k : string) (v : pyval) : outcome pyval :=
  match c with
  | JDict d => Ret (JDict (dict_set d k v))
  | _ => Raise TypeError
  end.

(** [c.get(k, default)] *)
Definition py_get (c : pyval) (k : string) (default : pyval) : outcome pyval :=
  match c with
  | JDict d => Ret (match dict_get d k with Some v => v | None => default end)
  | _ => Raise AttributeError
  end.

(** [c.items()] *)
Definition py_items (c : pyval) : outcome pydict :=
  match c with
  | JDict d => Ret d
  | _ => Raise AttributeError
  end.

(** [s.lower()] *)
Definition py_lower (v : pyval) : outcome string :=
  match v with
  | JStr s => Ret (lower s)
  | _ => Raise AttributeError
  end.

(** [os.path.join(dir, name)] for a relative [name]. *)
Fixpoint ends_with_slash (s : string) : bool :=
  match s with
  | EmptyString => false
  | String c EmptyString => Ascii.eqb c "/"
  | String _ s' => ends_with_slash s'
  end.

Definition path_join (dir name : string) : string :=
  if String.eqb dir "" then name
  else if ends_with_slash dir then dir +:+ name
  else dir +:+ "/" +:+ name.

(** ** The world: store contents and the trace of external calls *)

(** An f-string: literal text and formatted values, in order. *)
Inductive fpart :=
  | Lit (s : string)
  | Fmt (v : pyval).

Inductive event :=
  | EvFileWrite (path : string) (data : pyval)
  | EvDbSave (name : string) (data : pyval)
  | EvMoralisBalances (address : pyval) (chain : pyval) (token_addresses : list pyval)
  | EvMoralisMetadata (chain : pyval) (addresses : list pyval)
  | EvHttpGet (url : list fpart)
  | EvBanChatMember (chat_id : string) (user_id : Z)
  | EvUnbanChatMember (chat_id : string) (user_id : Z).

(** A file that exists either holds a JSON document or cannot be opened or
    parsed. *)
Inductive file :=
  | FileJson (v : pyval)
  | FileBroken.

Record World := mkWorld {
  files : gmap string file;
  db : gmap string pyval;
  trace : list event
}.

(** How an attempt to rewrite a file ends: written, failed before the file
    was touched ([open] raised), or failed after it was truncated (a partial
    dump is not a JSON document). *)
Inductive write_outcome :=
  | WriteOk
  | WriteFailUntouched
  | WriteFailTruncated.

(** The process environment and the outside world.  Every answer of the
    outside may depend on the calls made so far. *)
Record Env := mkEnv {
  DATABASE_URL : option string;
  DATA_DIR : string;
  ADMIN_USER_ID : string;
  MORALIS_API_KEY : option string;
  ETHERSCAN_API_KEY : option string;
  clock : list event -> Z;
  file_write : list event -> string -> pyval -> write_outcome;
  db_write : list event -> string -> pyval -> bool;
  get_wallet_token_balances : list event -> pyval -> pyval -> list pyval -> outcome pyval;
  get_token_metadata : list event -> pyval -> list pyval -> outcome pyval;
  http_get_json : list event -> list fpart -> outcome pyval;
  ban_chat_member : list event -> string -> Z -> outcome unit;
  unban_chat_member : list event -> string -> Z -> outcome unit
}.

(** [os.getenv(name)] used as a condition: set and not empty. *)
Definition env_set (v : option string) : bool :=
  match v with
  | Some s => negb (String.eqb s "")
  | None => false
  end.

(** ** The monad of the embedding: state and exceptions *)

Definition M (A : Type) : Type := World -> outcome A * World.

Definition ret {A} (a : A) : M A := fun w => (Ret a, w).

Definition raise {A} (e : exn) : M A := fun w => (Raise e, w).

Definition bind {A B} (m : M A) (k : A -> M B) : M B :=
  fun w => match m w with
           | (Ret a, w') => k a w'
           | (Raise e, w') => (Raise e, w')
           end.

(** [try: body  except Exception as e: handler(e)] *)
Definition try_except {A} (body : M A) (handler : exn -> M A) : M A :=
  fun w => match body w with
           | (Ret a, w') => (Ret a, w')
           | (Raise e, w') => handler e w'
           end.

Definition lift {A} (o : outcome A) : M A := fun w => (o, w).

Definition get_world : M World := fun w => (Ret w, w).

Definition emit (ev : event) : M unit :=
  fun w => (Ret tt, mkWorld (files w) (db w) (trace w ++ [ev])).

Declare Scope py_scope.
Delimit Scope py_scope with py.
Notation "x <- m ;; k" := (bind m (fun x => k))
  (at level 100, m at next level, right associativity) : py_scope.
Notation "m ;;; k" := (bind m (fun _ => k))
  (at level 100, right associativity) : py_scope.
Open Scope py_scope.

Section Program.

Variable E : Env.

(** ** File paths (verification.py, lines 24-29) *)

Definition CONFIG_PATH : string := path_join (DATA_DIR E) "config.json".
Definition USER_DATA_PATH : string := path_join (DATA_DIR E) "user_data.json".
Definition REJECTED_GROUPS_PATH : string := path_join (DATA_DIR E) "rejected_groups.json".

(** ** PersistentStore: the transactional backend *)

(** Modelled from the spec: [database_simple.load_json_file], which is not
    among the sources.  Each document is one row keyed by resource name; a
    resource that does not exist loads as the empty mapping and loading
    never fails. *)
Definition db_load (name : string) : M pyval :=
  fun w => (Ret (default empty_dict (db w !! name)), w).

(** Modelled from the spec: [database_simple.save_json_file], which is not
    among the sources.  A save replaces the whole document of that name; a
    write failure leaves the row as it was and is reported as [False]. *)
Definition db_save (name : string) (data : pyval) : M bool :=
  fun w =>
    let tr := trace w ++ [EvDbSave name data] in
    if db_write E (trace w) name data
    then (Ret true, mkWorld (files w) (<[name := data]> (db w)) tr)
    else (Ret false, mkWorld (files w) (db w) tr).

(** ** PersistentStore: the file backend *)

(** [os.path.exists(file_path)] *)
Definition path_exists (file_path : string) : M bool :=
  fun w => (Ret (match files w !! file_path with Some _ => true | None => false end), w).

(** [with open(file_path, "r") as f: json.load(f)] *)
Definition json_load (file_path : string) : M pyval :=
  fun w => match files w !! file_path with
           | Some (FileJson v) => (Ret v, w)
           | Some FileBroken => (Raise ValueError, w)
           | None => (Raise (ExternalError "FileNotFoundError"), w)
           end.

(** [with open(file_path, "w") as f: json.dump(data, f, indent=2)] *)
Definition json_dump (file_path : string) (data : pyval) : M unit :=
  fun w =>
    let tr := trace w ++ [EvFileWrite file_path data] in
    match file_write E (trace w) file_path data with
    | WriteOk => (Ret tt, mkWorld (<[file_path := FileJson data]> (files w)) (db w) tr)
    | WriteFailUntouched => (Raise (ExternalError "OSError"), mkWorld (files w) (db w) tr)
    | WriteFailTruncated =>
        (Raise (ExternalError "OSError"),
         mkWorld (<[file_path := FileBroken]> (files w)) (db w) tr)
    end.

(** verification.py, lines 76-91 *)
Definition load_json_file (file_path : string) : M pyval :=
  if env_set (DATABASE_URL E) then db_load file_path
  else
    ex <- path_exists file_path;;
    if ex then
      try_except (json_load file_path) (fun _ => ret empty_dict)
    else ret empty_dict.

(** verification.py, lines 93-107 *)
Definition save_json_file (file_path : string) (data : pyval) : M bool :=
  if env_set (DATABASE_URL E) then db_save file_path data
  else
    try_except (json_dump file_path data;;; ret true) (fun _ => ret false).

(** verification.py, lines 109-111 *)
Definition is_owner (user_id : Z) : bool :=
  String.eqb (str_of_int user_id) (ADMIN_USER_ID E).

(** ** RejectionTracker (verification.py, lines 235-302) *)

(** [int(time.time())] *)
Definition current_time : M pyval :=
  fun w => (Ret (JInt (clock E (trace w))), w).

(** [doc[group_id][field] = v] *)
Definition set_field (doc : pyval) (group_id field : string) (v : pyval) : outcome pyval :=
  match py_getitem doc group_id with
  | Ret rec =>
      match py_setitem rec field v with
      | Ret rec' => py_setitem doc group_id rec'
      | Raise e => Raise e
      end
  | Raise e => Raise e
  end.

(** [doc[group_id][field]] *)
Definition get_field (doc : pyval) (group_id field : string) : outcome pyval :=
  match py_getitem doc group_id with
  | Ret rec => py_getitem rec field
  | Raise e => Raise e
  end.

(** [x + 1] *)
Definition py_succ (x : pyval) : outcome pyval :=
  match num_of x with
  | Some n => Ret (num_succ n)
  | None => Raise TypeError
  end.

(** [if cond: doc[group_id][field] = v] *)
Definition set_field_if (cond : bool) (doc : pyval) (group_id field : string) (v : pyval)
  : outcome pyval :=
  if cond then set_field doc group_id field v else Ret doc.

Definition new_record (group_id : string) (group_name admin_id admin_name now : pyval)
  : pyval :=
  JDict [ ("rejection_count", JInt 0);
          ("group_name", py_or group_name (JStr ("Group " +:+ group_id)));
          ("last_admin_id", admin_id);
          ("last_admin_name", py_or admin_name (JStr "Unknown"));
          ("first_rejection", now);
          ("last_rejection", now);
          ("blocked", JBool false) ].

(** Lines 251-268 of [track_rejection]: the strike itself, once the group
    has a record. *)
Definition record_strike (rejected_groups : pyval) (group_id : string)
    (group_name admin_id admin_name now : pyval) : M pyval :=
  (* Increment rejection count *)
  count <- lift (get_field rejected_groups group_id "rejection_count");;
  count <- lift (py_succ count);;
  rejected_groups <- lift (set_field rejected_groups group_id "rejection_count" count);;
  rejected_groups <- lift (set_field rejected_groups group_id "last_rejection" now);;
  (* Update admin info if provided *)
  rejected_groups <-
    lift (set_field_if (truthy admin_id) rejected_groups group_id "last_admin_id" admin_id);;
  rejected_groups <-
    lift (set_field_if (truthy admin_name) rejected_groups group_id "last_admin_name"
            admin_name);;
  rejected_groups <-
    lift (set_field_if (truthy group_name) rejected_groups group_id "group_name"
            group_name);;
  (* Check if should be blocked (3+ rejections) *)
  count <- lift (get_field rejected_groups group_id "rejection_count");;
  over <- lift (py_ge count (JInt 3));;
  rejected_groups <-
    lift (set_field_if over rejected_groups group_id "blocked" (JBool true));;
  save_json_file REJECTED_GROUPS_PATH rejected_groups;;;
  lift (get_field rejected_groups group_id "blocked").

(** verification.py, lines 235-268 *)
Definition track_rejection (group_id : string) (group_name admin_id admin_name : pyval)
  : M pyval :=
  rejected_groups <- load_json_file REJECTED_GROUPS_PATH;;
  now <- current_time;;
  known <- lift (py_in group_id rejected_groups);;
  rejected_groups <-
    (if negb known
     then lift (py_setitem rejected_groups group_id
                  (new_record group_id group_name admin_id admin_name now))
     else ret rejected_groups);;
  record_strike rejected_groups group_id group_name admin_id admin_name now.

Definition is_group_blocked (group_id : string) : M pyval :=
  rejected_groups <- load_json_file REJECTED_GROUPS_PATH;;
  group_data <- lift (py_get rejected_groups group_id empty_dict);;
  lift (py_get group_data "blocked" (JBool false)).

Definition get_rejection_count (group_id : string) : M pyval :=
  rejected_groups <- load_json_file REJECTED_GROUPS_PATH;;
  group_data <- lift (py_get rejected_groups group_id empty_dict);;
  lift (py_get group_data "rejection_count" (JInt 0)).

Definition reset_rejection_count (group_id : string) : M bool :=
  rejected_groups <- load_json_file REJECTED_GROUPS_PATH;;
  known <- lift (py_in group_id rejected_groups);;
  if known then
    rejected_groups <- lift (set_field rejected_groups group_id "rejection_count" (JInt 0));;
    rejected_groups <- lift (set_field rejected_groups group_id "blocked" (JBool false));;
    save_json_file REJECTED_GROUPS_PATH rejected_groups
  else ret true.

Definition get_blocked_groups : M pyval :=
  rejected_groups <- load_json_file REJECTED_GROUPS_PATH;;
  items <- lift (py_items rejected_groups);;
  (fix loop (items : pydict) (blocked : pydict) : M pyval :=
     match items with
     | [] => ret (JDict blocked)
     | (group_id, data) :: rest =>
         b <- lift (py_get data "blocked" (JBool false));;
         loop rest (if truthy b then dict_set blocked group_id data else blocked)
     end) items [].

Definition get_all_rejections : M pyval :=
  load_json_file REJECTED_GROUPS_PATH.

(** ** BalanceVerifier (verification.py, lines 31-42 and 116-230) *)

Definition CHAIN_MAP : list (string * string) :=
  [ ("eth", "eth"); ("mainnet", "eth"); ("0x1", "eth");
    ("bsc", "bsc"); ("binance", "bsc"); ("0x38", "bsc");
    ("polygon", "polygon"); ("matic", "polygon"); ("0x89", "polygon") ].

Fixpoint assoc (l : list (string * string)) (k : string) : option string :=
  match l with
  | [] => None
  | (k', v) :: l' => if String.eqb k' k then Some v else assoc l' k
  end.

(** [CHAIN_MAP.get(chain_id, chain_id)]: a list or a dict is unhashable, any
    other value that is not a key passes through unchanged. *)
Definition chain_map_get (chain_id : pyval) : outcome pyval :=
  match chain_id with
  | JStr s => Ret (match assoc CHAIN_MAP s with Some c => JStr c | None => chain_id end)
  | JList _ | JDict _ => Raise TypeError
  | _ => Ret chain_id
  end.

(** [evm_api.token.get_token_metadata(api_key=..., params=...)] *)
Definition sdk_get_token_metadata (chain : pyval) (addresses : list pyval) : M pyval :=
  fun w =>
    (get_token_metadata E (trace w) chain addresses,
     mkWorld (files w) (db w) (trace w ++ [EvMoralisMetadata chain addresses])).

(** [evm_api.token.get_wallet_token_balances(api_key=..., params=...)] *)
Definition sdk_get_wallet_token_balances (address chain : pyval) (tokens : list pyval)
  : M pyval :=
  fun w =>
    (get_wallet_token_balances E (trace w) address chain tokens,
     mkWorld (files w) (db w) (trace w ++ [EvMoralisBalances address chain tokens])).

(** [session.get(url)] followed by [resp.json()] *)
Definition http_get (url : list fpart) : M pyval :=
  fun w =>
    (http_get_json E (trace w) url,
     mkWorld (files w) (db w) (trace w ++ [EvHttpGet url])).

(** [v[0]] *)
Definition py_first (v : pyval) : outcome pyval :=
  match v with
  | JList (x :: _) => Ret x
  | JList [] => Raise IndexError
  | JStr (String c _) => Ret (JStr (String c EmptyString))
  | JStr EmptyString => Raise IndexError
  | JDict _ => Raise KeyError
  | _ => Raise TypeError
  end.

(** verification.py, lines 116-134 *)
Definition get_token_decimals (token_address chain_id : pyval) : M Z :=
  try_except
    (moralis_chain <- lift (chain_map_get chain_id);;
     token_metadata <- sdk_get_token_metadata moralis_chain [token_address];;
     first <- lift (py_first token_metadata);;
     d <- lift (py_get first "decimals" (JInt 18));;
     decimals <- lift (py_int d);;
     ret decimals)
    (fun _ => ret 18).

(** The loop of [get_token_balance_moralis]: the first entry for the token
    decides; [None] when the loop ends without a match. *)
Fixpoint find_token_balance (result : list pyval) (token : pyval)
  : outcome (option pyfloat) :=
  match result with
  | [] => Ret None
  | token_data :: rest =>
      match py_get token_data "token_address" (JStr "") with
      | Raise e => Raise e
      | Ret a =>
          match py_lower a, py_lower token with
          | Ret la, Ret lt =>
              if String.eqb la lt then
                match py_get token_data "balance" (JInt 0) with
                | Raise e => Raise e
                | Ret b =>
                    match py_int b with
                    | Raise e => Raise e
                    | Ret raw_balance =>
                        match py_get token_data "decimals" (JInt 18) with
                        | Raise e => Raise e
                        | Ret d =>
                            match py_int d with
                            | Raise e => Raise e
                            | Ret decimals =>
                                match num_truediv (NInt raw_balance) (pow10 decimals) with
                                | Ret f => Ret (Some f)
                                | Raise e => Raise e
                                end
                            end
                        end
                    end
                end
              else find_token_balance rest token
          | Raise e, _ => Raise e
          | _, Raise e => Raise e
          end
      end
  end.

(** verification.py, lines 136-163 *)
Definition get_token_balance_moralis (wallet token chain : pyval) : M pyfloat :=
  try_except
    (result <- sdk_get_wallet_token_balances wallet chain [token];;
     match result with
     | JList (x :: l) =>
         found <- lift (find_token_balance (x :: l) token);;
         ret (match found with Some f => f | None => FFin 0 end)
     | _ => ret (FFin 0)
     end)
    (fun _ => ret (FFin 0)).

(** The request URL of [get_token_balance_etherscan], as the f-string is
    written. *)
Definition etherscan_url (wallet token : pyval) (api_key : string) : list fpart :=
  [ Lit "https://api.etherscan.io/v2/api";
    Lit "?chainid=1";
    Lit "&module=account";
    Lit "&action=tokenbalance";
    Lit "&contractaddress="; Fmt token;
    Lit "&address="; Fmt wallet;
    Lit "&tag=latest";
    Lit "&apikey="; Lit api_key ].

(** verification.py, lines 165-190.  The result is the raw [int] balance, or
    the float [0.0] when there is no key or the request fails. *)
Definition get_token_balance_etherscan (wallet token : pyval) : M pynum :=
  if negb (env_set (ETHERSCAN_API_KEY E)) then ret (NFloat (FFin 0))
  else
    let url := etherscan_url wallet token (default "" (ETHERSCAN_API_KEY E)) in
    try_except
      (result <- http_get url;;
       r <- lift (py_get result "result" (JStr "0"));;
       raw_balance <- lift (py_int r);;
       ret (NInt raw_balance))
      (fun _ => ret (NFloat (FFin 0))).

(** [MORALIS_API_KEY and len(MORALIS_API_KEY) > 50] *)
Definition moralis_key_valid : bool :=
  match MORALIS_API_KEY E with
  | Some k => (50 <? String.length k)%nat
  | None => false
  end.

(** Lines 217-223: the Etherscan fallback. *)
Definition etherscan_fallback (user_address token_address chain_id : pyval) : M pyfloat :=
  etherscan_balance_raw <- get_token_balance_etherscan user_address token_address;;
  decimals <- get_token_decimals token_address chain_id;;
  lift (num_truediv etherscan_balance_raw (pow10 decimals)).

(** Lines 204-214: the Moralis attempt; the balance stays [0.0] when the key
    does not look valid or anything raises. *)
Definition moralis_attempt (user_address token_address chain_id : pyval) : M pyfloat :=
  if moralis_key_valid then
    try_except
      (moralis_chain <- lift (chain_map_get chain_id);;
       get_token_balance_moralis user_address token_address moralis_chain)
      (fun _ => ret (FFin 0))
  else ret (FFin 0).

(** verification.py, lines 192-230 *)
Definition verify_user_balance (group_config user_address : pyval) : M bool :=
  try_except
    (token_address <- lift (py_getitem group_config "token");;
     min_balance <- lift (py_getitem group_config "min_balance");;
     chain_id <- lift (py_get group_config "chain_id" (JStr "eth"));;
     balance <- moralis_attempt user_address token_address chain_id;;
     balance <-
       (if float_le balance (FFin 0)
        then etherscan_fallback user_address token_address chain_id
        else ret balance);;
     lift (py_ge (JFloat balance) min_balance))
    (fun _ => ret false).

(** ** ReverificationScheduler (verify_cron.py) *)

(** [len(v)] *)
Definition py_len (v : pyval) : outcome Z :=
  match v with
  | JDict d => Ret (Z.of_nat (length d))
  | JList l => Ret (Z.of_nat (length l))
  | JStr s => Ret (Z.of_nat (String.length s))
  | _ => Raise TypeError
  end.

(** [await bot.ban_chat_member(chat_id=..., user_id=...)] *)
Definition bot_ban_chat_member (chat_id : string) (user_id : Z) : M unit :=
  fun w =>
    (ban_chat_member E (trace w) chat_id user_id,
     mkWorld (files w) (db w) (trace w ++ [EvBanChatMember chat_id user_id])).

(** [await bot.unban_chat_member(chat_id=..., user_id=...)] *)
Definition bot_unban_chat_member (chat_id : string) (user_id : Z) : M unit :=
  fun w =>
    (unban_chat_member E (trace w) chat_id user_id,
     mkWorld (files w) (db w) (trace w ++ [EvUnbanChatMember chat_id user_id])).

(** [user_data[group_id][user_id]["verified"] = False] *)
Definition mark_unverified (user_data : pyval) (group_id user_id : string) : outcome pyval :=
  match py_getitem user_data group_id with
  | Raise e => Raise e
  | Ret group =>
      match set_field group user_id "verified" (JBool false) with
      | Raise e => Raise e
      | Ret group' => py_setitem user_data group_id group'
      end
  end.

(** The counters reported at the end of a group's pass. *)
Record counts := mkCounts {
  verified_count : Z;
  removed_count : Z;
  error_count : Z
}.

(** Lines 59-74: the removal of a member found below the threshold. *)
Definition remove_member (group_id user_id : string) (uid : Z) (user_data : pyval)
    (c : counts) : M (pyval * counts) :=
  try_except
    (bot_ban_chat_member group_id uid;;;
     bot_unban_chat_member group_id uid;;;
     user_data' <- lift (mark_unverified user_data group_id user_id);;
     save_json_file USER_DATA_PATH user_data';;;
     ret (user_data', mkCounts (verified_count c) (removed_count c + 1) (error_count c)))
    (fun _ =>
       ret (user_data, mkCounts (verified_count c) (removed_count c) (error_count c + 1))).

(** Lines 48-77: the body of the loop, for one member. *)
Definition member_step (group_id : string) (group_config : pyval)
    (user_id : string) (user_info : pyval) (user_data : pyval) (c : counts)
  : M (pyval * counts) :=
  uid <- lift (py_int (JStr user_id));;
  (* Skip owner - permanent access *)
  if is_owner uid then ret (user_data, c)
  else
    v <- lift (py_get user_info "verified" JNull);;
    if truthy v then
      user_address <- lift (py_getitem user_info "address");;
      has_balance <- verify_user_balance group_config user_address;;
      if negb has_balance then remove_member group_id user_id uid user_data c
      else ret (user_data,
                mkCounts (verified_count c + 1) (removed_count c) (error_count c))
    else ret (user_data, c).

(** Lines 47-77: the loop over [group_users.items()].  [user_data] is the
    document loaded at the start of the pass, carrying the updates made so
    far; a member's record is only ever changed at its own turn, after it
    has been read. *)
Fixpoint members_loop (group_id : string) (group_config : pyval) (items : pydict)
    (user_data : pyval) (c : counts) : M (pyval * counts) :=
  match items with
  | [] => ret (user_data, c)
  | (user_id, user_info) :: rest =>
      r <- member_step group_id group_config user_id user_info user_data c;;
      members_loop group_id group_config rest (fst r) (snd r)
  end.

(** verify_cron.py, lines 32-82.  The result is the summary that is logged
    when the pass completes, [None] when the pass was cut short. *)
Definition verify_all_members (group_id : string) (group_config : pyval)
  : M (option counts) :=
  try_except
    (lift (py_get group_config "min_balance" JNull);;;
     lift (py_get group_config "token" JNull);;;
     user_data <- load_json_file USER_DATA_PATH;;
     group_users <- lift (py_get user_data group_id empty_dict);;
     lift (py_len group_users);;;
     items <- lift (py_items group_users);;
     r <- members_loop group_id group_config items user_data (mkCounts 0 0 0);;
     ret (Some (snd r)))
    (fun _ => ret None).

(** Lines 96-97: the configuration of every group is logged first. *)
Fixpoint log_configs (items : pydict) : outcome unit :=
  match items with
  | [] => Ret tt
  | (gid, gconf) :: rest =>
      match py_get gconf "token" JNull with
      | Raise e => Raise e
      | Ret _ =>
          match py_get gconf "min_balance" JNull with
          | Raise e => Raise e
          | Ret _ => log_configs rest
          end
      end
  end.

(** Lines 102-107: one pass per configured group, the configuration being
    reloaded for each. *)
Fixpoint groups_loop (items : pydict) : M unit :=
  match items with
  | [] => ret tt
  | (group_id, group_config) :: rest =>
      fresh_config <- load_json_file CONFIG_PATH;;
      fresh_group_config <- lift (py_get fresh_config group_id group_config);;
      verify_all_members group_id fresh_group_config;;;
      groups_loop rest
  end.

(** verify_cron.py, lines 84-109.  [Bot(token=TOKEN)] only builds the client
    object whose two methods are the chat actions above. *)
Definition periodic_verification : M unit :=
  config <- load_json_file CONFIG_PATH;;
  if negb (truthy config) then ret tt
  else
    lift (py_len config);;;
    items <- lift (py_items config);;
    lift (log_configs items);;;
    groups_loop items.

End Program.

(** ** Whitelist bookkeeping and the cron entry point *)

(** [del c[k]] for a string [k]. *)
Fixpoint dict_del (d : pydict) (k : string) : pydict :=
  match d with
  | [] => []
  | (k', v) :: d' => if String.eqb k' k then d' else (k', v) :: dict_del d' k
  end.

Definition py_delitem (c : pyval) (k : string) : outcome pyval :=
  match c with
  | JDict d => if dict_mem d k then Ret (JDict (dict_del d k)) else Raise KeyError
  | _ => Raise TypeError
  end.

Section Collaborators.

Variable E : Env.

Definition WHITELIST_PATH : string := path_join (DATA_DIR E) "whitelist.json".
Definition PENDING_WHITELIST_PATH : string :=
  path_join (DATA_DIR E) "pending_whitelist.json".

(** verification.py, lines 307-310 *)
Definition is_group_whitelisted (group_id : string) : M bool :=
  whitelist <- load_json_file E WHITELIST_PATH;;
  lift (py_in group_id whitelist).

(** verification.py, lines 312-316 *)
Definition whitelist_group (group_id : string) : M bool :=
  whitelist <- load_json_file E WHITELIST_PATH;;
  whitelist <- lift (py_setitem whitelist group_id (JBool true));;
  save_json_file E WHITELIST_PATH whitelist.

(** verification.py, lines 318-327 *)
Definition add_pending_whitelist (group_id : string) (group_name admin_id admin_name : pyval)
  : M bool :=
  pending <- load_json_file E PENDING_WHITELIST_PATH;;
  now <- current_time E;;
  pending <- lift (py_setitem pending group_id
                     (JDict [ ("group_name", group_name);
                              ("admin_id", admin_id);
                              ("admin_name", admin_name);
                              ("timestamp", now) ]));;
  save_json_file E PENDING_WHITELIST_PATH pending.

(** verification.py, lines 329-335 *)
Definition remove_pending_whitelist (group_id : string) : M bool :=
  pending <- load_json_file E PENDING_WHITELIST_PATH;;
  known <- lift (py_in group_id pending);;
  if known then
    pending <- lift (py_delitem pending group_id);;
    save_json_file E PENDING_WHITELIST_PATH pending
  else ret true.

(** verify_cron.py, lines 111-120.  The result is the exit status: 0 when
    [main] returns, 1 when it ends in [sys.exit(1)]. *)
Definition main : M Z :=
  try_except (periodic_verification E;;; ret 0) (fun _ => ret 1).

End Collaborators.

(** ** Secrets from the environment (verification.py, lines 47-68) *)

(** [s.rstrip()] and [s.strip()] *)
Fixpoint rstrip (s : string) : string :=
  match s with
  | EmptyString => EmptyString
  | String c s' =>
      let r := rstrip s' in
      if String.eqb r "" && is_space c then EmptyString else String c r
  end.

Definition strip (s : string) : string := rstrip (lstrip s).

(** [s.split("=", 1)[1]]: what follows the first [=]. *)
Fixpoint after_first_eq (s : string) : outcome string :=
  match s with
  | EmptyString => Raise IndexError
  | String c s' => if Ascii.eqb c "=" then Ret s' else after_first_eq s'
  end.

(** The [.env] file of the working directory: absent, readable as a list of
    lines, or failing to open or decode with an error other than
    [FileNotFoundError]. *)
Inductive dotenv :=
  | DotenvMissing
  | DotenvLines (lines : list string)
  | DotenvUnreadable.

(** A string option used as a condition: set and not empty. *)
Definition secret_set (v : option string) : bool := env_set v.

Record secrets := mkSecrets {
  telegram_token : option string;
  moralis_key : option string;
  etherscan_key : option string
}.

(** Lines 58-64: one line of the file. *)
Definition read_secret_line (line : string) (acc : secrets) : outcome secrets :=
  let line := strip line in
  if String.prefix "TELEGRAM_BOT_TOKEN=" line && negb (secret_set (telegram_token acc)) then
    match after_first_eq line with
    | Ret v => Ret (mkSecrets (Some (strip v)) (moralis_key acc) (etherscan_key acc))
    | Raise e => Raise e
    end
  else if String.prefix "MORALIS_API_KEY=" line && negb (secret_set (moralis_key acc)) then
    match after_first_eq line with
    | Ret v => Ret (mkSecrets (telegram_token acc) (Some (strip v)) (etherscan_key acc))
    | Raise e => Raise e
    end
  else if String.prefix "ETHERSCAN_API_KEY=" line && negb (secret_set (etherscan_key acc)) then
    match after_first_eq line with
    | Ret v => Ret (mkSecrets (telegram_token acc) (moralis_key acc) (Some (strip v)))
    | Raise e => Raise e
    end
  else Ret acc.

Fixpoint read_secret_lines (lines : list string) (acc : secrets) : outcome secrets :=
  match lines with
  | [] => Ret acc
  | line :: rest =>
      match read_secret_line line acc with
      | Ret acc' => read_secret_lines rest acc'
      | Raise e => Raise e
      end
  end.

(** [get_token_from_env()], given [os.getenv] and the [.env] file. *)
Definition get_token_from_env (getenv : string -> option string) (file : dotenv)
  : outcome secrets :=
  let acc := mkSecrets (getenv "TELEGRAM_BOT_TOKEN") (getenv "MORALIS_API_KEY")
                       (getenv "ETHERSCAN_API_KEY") in
  (* Fallback to .env file if not set *)
  if negb (secret_set (telegram_token acc) && secret_set (moralis_key acc)
           && secret_set (etherscan_key acc))
  then
    match file with
    | DotenvMissing => Ret acc
    | DotenvLines lines => read_secret_lines lines acc
    | DotenvUnreadable => Raise (ExternalError "OSError")
    end
  else Ret acc.

(** ** Notions used to state the properties *)

(** The document a resource currently holds: a row of the database, or a
    file that exists and parses. *)
Definition stored (E : Env) (w : World) (name : string) : option pyval :=
  if env_set (DATABASE_URL E) then db w !! name
  else match files w !! name with
       | Some (FileJson v) => Some v
       | _ => None
       end.

(** Whether the next write of [data] under [name] goes through. *)
Definition write_ok (E : Env) (w : World) (name : string) (data : pyval) : bool :=
  if env_set (DATABASE_URL E) then db_write E (trace w) name data
  else match file_write E (trace w) name data with
       | WriteOk => true
       | _ => false
       end.

(** A store whose writes never fail. *)
Definition reliable (E : Env) : Prop :=
  forall tr name data, file_write E tr name data = WriteOk /\ db_write E tr name data = true.

(** The rejected_groups document as the tracker reads it. *)
Definition rejected_doc (E : Env) (w : World) : pyval :=
  default empty_dict (stored E w (REJECTED_GROUPS_PATH E)).

(** A rejection record with count [n] whose [blocked] flag agrees with it. *)
Definition record_at (rec : pyval) (n : Z) : Prop :=
  exists r, rec = JDict r /\
            dict_get r "rejection_count" = Some (JInt n) /\
            dict_get r "blocked" = Some (JBool (3 <=? n)).

(** The state of one group in the document: no record yet (count 0), or a
    consistent record with count [n]. *)
Definition group_at (doc : pyval) (group_id : string) (n : Z) : Prop :=
  exists d, doc = JDict d /\
            ((dict_get d group_id = None /\ n = 0) \/
             (exists rec, dict_get d group_id = Some rec /\ record_at rec n)).

(** Every record of the document is consistent with some count. *)
Definition all_records_at (doc : pyval) : Prop :=
  exists d, doc = JDict d /\
            forall group_id rec, dict_get d group_id = Some rec -> exists n, record_at rec n.

(** [blocked == (rejection_count >= 3)] for one record, in Python's terms. *)
Definition record_consistent (rec : pyval) : Prop :=
  exists count blocked,
    py_getitem rec "rejection_count" = Ret count /\
    py_getitem rec "blocked" = Ret (JBool blocked) /\
    py_ge count (JInt 3) = Ret blocked.

Definition doc_consistent (doc : pyval) : Prop :=
  exists d, doc = JDict d /\
            forall group_id rec, dict_get d group_id = Some rec -> record_consistent rec.

(** The mutating operations of the tracker. *)
Inductive tracker_op :=
  | OpTrack (group_id : string) (group_name admin_id admin_name : pyval)
  | OpReset (group_id : string).

Definition run_op (E : Env) (op : tracker_op) (w : World) : World :=
  match op with
  | OpTrack g gn ai an => snd (track_rejection E g gn ai an w)
  | OpReset g => snd (reset_rejection_count E g w)
  end.

(** Worlds reached from an empty rejected_groups document by any sequence of
    tracker mutations, whatever the outcome of each write. *)
Inductive reachable (E : Env) : World -> Prop :=
  | reach_empty w : rejected_doc E w = empty_dict -> reachable E w
  | reach_step w op : reachable E w -> reachable E (run_op E op w).

(** [n] successive rejections of one group, each with its own metadata; the
    result is the list of the values returned. *)
Fixpoint track_many (E : Env) (group_id : string) (calls : list (pyval * pyval * pyval))
  : M (list pyval) :=
  match calls with
  | [] => ret []
  | (gn, ai, an) :: rest =>
      b <- track_rejection E group_id gn ai an;;
      bs <- track_many E group_id rest;;
      ret (b :: bs)
  end.

(** What the k-th of a run of calls returns, counting from [k]. *)
Fixpoint strike_results (k : Z) (n : nat) : list pyval :=
  match n with
  | O => []
  | S n' => JBool (3 <=? k) :: strike_results (k + 1) n'
  end.

(** What [verify_user_balance] answers once the balance is resolved (or an
    exception took its place): [balance >= min_balance], and [False] when
    anything raised. *)
Definition compliance (balance : outcome pyfloat) (min_balance : pyval) : bool :=
  match balance with
  | Ret f => match py_ge (JFloat f) min_balance with Ret b => b | Raise _ => false end
  | Raise _ => false
  end.

Definition float_is_zero (f : pyfloat) : bool :=
  match f with FFin q => Qnum q =? 0 | _ => false end.

Definition num_is_zero (n : pynum) : bool :=
  match n with NInt z => z =? 0 | NFloat f => float_is_zero f end.

(** The requests the fallback path sends out, in order: the Etherscan balance
    query (when a key is configured) and the Moralis metadata query for the
    decimals (when the chain identifier is hashable). *)
Definition fallback_requests (E : Env) (user_address token_address chain_id : pyval)
  : list event :=
  (if env_set (ETHERSCAN_API_KEY E)
   then [EvHttpGet (etherscan_url user_address token_address
                      (default "" (ETHERSCAN_API_KEY E)))]
   else []) ++
  match chain_map_get chain_id with
  | Ret moralis_chain => [EvMoralisMetadata moralis_chain [token_address]]
  | Raise _ => []
  end.

Definition http_requests (evs : list event) : list (list fpart) :=
  omap (fun ev => match ev with EvHttpGet url => Some url | _ => None end) evs.

Definition metadata_requests (evs : list event) : list (pyval * list pyval) :=
  omap (fun ev => match ev with
                  | EvMoralisMetadata chain addresses => Some (chain, addresses)
                  | _ => None
                  end) evs.

(** Requests to the balance providers, as opposed to chat actions and
    writes. *)
Definition provider_event (ev : event) : Prop :=
  match ev with
  | EvMoralisBalances _ _ _ | EvMoralisMetadata _ _ | EvHttpGet _ => True
  | _ => False
  end.

(** A member key that [is_owner(int(user_id))] accepts. *)
Definition owner_key (E : Env) (user_id : string) : bool :=
  match parse_int user_id with
  | Some uid => is_owner E uid
  | None => false
  end.

(** The record of one member of one group in a user_data document. *)
Definition member_record (doc : pyval) (group_id user_id : string) : option pyval :=
  match doc with
  | JDict d =>
      match dict_get d group_id with
      | Some (JDict group) => dict_get group user_id
      | _ => None
      end
  | _ => None
  end.

(** [doc] has the owner's records exactly as [doc0] has them. *)
Definition same_owner_records (E : Env) (doc0 doc : pyval) : Prop :=
  forall group_id user_id,
    owner_key E user_id = true ->
    member_record doc group_id user_id = member_record doc0 group_id user_id.

(** An external call that leaves the owner alone: a chat action on someone
    else, or a save of the member document with the owner's records as they
    were in [doc0]. *)
Definition event_spares_owner (E : Env) (doc0 : pyval) (ev : event) : Prop :=
  match ev with
  | EvBanChatMember _ uid | EvUnbanChatMember _ uid => is_owner E uid = false
  | EvFileWrite name data | EvDbSave name data =>
      name = USER_DATA_PATH E /\ same_owner_records E doc0 data
  | _ => True
  end.

(** The stored member document, if it can be read, has the owner's records
    as they were in [doc0]. *)
Definition store_spares_owner (E : Env) (doc0 : pyval) (w : World) : Prop :=
  match stored E w (USER_DATA_PATH E) with
  | Some doc => same_owner_records E doc0 doc
  | None => True
  end.

(** From [w] to [w'] only owner-sparing calls were made and the stored
    member document kept the owner's records. *)
Definition spares_owner (E : Env) (doc0 : pyval) (w w' : World) : Prop :=
  (exists evs, trace w' = trace w ++ evs /\ Forall (event_spares_owner E doc0) evs) /\
  (store_spares_owner E doc0 w -> store_spares_owner E doc0 w').

(** The member document as the scheduler loads it. *)
Definition user_doc (E : Env) (w : World) : pyval :=
  default empty_dict (stored E w (USER_DATA_PATH E)).

(** The event a save leaves in the trace. *)
Definition save_event (E : Env) (name : string) (data : pyval) : event :=
  if env_set (DATABASE_URL E) then EvDbSave name data else EvFileWrite name data.

(** The record a strike leaves behind, for a record [r] whose count was the
    integer [n]. *)
Definition struck_record (r : pydict) (n : Z) (group_name admin_id admin_name now : pyval)
  : pydict :=
  let r := dict_set r "rejection_count" (JInt (n + 1)) in
  let r := dict_set r "last_rejection" now in
  let r := if truthy admin_id then dict_set r "last_admin_id" admin_id else r in
  let r := if truthy admin_name then dict_set r "last_admin_name" admin_name else r in
  let r := if truthy group_name then dict_set r "group_name" group_name else r in
  if 3 <=? n + 1 then dict_set r "blocked" (JBool true) else r.

(** Whether [get_blocked_groups] keeps a record: [data.get("blocked", False)]
    is true. *)
Definition record_blocked (data : pyval) : bool :=
  match py_get data "blocked" (JBool false) with
  | Ret b => truthy b
  | Raise _ => false
  end.

Definition blocked_entries (d : pydict) : pydict :=
  List.filter (fun kv => record_blocked (snd kv)) d.

(** The whitelist and pending-whitelist documents as their functions read
    them. *)
Definition whitelist_doc (E : Env) (w : World) : pyval :=
  default empty_dict (stored E w (WHITELIST_PATH E)).

Definition pending_doc (E : Env) (w : World) : pyval :=
  default empty_dict (stored E w (PENDING_WHITELIST_PATH E)).

(** [token_data.get('token_address', '')] for an entry of the Moralis
    answer. *)
Definition entry_address (token_data : pydict) : pyval :=
  default (JStr "") (dict_get token_data "token_address").

(** The requests a balance check may send, in order: the Moralis balance
    query when [primary] is set, then the fallback's requests when
    [fallback] is set. *)
Definition check_requests (E : Env) (addr token chain : pyval) (primary fallback : bool)
  : list event :=
  (if primary then
     match chain_map_get chain with
     | Ret c => [EvMoralisBalances addr c [token]]
     | Raise _ => []
     end
   else []) ++
  (if fallback then fallback_requests E addr token chain else []).

(** From [w] to [w'] the world invariant [Inv] was kept and only calls
    satisfying [Q] were made. *)
Definition keeps (Inv : World -> Prop) (Q : event -> Prop) (w w' : World) : Prop :=
  (Inv w -> Inv w') /\
  exists evs, trace w' = trace w ++ evs /\ Forall Q evs.

(** The configuration document as the scheduler loads it. *)
Definition config_doc (E : Env) (w : World) : pyval :=
  default empty_dict (stored E w (CONFIG_PATH E)).

Definition is_dict (v : pyval) : bool :=
  match v with JDict _ => true | _ => false end.

(** A configuration the cycle can walk: a mapping whose values are
    mappings. *)
Definition config_walkable (config : pyval) : bool :=
  match config with
  | JDict d => forallb (fun kv => is_dict (snd kv)) d
  | _ => false
  end.

(** A write event, and whether it goes to the member document. *)
Definition writes_only_user_data (E : Env) (ev : event) : Prop :=
  match ev with
  | EvFileWrite name _ | EvDbSave name _ => name = USER_DATA_PATH E
  | _ => True
  end.

(** [doc] is [doc0] with some members' [verified] flag set to [False] and
    nothing else changed: no member added or dropped, no other field
    touched. *)
Definition only_unverified (doc0 doc : pyval) : Prop :=
  forall group_id user_id,
    member_record doc group_id user_id = member_record doc0 group_id user_id \/
    exists r, member_record doc0 group_id user_id = Some (JDict r) /\
              member_record doc group_id user_id
                = Some (JDict (dict_set r "verified" (JBool false))).

(** Every resource but the member document holds in [w] what it holds in
    [w0]. *)
Definition same_elsewhere (E : Env) (w0 w : World) : Prop :=
  forall name, name <> USER_DATA_PATH E -> stored E w name = stored E w0 name.

(** The stored member document, if it can be read, is [doc0] with some
    members unverified. *)
Definition store_only_unverified (E : Env) (doc0 : pyval) (w : World) : Prop :=
  match stored E w (USER_DATA_PATH E) with
  | Some doc => only_unverified doc0 doc
  | None => True
  end.

Definition saves_only_unverified (doc0 : pyval) (ev : event) : Prop :=
  match ev with
  | EvFileWrite _ data | EvDbSave _ data => only_unverified doc0 data
  | _ => True
  end.

(** A member the pass checks: not the owner, with a true [verified] flag. *)
Definition checked_member (E : Env) (kv : string * pyval) : bool :=
  match parse_int (fst kv) with
  | Some uid =>
      negb (is_owner E uid) &&
      match py_get (snd kv) "verified" JNull with
      | Ret v => truthy v
      | Raise _ => false
      end
  | None => false
  end.

Definition counts_total (c : counts) : Z :=
  verified_count c + removed_count c + error_count c.

(** A computation that neither reads nor writes the store: run on any files
    and database it gives the same result and the same trace, and leaves
    them as they are. *)
Definition blind {A} (m : M A) : Prop :=
  forall w fs d,
    m (mkWorld fs d (trace w)) = (fst (m w), mkWorld fs d (trace (snd (m w)))).

(** Two worlds the scheduler cannot tell apart: same trace, same
    configuration, same member document. *)
Definition agree (E : Env) (w1 w2 : World) : Prop :=
  trace w1 = trace w2 /\
  stored E w1 (CONFIG_PATH E) = stored E w2 (CONFIG_PATH E) /\
  stored E w1 (USER_DATA_PATH E) = stored E w2 (USER_DATA_PATH E).

Definition respects {A} (E : Env) (m : M A) : Prop :=
  forall w1 w2, agree E w1 w2 ->
    fst (m w1) = fst (m w2) /\ agree E (snd (m w1)) (snd (m w2)).

(** The world [w] with the rejected_groups resource replaced by [doc]. *)
Definition with_rejected (E : Env) (doc : pyval) (w : World) : World :=
  if env_set (DATABASE_URL E)
  then mkWorld (files w) (<[REJECTED_GROUPS_PATH E := doc]> (db w)) (trace w)
  else mkWorld (<[REJECTED_GROUPS_PATH E := FileJson doc]> (files w)) (db w) (trace w).

(** Text within ASCII, on which [strip] and [lower] are Python's. *)
Definition ascii_text (s : string) : bool :=
  forallb (fun c => (nat_of_ascii c <? 128)%nat) (list_ascii_of_string s).

(** ** Concrete environments used in the examples *)

(** File backend under [/data], no provider keys, every provider call
    failing, every write and every chat action succeeding. *)
Definition offline_env : Env :=
  mkEnv None "/data" "1825755152" None None
    (fun _ => 1700000000)
    (fun _ _ _ => WriteOk) (fun _ _ _ => true)
    (fun _ _ _ _ => Raise (ExternalError "unreachable"))
    (fun _ _ _ => Raise (ExternalError "unreachable"))
    (fun _ _ => Raise (ExternalError "unreachable"))
    (fun _ _ _ => Ret tt) (fun _ _ _ => Ret tt).

Definition empty_world : World := mkWorld ∅ ∅ [].

(** A gated group as the tests configure it, with threshold [min_balance]. *)
Definition group_config_with (min_balance : pyval) : pyval :=
  JDict [ ("chain_id", JStr "bsc");
          ("token", JStr "0x1234567890123456789012345678901234567890");
          ("min_balance", min_balance);
          ("verifier", JStr "0x0987654321098765432109876543210987654321") ].

Definition member_address : pyval := JStr "0x000000000Ab8Af2f9fFFD660214F27C6067Ed072".


(** One gated group with threshold 1000 and two verified members, the second
    being the owner. *)
Definition sample_config : pyval :=
  JDict [("-1001234567890", group_config_with (JFloat (FFin 1000)))].

Definition sample_member (verified : bool) : pyval :=
  JDict [ ("address", member_address);
          ("verified", JBool verified);
          ("last_verified", JInt 1234567890);
          ("verification_tx", JBool true) ].

Definition sample_users : pyval :=
  JDict [("-1001234567890",
          JDict [ ("7585807164", sample_member true);
                  ("1825755152", sample_member true) ])].

Definition sample_world : World :=
  mkWorld (<["/data/config.json" := FileJson sample_config]>
             (<["/data/user_data.json" := FileJson sample_users]> ∅))
          ∅ [].

(** [sample_world] after three rejections of the group. *)
Definition blocked_world : World :=
  snd (track_many offline_env "-1001234567890"
         [ (JStr "Test Group", JStr "123456789", JStr "Test Admin");
           (JStr "Test Group", JStr "123456789", JStr "Test Admin");
           (JStr "Test Group", JStr "123456789", JStr "Test Admin") ]
         sample_world).

(** The record of the group in [blocked_world]. *)
Definition blocked_record : pydict :=
  [ ("rejection_count", JInt 3);
    ("group_name", JStr "Test Group");
    ("last_admin_id", JStr "123456789");
    ("last_admin_name", JStr "Test Admin");
    ("first_rejection", JInt 1700000000);
    ("last_rejection", JInt 1700000000);
    ("blocked", JBool true) ].

Definition sample_key : string :=
  "k0123456789abcdef0123456789abcdef0123456789abcdef0123456789abcdef".

(** Both provider keys configured; Moralis reports a balance of
    2500 * 10^18 raw units at 18 decimals for the gated token. *)
Definition moralis_env : Env :=
  mkEnv None "/data" "1825755152" (Some sample_key) (Some "ETHERSCAN-KEY")
    (fun _ => 1700000000)
    (fun _ _ _ => WriteOk) (fun _ _ _ => true)
    (fun _ _ _ _ =>
       Ret (JList [JDict [ ("token_address",
                            JStr "0x1234567890123456789012345678901234567890");
                           ("balance", JStr "2500000000000000000000");
                           ("decimals", JInt 18) ]]))
    (fun _ _ _ => Raise (ExternalError "unreachable"))
    (fun _ _ => Raise (ExternalError "unreachable"))
    (fun _ _ _ => Ret tt) (fun _ _ _ => Ret tt).


(** Moralis answers two entries: another token first, then the token asked
    for, in lower case. *)
Definition two_token_env : Env :=
  mkEnv None "/data" "1825755152" (Some sample_key) (Some "ETHERSCAN-KEY")
    (fun _ => 1700000000)
    (fun _ _ _ => WriteOk) (fun _ _ _ => true)
    (fun _ _ _ _ =>
       Ret (JList [JDict [ ("token_address",
                            JStr "0xabcdefabcdefabcdefabcdefabcdefabcdefabcd");
                           ("balance", JStr "7");
                           ("decimals", JInt 0) ];
                   JDict [ ("token_address",
                            JStr "0x1234567890123456789012345678901234567890");
                           ("balance", JStr "2500000000000000000000");
                           ("decimals", JInt 18) ]]))
    (fun _ _ _ => Raise (ExternalError "unreachable"))
    (fun _ _ => Raise (ExternalError "unreachable"))
    (fun _ _ _ => Ret tt) (fun _ _ _ => Ret tt).

(** * Properties *)

(** ** Dictionaries *)

Lemma dict_get_set_eq (d : pydict) k v : dict_get (dict_set d k v) k = Some v.
Proof.
  induction d as [|[k' v'] d IH]; simpl.
  - by rewrite String.eqb_refl.
  - destruct (String.eqb k' k) eqn:Hk; simpl; rewrite Hk; auto.
Qed.

Lemma dict_get_set_ne (d : pydict) k k' v :
  k <> k' -> dict_get (dict_set d k v) k' = dict_get d k'.
Proof.
  intros Hne. induction d as [|[k0 v0] d IH]; simpl.
  - destruct (String.eqb_spec k k'); congruence.
  - destruct (String.eqb_spec k0 k) as [->|Hk]; simpl.
    + destruct (String.eqb_spec k k'); congruence.
    + by rewrite IH.
Qed.

Lemma dict_get_set (d : pydict) k k' v :
  dict_get (dict_set d k v) k' = if String.eqb k k' then Some v else dict_get d k'.
Proof.
  destruct (String.eqb_spec k k') as [->|Hne].
  - apply dict_get_set_eq.
  - by apply dict_get_set_ne.
Qed.

Lemma dict_keys_set (d : pydict) k v :
  dict_keys (dict_set d k v) = if dict_mem d k then dict_keys d else dict_keys d ++ [k].
Proof.
  unfold dict_mem, dict_keys. induction d as [|[k' v'] d IH]; simpl; [done|].
  destruct (String.eqb_spec k' k) as [->|Hk]; simpl; [done|].
  rewrite IH. by destruct (dict_get d k).
Qed.

(** ** The store *)

Section StoreFacts.

Variable E : Env.

Lemma load_json_file_eq name w :
  load_json_file E name w = (Ret (default empty_dict (stored E w name)), w).
Proof.
  unfold load_json_file, stored, db_load.
  destruct (env_set (DATABASE_URL E)); [done|].
  unfold bind, path_exists, try_except, json_load, ret.
  destruct (files w !! name) as [[v|]|] eqn:Hf; simpl; rewrite ?Hf; done.
Qed.

Lemma save_json_file_result name data w :
  fst (save_json_file E name data w) = Ret (write_ok E w name data).
Proof.
  unfold save_json_file, write_ok, db_save.
  destruct (env_set (DATABASE_URL E)).
  - by destruct (db_write E (trace w) name data).
  - unfold try_except, bind, json_dump, ret.
    by destruct (file_write E (trace w) name data).
Qed.

(** After a save, the saved resource holds the new document when the write
    went through; otherwise it holds what it held, or nothing that parses.
    Other resources are untouched. *)
Lemma save_json_file_stored name data w name' :
  let w' := snd (save_json_file E name data w) in
  stored E w' name' =
    if decide (name = name') then
      if write_ok E w name data then Some data
      else if env_set (DATABASE_URL E) then stored E w name
      else match file_write E (trace w) name data with
           | WriteFailTruncated => None
           | _ => stored E w name
           end
    else stored E w name'.
Proof.
  unfold save_json_file, write_ok, stored, db_save.
  destruct (env_set (DATABASE_URL E)); simpl.
  - destruct (db_write E (trace w) name data); simpl;
      destruct (decide (name = name')) as [->|Hne]; simpl;
      rewrite ?lookup_insert_eq, ?lookup_insert_ne by done; done.
  - unfold try_except, bind, json_dump, ret.
    destruct (file_write E (trace w) name data); simpl;
      destruct (decide (name = name')) as [->|Hne]; simpl;
      rewrite ?lookup_insert_eq, ?lookup_insert_ne by done; done.
Qed.

Lemma save_json_file_trace name data w :
  trace (snd (save_json_file E name data w)) =
    trace w ++ [if env_set (DATABASE_URL E) then EvDbSave name data
                else EvFileWrite name data].
Proof.
  unfold save_json_file, db_save.
  destruct (env_set (DATABASE_URL E)); simpl.
  - by destruct (db_write E (trace w) name data).
  - unfold try_except, bind, json_dump, ret.
    by destruct (file_write E (trace w) name data).
Qed.

End StoreFacts.

(** C8. Loading a resource never raises and leaves the world as it is: the
    result is the stored document, and the empty mapping when the resource
    does not exist or cannot be parsed.  Saving never raises either: the
    result is [True] exactly when the write went through, [False] on any
    write failure. *)
Theorem store_never_raises (E : Env) (name : string) (data : pyval) (w : World) :
  load_json_file E name w
    = (Ret (match stored E w name with Some v => v | None => empty_dict end), w)
  /\ fst (save_json_file E name data w) = Ret (write_ok E w name data).
Proof.
  split.
  - apply load_json_file_eq.
  - apply save_json_file_result.
Qed.

(** ** The rejection tracker *)

Lemma dict_set_set (d : pydict) k a b : dict_set (dict_set d k a) k b = dict_set d k b.
Proof.
  induction d as [|[k' v'] d IH]; simpl.
  - by rewrite String.eqb_refl.
  - destruct (String.eqb k' k) eqn:Hk; simpl; rewrite Hk; [done|by rewrite IH].
Qed.

Lemma dict_set_id (d : pydict) k v : dict_get d k = Some v -> dict_set d k v = d.
Proof.
  induction d as [|[k' v'] d IH]; simpl; [done|].
  destruct (String.eqb k' k); [congruence|]. intros H. by rewrite IH.
Qed.

Lemma py_ge_int a b : py_ge (JInt a) (JInt b) = Ret (b <=? a).
Proof.
  unfold py_ge, num_le, float_le, Qle_bool; simpl. by rewrite !Z.mul_1_r.
Qed.

Lemma set_field_at d group_id r field v :
  dict_get d group_id = Some (JDict r) ->
  set_field (JDict d) group_id field v
    = Ret (JDict (dict_set d group_id (JDict (dict_set r field v)))).
Proof. intros H. unfold set_field. simpl. by rewrite H. Qed.

Lemma set_field_if_at c d group_id r field v :
  dict_get d group_id = Some (JDict r) ->
  set_field_if c (JDict d) group_id field v
    = Ret (JDict (dict_set d group_id (JDict (if c then dict_set r field v else r)))).
Proof.
  intros H. destruct c; simpl.
  - by apply set_field_at.
  - by rewrite dict_set_id.
Qed.

Lemma get_field_at d group_id r field :
  dict_get d group_id = Some (JDict r) ->
  get_field (JDict d) group_id field
    = match dict_get r field with Some v => Ret v | None => Raise KeyError end.
Proof. intros H. unfold get_field. simpl. by rewrite H. Qed.

Lemma dict_get_if_set (c : bool) (r : pydict) f v k :
  f <> k -> dict_get (if c then dict_set r f v else r) k = dict_get r k.
Proof. intros H. destruct c; [by apply dict_get_set_ne|done]. Qed.

Ltac field_step :=
  first
    [ erewrite set_field_at by (first [eassumption | apply dict_get_set_eq])
    | erewrite set_field_if_at by (first [eassumption | apply dict_get_set_eq])
    | erewrite get_field_at by (first [eassumption | apply dict_get_set_eq]) ];
  rewrite ?dict_set_set; cbn [bind lift].

Section TrackerFacts.

Variable E : Env.

(** One strike on an existing record: the count goes up by one, the flag is
    raised when the new count reaches 3 and is otherwise left as it was, the
    document is saved and the flag returned. *)
Lemma record_strike_at d group_id r n b gn ai an now w :
  dict_get d group_id = Some (JDict r) ->
  dict_get r "rejection_count" = Some (JInt n) ->
  dict_get r "blocked" = Some (JBool b) ->
  exists r',
    dict_get r' "rejection_count" = Some (JInt (n + 1)) /\
    dict_get r' "blocked" = Some (JBool (b || (3 <=? n + 1))) /\
    record_strike E (JDict d) group_id gn ai an now w
      = (Ret (JBool (b || (3 <=? n + 1))),
         snd (save_json_file E (REJECTED_GROUPS_PATH E)
                (JDict (dict_set d group_id (JDict r'))) w)).
Proof.
  intros Hrec Hcount Hblocked.
  unfold record_strike.
  field_step. rewrite Hcount. cbn [bind lift py_succ num_of num_succ].
  do 5 field_step.
  field_step.
  rewrite !dict_get_if_set, dict_get_set_ne, dict_get_set_eq by done.
  cbn [bind lift]. rewrite py_ge_int. cbn [bind lift].
  field_step.
  match goal with
  | |- context [dict_set d group_id (JDict ?r')] => exists r'
  end.
  assert (Hc : forall r0 : pydict,
             dict_get (if 3 <=? n + 1 then dict_set r0 "blocked" (JBool true) else r0)
               "rejection_count" = dict_get r0 "rejection_count").
  { intros r0. by apply dict_get_if_set. }
  split; [|split].
  - rewrite Hc, !dict_get_if_set, dict_get_set_ne, dict_get_set_eq by done. done.
  - destruct (3 <=? n + 1).
    + rewrite dict_get_set_eq. by rewrite orb_true_r.
    + rewrite !dict_get_if_set, !dict_get_set_ne by done.
      by rewrite Hblocked, orb_false_r.
  - unfold bind at 1.
    destruct (save_json_file E (REJECTED_GROUPS_PATH E) _ w) as [[ok|e] w'] eqn:Hs.
    + field_step.
      destruct (3 <=? n + 1).
      * rewrite dict_get_set_eq. by rewrite orb_true_r.
      * rewrite !dict_get_if_set, !dict_get_set_ne by done.
        rewrite Hblocked, orb_false_r. done.
    + apply (f_equal fst) in Hs. rewrite save_json_file_result in Hs. discriminate.
Qed.

Lemma strike_flag n : (3 <=? n) || (3 <=? n + 1) = (3 <=? n + 1).
Proof. destruct (Z.leb_spec 3 n), (Z.leb_spec 3 (n + 1)); simpl; auto; lia. Qed.

(** A rejection of a group whose record (if any) is consistent with count
    [n]: the call returns whether [n + 1] reaches 3 and saves the document
    with the group's record at count [n + 1]. *)
Lemma track_rejection_at d group_id n gn ai an w :
  rejected_doc E w = JDict d ->
  (dict_get d group_id = None /\ n = 0) \/
  (exists rec, dict_get d group_id = Some rec /\ record_at rec n) ->
  exists rec',
    record_at rec' (n + 1) /\
    track_rejection E group_id gn ai an w
      = (Ret (JBool (3 <=? n + 1)),
         snd (save_json_file E (REJECTED_GROUPS_PATH E)
                (JDict (dict_set d group_id rec')) w)).
Proof.
  intros Hdoc Hrec. unfold track_rejection.
  unfold bind at 1. rewrite load_json_file_eq. fold (rejected_doc E w). rewrite Hdoc.
  unfold bind at 1, current_time. cbn [bind lift py_in].
  destruct Hrec as [[Hnone ->]|(rec & Hsome & r & -> & Hcount & Hblocked)].
  - unfold dict_mem. rewrite Hnone. cbn [negb bind lift py_setitem].
    destruct (record_strike_at (dict_set d group_id
                (new_record group_id gn ai an (JInt (clock E (trace w)))))
                group_id _ 0 false gn ai an (JInt (clock E (trace w))) w
                (dict_get_set_eq _ _ _) eq_refl eq_refl) as (r' & Hc & Hb & Heq).
    exists (JDict r'). split; [by exists r'|].
    rewrite Heq, dict_set_set. done.
  - unfold dict_mem. rewrite Hsome. cbn [negb bind ret].
    destruct (record_strike_at d group_id r n (3 <=? n) gn ai an
                (JInt (clock E (trace w))) w Hsome Hcount Hblocked)
      as (r' & Hc & Hb & Heq).
    rewrite strike_flag in Hb, Heq.
    exists (JDict r'). split; [by exists r'|]. done.
Qed.

(** Reading the tracker's state. *)
Lemma get_rejection_count_at d group_id w :
  rejected_doc E w = JDict d ->
  get_rejection_count E group_id w
    = (match dict_get d group_id with
       | None => Ret (JInt 0)
       | Some rec => py_get rec "rejection_count" (JInt 0)
       end, w).
Proof.
  intros Hdoc. unfold get_rejection_count.
  unfold bind at 1. rewrite load_json_file_eq. fold (rejected_doc E w). rewrite Hdoc.
  cbn [bind lift py_get]. by destruct (dict_get d group_id).
Qed.

Lemma is_group_blocked_at d group_id w :
  rejected_doc E w = JDict d ->
  is_group_blocked E group_id w
    = (match dict_get d group_id with
       | None => Ret (JBool false)
       | Some rec => py_get rec "blocked" (JBool false)
       end, w).
Proof.
  intros Hdoc. unfold is_group_blocked.
  unfold bind at 1. rewrite load_json_file_eq. fold (rejected_doc E w). rewrite Hdoc.
  cbn [bind lift py_get]. by destruct (dict_get d group_id).
Qed.

Lemma rejected_doc_saved doc w :
  reliable E ->
  rejected_doc E (snd (save_json_file E (REJECTED_GROUPS_PATH E) doc w)) = doc.
Proof.
  intros Hrel. unfold rejected_doc. rewrite save_json_file_stored.
  rewrite decide_True by done.
  unfold write_ok. destruct (Hrel (trace w) (REJECTED_GROUPS_PATH E) doc) as [-> ->].
  by destruct (env_set (DATABASE_URL E)).
Qed.

Lemma readers_at group_id n w :
  group_at (rejected_doc E w) group_id n ->
  get_rejection_count E group_id w = (Ret (JInt n), w) /\
  is_group_blocked E group_id w = (Ret (JBool (3 <=? n)), w).
Proof.
  intros (d & Hdoc & [[Hnone ->]|(rec & Hsome & r & -> & Hcount & Hblocked)]).
  - rewrite (get_rejection_count_at d), (is_group_blocked_at d) by done.
    by rewrite Hnone.
  - rewrite (get_rejection_count_at d), (is_group_blocked_at d) by done.
    rewrite Hsome. cbn [py_get]. by rewrite Hcount, Hblocked.
Qed.

(** Any run of rejections on a reliable store, from a group at count [n]. *)
Lemma track_many_at group_id calls : forall n w,
  reliable E ->
  group_at (rejected_doc E w) group_id n ->
  exists w',
    track_many E group_id calls w
      = (Ret (strike_results (n + 1) (length calls)), w') /\
    group_at (rejected_doc E w') group_id (n + Z.of_nat (length calls)).
Proof.
  induction calls as [|[[gn ai] an] calls IH]; intros n w Hrel Hat.
  - exists w. split; [done|]. by rewrite Z.add_0_r.
  - destruct Hat as (d & Hdoc & Hcase).
    destruct (track_rejection_at d group_id n gn ai an w Hdoc Hcase)
      as (rec' & Hrec' & Heq).
    set (w1 := snd (save_json_file E (REJECTED_GROUPS_PATH E)
                      (JDict (dict_set d group_id rec')) w)) in *.
    assert (Hat1 : group_at (rejected_doc E w1) group_id (n + 1)).
    { exists (dict_set d group_id rec'). split.
      - unfold w1. by apply rejected_doc_saved.
      - right. exists rec'. split; [apply dict_get_set_eq|done]. }
    destruct (IH (n + 1) w1 Hrel Hat1) as (w' & Hrun & Hat').
    exists w'. split.
    + cbn [track_many]. unfold bind at 1. rewrite Heq.
      unfold bind at 1. rewrite Hrun. done.
    + replace (n + Z.of_nat (length ((gn, ai, an) :: calls)))
        with (n + 1 + Z.of_nat (length calls)); [done|].
      cbn [length]. lia.
Qed.

End TrackerFacts.

(** C1. On a reliable store, starting from a group with no record in the
    rejected_groups document: after [n < 3] rejections of that group every
    call has returned [False], [get_rejection_count] returns [n] and
    [is_group_blocked] returns [False]; of exactly three rejections the
    first two return [False] and the third [True], after which
    [is_group_blocked] returns [True]. *)
Theorem three_strike_policy (E : Env) (w : World) (group_id : string) :
  reliable E ->
  (exists d, rejected_doc E w = JDict d /\ dict_get d group_id = None) ->
  (forall calls, (length calls < 3)%nat ->
     exists w',
       track_many E group_id calls w = (Ret (map (fun _ => JBool false) calls), w') /\
       fst (get_rejection_count E group_id w') = Ret (JInt (Z.of_nat (length calls))) /\
       fst (is_group_blocked E group_id w') = Ret (JBool false))
  /\
  (forall c1 c2 c3,
     exists w',
       track_many E group_id [c1; c2; c3] w
         = (Ret [JBool false; JBool false; JBool true], w') /\
       fst (get_rejection_count E group_id w') = Ret (JInt 3) /\
       fst (is_group_blocked E group_id w') = Ret (JBool true)).
Proof.
  intros Hrel (d & Hdoc & Hnone).
  assert (Hat : group_at (rejected_doc E w) group_id 0).
  { exists d. split; [done|]. by left. }
  split.
  - intros calls Hlen.
    destruct (track_many_at E group_id calls 0 w Hrel Hat) as (w' & Hrun & Hat').
    destruct (readers_at E group_id _ w' Hat') as [Hcount Hblocked].
    exists w'. rewrite Hrun, Hcount, Hblocked. cbn [fst].
    destruct calls as [|? [|? [|? ?]]]; cbn [length] in Hlen; try lia; done.
  - intros c1 c2 c3.
    destruct (track_many_at E group_id [c1; c2; c3] 0 w Hrel Hat) as (w' & Hrun & Hat').
    destruct (readers_at E group_id _ w' Hat') as [Hcount Hblocked].
    exists w'. rewrite Hrun, Hcount, Hblocked. done.
Qed.

Lemma three_strike_policy_witness :
  reliable offline_env /\
  (exists d, rejected_doc offline_env empty_world = JDict d /\ dict_get d "-1001234567890" = None) /\
  ((forall calls, (length calls < 3)%nat ->
     exists w',
       track_many offline_env "-1001234567890" calls empty_world
         = (Ret (map (fun _ => JBool false) calls), w') /\
       fst (get_rejection_count offline_env "-1001234567890" w')
         = Ret (JInt (Z.of_nat (length calls))) /\
       fst (is_group_blocked offline_env "-1001234567890" w') = Ret (JBool false))
   /\
   (forall c1 c2 c3,
     exists w',
       track_many offline_env "-1001234567890" [c1; c2; c3] empty_world
         = (Ret [JBool false; JBool false; JBool true], w') /\
       fst (get_rejection_count offline_env "-1001234567890" w') = Ret (JInt 3) /\
       fst (is_group_blocked offline_env "-1001234567890" w') = Ret (JBool true))).
Proof.
  split; [intros tr name data; split; reflexivity|].
  split; [exists []; split; reflexivity|].
  apply (three_strike_policy offline_env empty_world "-1001234567890").
  - intros tr name data; split; reflexivity.
  - exists []. split; reflexivity.
Defined.

(** ** The invariant of the rejected_groups document *)

Lemma record_at_consistent rec n : record_at rec n -> record_consistent rec.
Proof.
  intros (r & -> & Hcount & Hblocked).
  exists (JInt n), (3 <=? n). cbn [py_getitem]. rewrite Hcount, Hblocked.
  by rewrite py_ge_int.
Qed.

Lemma all_records_at_consistent doc : all_records_at doc -> doc_consistent doc.
Proof.
  intros (d & -> & Hall). exists d. split; [done|].
  intros g rec Hg. destruct (Hall g rec Hg) as [n Hn].
  by apply (record_at_consistent rec n).
Qed.

Lemma all_records_at_set d group_id rec n :
  all_records_at (JDict d) -> record_at rec n ->
  all_records_at (JDict (dict_set d group_id rec)).
Proof.
  intros (d0 & [= <-] & Hall) Hrec. exists (dict_set d group_id rec). split; [done|].
  intros g rec0. rewrite dict_get_set.
  destruct (String.eqb group_id g); [intros [= <-]; by exists n|apply Hall].
Qed.

Section InvariantFacts.

Variable E : Env.

(** Saving a consistent document keeps the stored document consistent,
    whether the write goes through, fails before touching the resource, or
    leaves a file that no longer parses. *)
Lemma save_keeps_invariant doc w :
  all_records_at (rejected_doc E w) -> all_records_at doc ->
  all_records_at
    (rejected_doc E (snd (save_json_file E (REJECTED_GROUPS_PATH E) doc w))).
Proof.
  intros Hold Hnew. unfold rejected_doc in *. rewrite save_json_file_stored.
  rewrite decide_True by done.
  destruct (write_ok E w (REJECTED_GROUPS_PATH E) doc); [done|].
  destruct (env_set (DATABASE_URL E)); [done|].
  destruct (file_write E (trace w) (REJECTED_GROUPS_PATH E) doc); try done.
  exists []. split; [done|]. intros g rec; discriminate.
Qed.

Lemma track_keeps_invariant group_id gn ai an w :
  all_records_at (rejected_doc E w) ->
  all_records_at (rejected_doc E (snd (track_rejection E group_id gn ai an w))).
Proof.
  intros Hinv. pose proof Hinv as (d & Hdoc & Hall).
  assert (Hcase : exists n,
            (dict_get d group_id = None /\ n = 0) \/
            (exists rec, dict_get d group_id = Some rec /\ record_at rec n)).
  { destruct (dict_get d group_id) as [rec|] eqn:Hg.
    - destruct (Hall group_id rec Hg) as [n Hn]. exists n. right. by exists rec.
    - exists 0. by left. }
  destruct Hcase as [n Hcase].
  destruct (track_rejection_at E d group_id n gn ai an w Hdoc Hcase)
    as (rec' & Hrec' & ->).
  cbn [snd]. apply save_keeps_invariant; [done|].
  apply (all_records_at_set d group_id rec' (n + 1)); [|done].
  by rewrite <- Hdoc.
Qed.

Lemma reset_keeps_invariant group_id w :
  all_records_at (rejected_doc E w) ->
  all_records_at (rejected_doc E (snd (reset_rejection_count E group_id w))).
Proof.
  intros Hinv. pose proof Hinv as (d & Hdoc & Hall).
  unfold reset_rejection_count.
  unfold bind at 1. rewrite load_json_file_eq. fold (rejected_doc E w). rewrite Hdoc.
  cbn [bind lift py_in]. unfold dict_mem.
  destruct (dict_get d group_id) as [rec|] eqn:Hg; [|done].
  destruct (Hall group_id rec Hg) as (n & r & -> & Hcount & Hblocked).
  do 2 field_step.
  apply save_keeps_invariant; [done|].
  apply (all_records_at_set d group_id _ 0); [by rewrite <- Hdoc|].
  eexists. split; [done|].
  split; [by rewrite dict_get_set_ne, dict_get_set_eq|by rewrite dict_get_set_eq].
Qed.

Lemma reachable_invariant w : reachable E w -> all_records_at (rejected_doc E w).
Proof.
  induction 1 as [w Hempty|w op Hreach IH].
  - rewrite Hempty. exists []. split; [done|]. intros g rec; discriminate.
  - destruct op as [g gn ai an|g]; cbn [run_op].
    + by apply track_keeps_invariant.
    + by apply reset_keeps_invariant.
Qed.

End InvariantFacts.

(** C2. In every state reached from the empty rejected_groups document by
    any sequence of [track_rejection] and [reset_rejection_count] calls,
    whatever the outcome of each write, the stored document is a mapping in
    which every record satisfies [blocked == (rejection_count >= 3)]. *)
Theorem blocked_iff_three_strikes (E : Env) (w : World) :
  reachable E w -> doc_consistent (rejected_doc E w).
Proof.
  intros Hreach. apply all_records_at_consistent. by apply reachable_invariant.
Qed.

Lemma blocked_iff_three_strikes_witness :
  reachable offline_env
    (run_op offline_env (OpReset "g")
       (run_op offline_env (OpTrack "g" JNull JNull JNull) empty_world)) /\
  doc_consistent
    (rejected_doc offline_env
       (run_op offline_env (OpReset "g")
          (run_op offline_env (OpTrack "g" JNull JNull JNull) empty_world))).
Proof.
  assert (H : reachable offline_env
                (run_op offline_env (OpReset "g")
                   (run_op offline_env (OpTrack "g" JNull JNull JNull) empty_world))).
  { apply reach_step, reach_step, reach_empty. reflexivity. }
  split; [exact H|].
  apply (blocked_iff_three_strikes offline_env _ H).
Defined.

(** ** The balance verifier *)

(** A [try] whose handler returns a value never raises. *)
Lemma try_except_total {A} (body : M A) (a : A) w :
  exists r w', try_except body (fun _ => ret a) w = (Ret r, w').
Proof.
  unfold try_except. destruct (body w) as [[r|e] w']; by eexists _, _.
Qed.

Section VerifierFacts.

Variable E : Env.

Lemma moralis_attempt_total addr token chain w :
  exists f w1, moralis_attempt E addr token chain w = (Ret f, w1).
Proof.
  unfold moralis_attempt. destruct (moralis_key_valid E); [|by eexists _, _].
  apply try_except_total.
Qed.

Lemma get_token_balance_etherscan_total addr token w :
  exists raw w2, get_token_balance_etherscan E addr token w = (Ret raw, w2).
Proof.
  unfold get_token_balance_etherscan.
  destruct (negb (env_set (ETHERSCAN_API_KEY E))); [by eexists _, _|].
  apply try_except_total.
Qed.

Lemma get_token_decimals_total token chain w :
  exists d w3, get_token_decimals E token chain w = (Ret d, w3).
Proof.
  unfold get_token_decimals. apply try_except_total.
Qed.

(** The shape of [verify_user_balance] once the configuration has been
    read: the Moralis attempt, then either the fallback or the Moralis
    balance, then the comparison. *)
Lemma verify_user_balance_eq cfg addr w token min chain f1 w1 :
  py_getitem cfg "token" = Ret token ->
  py_getitem cfg "min_balance" = Ret min ->
  py_get cfg "chain_id" (JStr "eth") = Ret chain ->
  moralis_attempt E addr token chain w = (Ret f1, w1) ->
  verify_user_balance E cfg addr w =
    if float_le f1 (FFin 0)
    then (Ret (compliance (fst (etherscan_fallback E addr token chain w1)) min),
          snd (etherscan_fallback E addr token chain w1))
    else (Ret (compliance (Ret f1) min), w1).
Proof.
  intros Ht Hm Hc Hp. unfold verify_user_balance, try_except.
  rewrite Ht, Hm, Hc. cbn [bind lift].
  unfold bind at 1. rewrite Hp.
  destruct (float_le f1 (FFin 0)).
  - unfold bind at 1.
    destruct (etherscan_fallback E addr token chain w1) as [[f2|e] w2]; cbn [fst snd].
    + unfold lift, compliance. by destruct (py_ge (JFloat f2) min).
    + done.
  - cbn [bind ret]. unfold lift, compliance. by destruct (py_ge (JFloat f1) min).
Qed.

Lemma verify_user_balance_total cfg addr w :
  exists b, fst (verify_user_balance E cfg addr w) = Ret b.
Proof.
  unfold verify_user_balance.
  match goal with
  | |- context [try_except ?body _ w] =>
      destruct (try_except_total body false w) as (b & w' & ->)
  end.
  by exists b.
Qed.

(** A failing primary provider leaves the balance at zero. *)
Lemma moralis_attempt_no_key addr token chain w :
  moralis_key_valid E = false ->
  moralis_attempt E addr token chain w = (Ret (FFin 0), w).
Proof. intros H. unfold moralis_attempt. by rewrite H. Qed.

Lemma moralis_attempt_raise addr token chain w c e :
  chain_map_get chain = Ret c ->
  get_wallet_token_balances E (trace w) addr c [token] = Raise e ->
  fst (moralis_attempt E addr token chain w) = Ret (FFin 0).
Proof.
  intros Hc He. unfold moralis_attempt. destruct (moralis_key_valid E); [|done].
  unfold try_except at 1. rewrite Hc. cbn [bind lift].
  unfold get_token_balance_moralis, try_except, bind, sdk_get_wallet_token_balances.
  by rewrite He.
Qed.

(** A failing secondary provider answers the float zero. *)
Lemma get_token_balance_etherscan_no_key addr token w :
  env_set (ETHERSCAN_API_KEY E) = false ->
  get_token_balance_etherscan E addr token w = (Ret (NFloat (FFin 0)), w).
Proof. intros H. unfold get_token_balance_etherscan. by rewrite H. Qed.

Lemma get_token_balance_etherscan_raise addr token w e :
  http_get_json E (trace w)
    (etherscan_url addr token (default "" (ETHERSCAN_API_KEY E))) = Raise e ->
  fst (get_token_balance_etherscan E addr token w) = Ret (NFloat (FFin 0)).
Proof.
  intros He. unfold get_token_balance_etherscan.
  destruct (negb (env_set (ETHERSCAN_API_KEY E))); [done|].
  unfold try_except, bind, http_get. by rewrite He.
Qed.

End VerifierFacts.

(** *** Arithmetic of a zero balance *)

Lemma b64_nearest_zero q : Qnum q = 0 -> b64_nearest q = Some 0%Q.
Proof. intros H. unfold b64_nearest. by rewrite H. Qed.

Lemma float_of_Q_zero q : Qnum q = 0 -> float_of_Q q = FFin 0.
Proof. intros H. unfold float_of_Q. by rewrite b64_nearest_zero. Qed.

Lemma Qnum_div_zero a b : Qnum a = 0 -> Qnum (a / b) = 0.
Proof. intros H. unfold Qdiv, Qmult. cbn [Qnum]. by rewrite H. Qed.

Lemma float_of_Q_not_nan q : float_of_Q q <> FNan.
Proof.
  unfold float_of_Q. destruct (b64_nearest q); [done|]. by destruct (Qnum q <? 0).
Qed.

Lemma float_div_zero q fb :
  Qnum q = 0 -> fb <> FNan ->
  match float_div (FFin q) fb with
  | Ret f => float_is_zero f = true
  | Raise _ => True
  end.
Proof.
  intros Hq Hnan. destruct fb as [qb| | |]; cbn [float_div]; try done.
  destruct (Qnum qb =? 0); [done|].
  by rewrite float_of_Q_zero by by apply Qnum_div_zero.
Qed.

(** Zero divided by a power of ten is zero, unless the division raises. *)
Lemma zero_over_pow10 raw d :
  num_is_zero raw = true ->
  match num_truediv raw (pow10 d) with
  | Ret f => float_is_zero f = true
  | Raise _ => True
  end.
Proof.
  intros Hz. unfold pow10. destruct (0 <=? d).
  - destruct raw as [z|[q| | |]]; cbn in Hz; try done.
    + apply Z.eqb_eq in Hz as ->. cbn [num_truediv].
      destruct (10 ^ d =? 0); [done|].
      by rewrite b64_nearest_zero.
    + apply Z.eqb_eq in Hz. cbn [num_truediv].
      destruct (float_of_int (10 ^ d)) as [fb|e] eqn:Hf; [|done].
      apply float_div_zero; [done|].
      unfold float_of_int in Hf. destruct (b64_nearest _); by inversion Hf.
  - destruct raw as [z|[q| | |]]; cbn in Hz; try done.
    + apply Z.eqb_eq in Hz as ->. cbn [num_truediv].
      change (float_of_int 0) with (Ret (FFin 0) : outcome pyfloat).
      apply float_div_zero; [done|apply float_of_Q_not_nan].
    + apply Z.eqb_eq in Hz. cbn [num_truediv].
      apply float_div_zero; [done|apply float_of_Q_not_nan].
Qed.

(** A zero balance is below every positive threshold. *)
Lemma zero_below_positive f min :
  float_is_zero f = true ->
  py_gt min (JInt 0) = Ret true ->
  py_ge (JFloat f) min = Ret false.
Proof.
  intros Hz Hpos. destruct f as [q| | |]; try done. cbn in Hz. apply Z.eqb_eq in Hz.
  unfold py_gt, py_ge in *. cbn [num_of] in *.
  destruct (num_of min) as [m|]; [|done].
  injection Hpos as Hpos. f_equal.
  unfold num_lt, num_le in *. cbn [float_of_num] in *.
  destruct (float_of_num m) as [y| | |]; try done.
  cbn [float_lt float_le] in *. apply negb_true_iff in Hpos.
  unfold Qle_bool in *. cbn [Qnum Qden inject_Z] in *.
  apply Z.leb_gt in Hpos. apply Z.leb_gt. rewrite Hz. lia.
Qed.

(** C4 (as the code has it). [verify_user_balance] never raises, whatever
    the configuration and the address.  A primary provider that is not
    configured or raises leaves a zero balance, a secondary provider that is
    not configured or raises answers zero, and whenever both balances are
    zero and the threshold is positive the answer is [False]. *)
Theorem fail_closed_above_zero (E : Env) (cfg addr : pyval) (w : World) :
  (exists b, fst (verify_user_balance E cfg addr w) = Ret b) /\
  (forall token chain,
     (moralis_key_valid E = false ->
      moralis_attempt E addr token chain w = (Ret (FFin 0), w)) /\
     (forall c e, chain_map_get chain = Ret c ->
        get_wallet_token_balances E (trace w) addr c [token] = Raise e ->
        fst (moralis_attempt E addr token chain w) = Ret (FFin 0)) /\
     (env_set (ETHERSCAN_API_KEY E) = false ->
      get_token_balance_etherscan E addr token w = (Ret (NFloat (FFin 0)), w)) /\
     (forall e,
        http_get_json E (trace w)
          (etherscan_url addr token (default "" (ETHERSCAN_API_KEY E))) = Raise e ->
        fst (get_token_balance_etherscan E addr token w) = Ret (NFloat (FFin 0)))) /\
  (forall token min chain f1 w1 raw w2,
     py_getitem cfg "token" = Ret token ->
     py_getitem cfg "min_balance" = Ret min ->
     py_get cfg "chain_id" (JStr "eth") = Ret chain ->
     py_gt min (JInt 0) = Ret true ->
     moralis_attempt E addr token chain w = (Ret f1, w1) ->
     float_is_zero f1 = true ->
     get_token_balance_etherscan E addr token w1 = (Ret raw, w2) ->
     num_is_zero raw = true ->
     fst (verify_user_balance E cfg addr w) = Ret false).
Proof.
  split; [apply verify_user_balance_total|]. split.
  - intros token chain. repeat split.
    + apply moralis_attempt_no_key.
    + intros c e. apply moralis_attempt_raise.
    + apply get_token_balance_etherscan_no_key.
    + intros e. apply get_token_balance_etherscan_raise.
  - intros token min chain f1 w1 raw w2 Ht Hm Hc Hpos Hp Hz1 Hs Hz2.
    rewrite (verify_user_balance_eq E cfg addr w token min chain f1 w1) by done.
    assert (Hle : float_le f1 (FFin 0) = true).
    { destruct f1 as [q| | |]; try done. cbn in Hz1. apply Z.eqb_eq in Hz1.
      cbn [float_le]. unfold Qle_bool. cbn [Qnum Qden]. rewrite Hz1. done. }
    rewrite Hle. cbn [fst]. f_equal.
    unfold etherscan_fallback. unfold bind at 1. rewrite Hs.
    unfold bind at 1.
    destruct (get_token_decimals_total E token chain w2) as (d & w3 & ->).
    unfold lift. cbn [fst]. unfold compliance.
    pose proof (zero_over_pow10 raw d Hz2) as Hdiv.
    destruct (num_truediv raw (pow10 d)) as [f|e]; [|done].
    by rewrite (zero_below_positive f min).
Qed.

Lemma fail_closed_above_zero_witness :
  fst (verify_user_balance offline_env (group_config_with (JInt 1000)) member_address
         empty_world) = Ret false.
Proof.
  apply (fail_closed_above_zero offline_env (group_config_with (JInt 1000))
           member_address empty_world)
    with (token := JStr "0x1234567890123456789012345678901234567890")
         (min := JInt 1000) (chain := JStr "bsc")
         (f1 := FFin 0) (w1 := empty_world)
         (raw := NFloat (FFin 0)) (w2 := empty_world);
    reflexivity.
Defined.

(** C4, the claim as stated fails: with a threshold of zero (allowed by
    [min_balance >= 0]) and both providers failing, the zero balance meets
    the threshold and the member is reported compliant. *)
Lemma fail_closed_counterexample :
  py_ge (JInt 0) (JInt 0) = Ret true /\
  moralis_attempt offline_env member_address
    (JStr "0x1234567890123456789012345678901234567890") (JStr "bsc") empty_world
    = (Ret (FFin 0), empty_world) /\
  get_token_balance_etherscan offline_env member_address
    (JStr "0x1234567890123456789012345678901234567890") empty_world
    = (Ret (NFloat (FFin 0)), empty_world) /\
  fst (verify_user_balance offline_env (group_config_with (JInt 0)) member_address
         empty_world) = Ret true.
Proof. repeat split; vm_compute; reflexivity. Qed.

(** *** What the providers send out *)

Section ProviderTraces.

Variable E : Env.

Lemma moralis_attempt_world addr token chain w :
  snd (moralis_attempt E addr token chain w) = w \/
  exists c, chain_map_get chain = Ret c /\
            snd (moralis_attempt E addr token chain w)
              = mkWorld (files w) (db w) (trace w ++ [EvMoralisBalances addr c [token]]).
Proof.
  unfold moralis_attempt. destruct (moralis_key_valid E); [|by left].
  unfold try_except at 1. destruct (chain_map_get chain) as [c|e]; cbn [bind lift].
  - right. exists c. split; [done|].
    unfold get_token_balance_moralis, try_except, bind, sdk_get_wallet_token_balances,
      lift, ret.
    cbv beta iota.
    destruct (get_wallet_token_balances E (trace w) addr c [token])
      as [[ |b|z|f|s|[|x l]|d]|e]; try done.
    by destruct (find_token_balance (x :: l) token) as [[?|]|].
  - by left.
Qed.

Lemma get_token_balance_etherscan_world addr token w :
  snd (get_token_balance_etherscan E addr token w)
    = mkWorld (files w) (db w)
        (trace w ++ if env_set (ETHERSCAN_API_KEY E)
                    then [EvHttpGet (etherscan_url addr token
                                       (default "" (ETHERSCAN_API_KEY E)))]
                    else []).
Proof.
  unfold get_token_balance_etherscan. destruct (env_set (ETHERSCAN_API_KEY E)).
  - cbn [negb]. unfold try_except, bind, http_get, lift.
    destruct (http_get_json E (trace w) _) as [result|e]; [|done].
    destruct (py_get result "result" (JStr "0")) as [r|e]; [|done].
    by destruct (py_int r).
  - cbn [negb ret snd]. rewrite app_nil_r. by destruct w.
Qed.

Lemma get_token_decimals_world token chain w :
  snd (get_token_decimals E token chain w)
    = mkWorld (files w) (db w)
        (trace w ++ match chain_map_get chain with
                    | Ret c => [EvMoralisMetadata c [token]]
                    | Raise _ => []
                    end).
Proof.
  unfold get_token_decimals, try_except.
  destruct (chain_map_get chain) as [c|e]; cbn [bind lift].
  - unfold bind, sdk_get_token_metadata, lift.
    destruct (get_token_metadata E (trace w) c [token]) as [md|e]; [|done].
    destruct (py_first md) as [first|e]; [|done].
    destruct (py_get first "decimals" (JInt 18)) as [d|e]; [|done].
    by destruct (py_int d).
  - cbn [ret snd]. rewrite app_nil_r. by destruct w.
Qed.

Lemma etherscan_fallback_world addr token chain w :
  snd (etherscan_fallback E addr token chain w)
    = mkWorld (files w) (db w) (trace w ++ fallback_requests E addr token chain).
Proof.
  unfold etherscan_fallback.
  destruct (get_token_balance_etherscan_total E addr token w) as (raw & w2 & H2).
  pose proof (get_token_balance_etherscan_world addr token w) as Hw2.
  rewrite H2 in Hw2. cbn [snd] in Hw2.
  unfold bind at 1. rewrite H2.
  destruct (get_token_decimals_total E token chain w2) as (d & w3 & H3).
  pose proof (get_token_decimals_world token chain w2) as Hw3.
  rewrite H3 in Hw3. cbn [snd] in Hw3.
  unfold bind at 1. rewrite H3. unfold lift. cbn [snd].
  rewrite Hw3, Hw2. cbn [files db trace]. unfold fallback_requests.
  by rewrite app_assoc.
Qed.

End ProviderTraces.



(** *** Decimals and the comparison *)

Section DecimalsFacts.

Variable E : Env.






End DecimalsFacts.





(** C10. Whatever the group's chain identifier, the fallback path sends the
    same Etherscan request, whose chain parameter is the literal
    [chainid=1]; the only other request of the fallback is the metadata
    query for the decimals, and that one carries the group's chain
    (canonicalised through [CHAIN_MAP]).  When [verify_user_balance] takes
    the fallback, these are exactly the requests it adds. *)
Theorem etherscan_query_is_mainnet (E : Env) (addr token chain : pyval) (w : World) :
  snd (etherscan_fallback E addr token chain w)
    = mkWorld (files w) (db w) (trace w ++ fallback_requests E addr token chain) /\
  http_requests (fallback_requests E addr token chain)
    = (if env_set (ETHERSCAN_API_KEY E)
       then [etherscan_url addr token (default "" (ETHERSCAN_API_KEY E))]
       else []) /\
  (forall chain', http_requests (fallback_requests E addr token chain')
                  = http_requests (fallback_requests E addr token chain)) /\
  (forall key, exists rest,
     etherscan_url addr token key
       = Lit "https://api.etherscan.io/v2/api" :: Lit "?chainid=1" :: rest) /\
  metadata_requests (fallback_requests E addr token chain)
    = match chain_map_get chain with
      | Ret c => [(c, [token])]
      | Raise _ => []
      end /\
  (forall cfg min f1 w1,
     py_getitem cfg "token" = Ret token ->
     py_getitem cfg "min_balance" = Ret min ->
     py_get cfg "chain_id" (JStr "eth") = Ret chain ->
     moralis_attempt E addr token chain w = (Ret f1, w1) ->
     float_le f1 (FFin 0) = true ->
     trace (snd (verify_user_balance E cfg addr w))
       = trace w1 ++ fallback_requests E addr token chain).
Proof.
  assert (Hhttp : forall ch, http_requests (fallback_requests E addr token ch)
                   = (if env_set (ETHERSCAN_API_KEY E)
                      then [etherscan_url addr token (default "" (ETHERSCAN_API_KEY E))]
                      else [])).
  { intros ch. unfold fallback_requests, http_requests.
    destruct (env_set (ETHERSCAN_API_KEY E)), (chain_map_get ch); reflexivity. }
  split; [apply etherscan_fallback_world|].
  split; [apply Hhttp|].
  split; [intros chain'; by rewrite !Hhttp|].
  split; [intros key; by eexists|].
  split.
  { unfold fallback_requests, metadata_requests.
    destruct (env_set (ETHERSCAN_API_KEY E)), (chain_map_get chain); reflexivity. }
  intros cfg min f1 w1 Ht Hm Hc Hp Hle.
  rewrite (verify_user_balance_eq E cfg addr w token min chain f1 w1) by done.
  rewrite Hle. cbn [snd]. by rewrite etherscan_fallback_world.
Qed.

(** ** The reverification pass *)

Lemma world_eta w : mkWorld (files w) (db w) (trace w) = w.
Proof. by destruct w. Qed.

Lemma fallback_requests_provider E addr token chain :
  Forall provider_event (fallback_requests E addr token chain).
Proof.
  unfold fallback_requests. apply Forall_app. split.
  - destruct (env_set (ETHERSCAN_API_KEY E)); repeat constructor.
  - destruct (chain_map_get chain); repeat constructor.
Qed.

(** What [mark_unverified] does when it succeeds. *)
Lemma mark_unverified_inv user_data group_id user_id user_data' :
  mark_unverified user_data group_id user_id = Ret user_data' ->
  exists d group r,
    user_data = JDict d /\
    dict_get d group_id = Some (JDict group) /\
    dict_get group user_id = Some (JDict r) /\
    user_data' = JDict (dict_set d group_id
                   (JDict (dict_set group user_id
                      (JDict (dict_set r "verified" (JBool false)))))).
Proof.
  unfold mark_unverified, set_field.
  destruct user_data as [ | | | | | |d]; try done. cbn [py_getitem].
  destruct (dict_get d group_id) as [[ | | | | | |group]|] eqn:Hg; try done.
  cbn [py_getitem].
  destruct (dict_get group user_id) as [[ | | | | | |r]|] eqn:Hu; try done.
  cbn [py_setitem]. intros [= <-]. by exists d, group, r.
Qed.

Lemma mark_unverified_other user_data group_id user_id user_data' g k :
  mark_unverified user_data group_id user_id = Ret user_data' ->
  k <> user_id ->
  member_record user_data' g k = member_record user_data g k.
Proof.
  intros H Hk. apply mark_unverified_inv in H as (d & group & r & -> & Hg & Hu & ->).
  unfold member_record. rewrite dict_get_set.
  destruct (String.eqb_spec group_id g) as [<-|Hne]; [|done].
  rewrite Hg. by rewrite dict_get_set_ne.
Qed.

Lemma mark_unverified_self user_data group_id user_id user_data' :
  mark_unverified user_data group_id user_id = Ret user_data' ->
  exists r, member_record user_data group_id user_id = Some (JDict r) /\
            member_record user_data' group_id user_id
              = Some (JDict (dict_set r "verified" (JBool false))).
Proof.
  intros H. apply mark_unverified_inv in H as (d & group & r & -> & Hg & Hu & ->).
  exists r. unfold member_record. rewrite Hg, dict_get_set_eq, dict_get_set_eq. done.
Qed.

Section SchedulerFacts.

Variable E : Env.

Lemma stored_trace_irrelevant w tr name :
  stored E (mkWorld (files w) (db w) tr) name = stored E w name.
Proof. reflexivity. Qed.

(** A balance check only talks to the providers. *)
Lemma verify_user_balance_world cfg addr w :
  exists evs,
    snd (verify_user_balance E cfg addr w) = mkWorld (files w) (db w) (trace w ++ evs) /\
    Forall provider_event evs.
Proof.
  assert (Hstay : forall b : bool, exists evs,
             snd (Ret b, w) = mkWorld (files w) (db w) (trace w ++ evs) /\
             Forall provider_event evs).
  { intros b. exists []. cbn [snd]. by rewrite app_nil_r, world_eta. }
  destruct (py_getitem cfg "token") as [token|e] eqn:Ht.
  2: { unfold verify_user_balance, try_except. rewrite Ht. apply (Hstay false). }
  destruct (py_getitem cfg "min_balance") as [min|e] eqn:Hm.
  2: { unfold verify_user_balance, try_except. rewrite Ht, Hm. apply (Hstay false). }
  destruct (py_get cfg "chain_id" (JStr "eth")) as [chain|e] eqn:Hc.
  2: { unfold verify_user_balance, try_except. rewrite Ht, Hm, Hc. apply (Hstay false). }
  destruct (moralis_attempt_total E addr token chain w) as (f1 & w1 & Hp).
  rewrite (verify_user_balance_eq E cfg addr w token min chain f1 w1) by done.
  pose proof (fallback_requests_provider E addr token chain) as Hfb.
  destruct (moralis_attempt_world E addr token chain w) as [Hw|(c & _ & Hw)];
    rewrite Hp in Hw; cbn [snd] in Hw; subst w1;
    destruct (float_le f1 (FFin 0)); cbn [snd];
    rewrite ?etherscan_fallback_world; cbn [files db trace].
  - by exists (fallback_requests E addr token chain).
  - exists []. by rewrite app_nil_r, world_eta.
  - exists (EvMoralisBalances addr c [token] :: fallback_requests E addr token chain).
    split; [by rewrite <- app_assoc|]. by constructor.
  - exists [EvMoralisBalances addr c [token]]. split; [done|]. by repeat constructor.
Qed.

(** The removal of a member, case by case: the ban is always attempted; the
    unban only after a successful ban; the record is marked and the document
    saved only after both succeeded. *)
Lemma remove_member_eq group_id user_id uid user_data c w :
  let failed := mkCounts (verified_count c) (removed_count c) (error_count c + 1) in
  let removed := mkCounts (verified_count c) (removed_count c + 1) (error_count c) in
  let w1 := mkWorld (files w) (db w) (trace w ++ [EvBanChatMember group_id uid]) in
  let w2 := mkWorld (files w) (db w)
              (trace w ++ [EvBanChatMember group_id uid; EvUnbanChatMember group_id uid]) in
  remove_member E group_id user_id uid user_data c w =
    match ban_chat_member E (trace w) group_id uid with
    | Raise _ => (Ret (user_data, failed), w1)
    | Ret _ =>
        match unban_chat_member E (trace w1) group_id uid with
        | Raise _ => (Ret (user_data, failed), w2)
        | Ret _ =>
            match mark_unverified user_data group_id user_id with
            | Raise _ => (Ret (user_data, failed), w2)
            | Ret user_data' =>
                (Ret (user_data', removed),
                 snd (save_json_file E (USER_DATA_PATH E) user_data' w2))
            end
        end
    end.
Proof.
  intros failed removed w1 w2. subst failed removed w1 w2.
  unfold remove_member, try_except, bind, bot_ban_chat_member, bot_unban_chat_member,
    lift, ret.
  cbn [files db trace].
  destruct (ban_chat_member E (trace w) group_id uid) as [[]|e]; [|done].
  destruct (unban_chat_member E (trace w ++ [EvBanChatMember group_id uid]) group_id uid)
    as [[]|e]; rewrite <- app_assoc; cbn [app]; [|done].
  destruct (mark_unverified user_data group_id user_id) as [ud'|e]; [|done].
  match goal with
  | |- context [save_json_file E ?p ?d ?w0] =>
      pose proof (save_json_file_result E p d w0) as Hs;
      destruct (save_json_file E p d w0) as [[b|e] w3]; [done|discriminate]
  end.
Qed.

End SchedulerFacts.

(** *** The owner is left alone *)

Section OwnerFacts.

Variable E : Env.
Variable doc0 : pyval.

Lemma spares_owner_refl w : spares_owner E doc0 w w.
Proof.
  split; [|done]. exists []. split; [by rewrite app_nil_r|constructor].
Qed.

Lemma spares_owner_trans w1 w2 w3 :
  spares_owner E doc0 w1 w2 -> spares_owner E doc0 w2 w3 -> spares_owner E doc0 w1 w3.
Proof.
  intros [(evs1 & Ht1 & Hf1) Hs1] [(evs2 & Ht2 & Hf2) Hs2]. split; [|auto].
  exists (evs1 ++ evs2). split.
  - by rewrite Ht2, Ht1, app_assoc.
  - by apply Forall_app.
Qed.

(** Calls that do not touch the store. *)
Lemma spares_owner_events w evs :
  Forall (event_spares_owner E doc0) evs ->
  spares_owner E doc0 w (mkWorld (files w) (db w) (trace w ++ evs)).
Proof.
  intros Hf. split; [by exists evs|].
  unfold store_spares_owner. by rewrite stored_trace_irrelevant.
Qed.

Lemma provider_event_spares_owner evs :
  Forall provider_event evs -> Forall (event_spares_owner E doc0) evs.
Proof.
  intros H. eapply Forall_impl; [exact H|]. intros ev. by destruct ev.
Qed.

Lemma verify_user_balance_spares cfg addr w :
  spares_owner E doc0 w (snd (verify_user_balance E cfg addr w)).
Proof.
  destruct (verify_user_balance_world E cfg addr w) as (evs & -> & Hf).
  by apply spares_owner_events, provider_event_spares_owner.
Qed.

Lemma save_json_file_spares data w :
  same_owner_records E doc0 data ->
  spares_owner E doc0 w (snd (save_json_file E (USER_DATA_PATH E) data w)).
Proof.
  intros Hsame. split.
  - eexists. split; [apply save_json_file_trace|].
    constructor; [|constructor]. by destruct (env_set (DATABASE_URL E)).
  - unfold store_spares_owner. rewrite save_json_file_stored.
    rewrite decide_True by done.
    destruct (write_ok E w (USER_DATA_PATH E) data); [done|].
    destruct (env_set (DATABASE_URL E)); [done|].
    by destruct (file_write E (trace w) (USER_DATA_PATH E) data).
Qed.

Lemma mark_unverified_same_owner user_data group_id user_id user_data' :
  owner_key E user_id = false ->
  mark_unverified user_data group_id user_id = Ret user_data' ->
  same_owner_records E doc0 user_data ->
  same_owner_records E doc0 user_data'.
Proof.
  intros Hk Hmark Hsame g k Howner.
  rewrite (mark_unverified_other _ _ _ _ g k Hmark); [by apply Hsame|].
  intros ->. congruence.
Qed.

Lemma remove_member_spares group_id user_id uid user_data c w :
  is_owner E uid = false ->
  owner_key E user_id = false ->
  same_owner_records E doc0 user_data ->
  spares_owner E doc0 w (snd (remove_member E group_id user_id uid user_data c w)) /\
  exists user_data' c',
    fst (remove_member E group_id user_id uid user_data c w) = Ret (user_data', c') /\
    same_owner_records E doc0 user_data'.
Proof.
  intros Huid Hk Hsame. rewrite remove_member_eq.
  assert (H1 : Forall (event_spares_owner E doc0) [EvBanChatMember group_id uid]).
  { by repeat constructor. }
  assert (H2 : Forall (event_spares_owner E doc0)
                 [EvBanChatMember group_id uid; EvUnbanChatMember group_id uid]).
  { by repeat constructor. }
  destruct (ban_chat_member E (trace w) group_id uid) as [[]|e].
  2: { split; [by apply spares_owner_events|by eexists _, _]. }
  destruct (unban_chat_member E _ group_id uid) as [[]|e].
  2: { split; [by apply spares_owner_events|by eexists _, _]. }
  destruct (mark_unverified user_data group_id user_id) as [ud'|e] eqn:Hmark.
  2: { split; [by apply spares_owner_events|by eexists _, _]. }
  pose proof (mark_unverified_same_owner _ _ _ _ Hk Hmark Hsame) as Hsame'.
  split; [|by eexists _, _].
  eapply spares_owner_trans; [by apply spares_owner_events|].
  by apply save_json_file_spares.
Qed.

Lemma member_step_spares group_id cfg user_id user_info user_data c w :
  same_owner_records E doc0 user_data ->
  spares_owner E doc0 w
    (snd (member_step E group_id cfg user_id user_info user_data c w)) /\
  forall user_data' c',
    fst (member_step E group_id cfg user_id user_info user_data c w)
      = Ret (user_data', c') ->
    same_owner_records E doc0 user_data'.
Proof.
  intros Hsame. unfold member_step. cbn [py_int].
  destruct (parse_int user_id) as [uid|] eqn:Hparse; cbn [bind lift].
  2: { split; [apply spares_owner_refl|done]. }
  destruct (is_owner E uid) eqn:Huid.
  { split; [apply spares_owner_refl|]. by intros ? ? [= <- <-]. }
  assert (Hk : owner_key E user_id = false).
  { unfold owner_key. by rewrite Hparse. }
  destruct (py_get user_info "verified" JNull) as [v|e]; cbn [bind lift].
  2: { split; [apply spares_owner_refl|done]. }
  destruct (truthy v).
  2: { split; [apply spares_owner_refl|]. by intros ? ? [= <- <-]. }
  destruct (py_getitem user_info "address") as [addr|e]; cbn [bind lift].
  2: { split; [apply spares_owner_refl|done]. }
  pose proof (verify_user_balance_spares cfg addr w) as Hv.
  unfold bind.
  destruct (verify_user_balance E cfg addr w) as [[has_balance|e] w1]; cbn [snd] in Hv.
  2: { by split. }
  destruct has_balance; cbn [negb ret fst snd].
  - split; [done|]. by intros ? ? [= <- <-].
  - destruct (remove_member_spares group_id user_id uid user_data c w1 Huid Hk Hsame)
      as [Hr (ud' & c' & Hfst & Hsame')].
    split; [by eapply spares_owner_trans|].
    intros ud'' c''. rewrite Hfst. by intros [= <- <-].
Qed.

Lemma members_loop_spares group_id cfg items : forall user_data c w,
  (items <> [] -> same_owner_records E doc0 user_data) ->
  spares_owner E doc0 w (snd (members_loop E group_id cfg items user_data c w)).
Proof.
  induction items as [|[user_id user_info] rest IH]; intros user_data c w Hsame.
  - apply spares_owner_refl.
  - cbn [members_loop]. unfold bind at 1.
    destruct (member_step_spares group_id cfg user_id user_info user_data c w)
      as [Hstep Hout]; [by apply Hsame|].
    destruct (member_step E group_id cfg user_id user_info user_data c w)
      as [[[ud' c']|e] w1]; cbn [fst snd] in *; [|done].
    eapply spares_owner_trans; [done|]. apply IH. intros _. by apply (Hout ud' c').
Qed.

Lemma verify_all_members_spares group_id cfg w :
  store_spares_owner E doc0 w ->
  spares_owner E doc0 w (snd (verify_all_members E group_id cfg w)).
Proof.
  intros Hstore. unfold verify_all_members, try_except.
  destruct (py_get cfg "min_balance" JNull) as [?|e]; cbn [bind lift ret snd];
    [|apply spares_owner_refl].
  destruct (py_get cfg "token" JNull) as [?|e]; cbn [bind lift ret snd];
    [|apply spares_owner_refl].
  unfold bind at 1. rewrite load_json_file_eq.
  destruct (py_get (default empty_dict (stored E w (USER_DATA_PATH E))) group_id
              empty_dict) as [group_users|e] eqn:Hget; cbn [bind lift ret snd];
    [|apply spares_owner_refl].
  destruct (py_len group_users) as [?|e]; cbn [bind lift ret snd];
    [|apply spares_owner_refl].
  destruct (py_items group_users) as [items|e] eqn:Hitems; cbn [bind lift ret snd];
    [|apply spares_owner_refl].
  assert (Hloop : spares_owner E doc0 w
            (snd (members_loop E group_id cfg items
                    (default empty_dict (stored E w (USER_DATA_PATH E)))
                    (mkCounts 0 0 0) w))).
  { apply members_loop_spares. intros Hne.
    unfold store_spares_owner in Hstore.
    destruct (stored E w (USER_DATA_PATH E)) as [doc|]; [done|].
    cbn in Hget. injection Hget as <-. cbn in Hitems. by injection Hitems as <-. }
  unfold bind.
  by destruct (members_loop E group_id cfg items _ (mkCounts 0 0 0) w) as [[[? ?]|e] w1].
Qed.

Lemma groups_loop_spares items : forall w,
  store_spares_owner E doc0 w ->
  spares_owner E doc0 w (snd (groups_loop E items w)).
Proof.
  induction items as [|[group_id group_config] rest IH]; intros w Hstore.
  - apply spares_owner_refl.
  - cbn [groups_loop]. unfold bind at 1. rewrite load_json_file_eq.
    destruct (py_get _ group_id group_config) as [fresh|e]; cbn [bind lift snd];
      [|apply spares_owner_refl].
    pose proof (verify_all_members_spares group_id fresh w Hstore) as Hpass.
    unfold bind at 1.
    destruct (verify_all_members E group_id fresh w) as [[r|e] w1]; cbn [snd] in *;
      [|done].
    eapply spares_owner_trans; [done|]. apply IH. by apply Hpass.
Qed.

Lemma periodic_verification_spares w :
  store_spares_owner E doc0 w ->
  spares_owner E doc0 w (snd (periodic_verification E w)).
Proof.
  intros Hstore. unfold periodic_verification. unfold bind at 1.
  rewrite load_json_file_eq.
  destruct (negb (truthy _)); [apply spares_owner_refl|].
  destruct (py_len _) as [?|e]; cbn [bind lift snd]; [|apply spares_owner_refl].
  destruct (py_items _) as [items|e]; cbn [bind lift snd]; [|apply spares_owner_refl].
  destruct (log_configs items) as [?|e]; cbn [bind lift snd]; [|apply spares_owner_refl].
  by apply groups_loop_spares.
Qed.

End OwnerFacts.

(** C9. In a full pass the owner is skipped whatever the stored flag and
    whatever the balance check would say: a member whose key names the owner
    is passed over before anything else happens; no ban or unban issued by
    the pass targets the owner; every member document the pass saves, and
    the document left in the store, has the owner's records exactly as they
    were loaded. *)
Theorem owner_is_skipped (E : Env) (w : World) :
  (forall group_id cfg user_id user_info user_data c w0 uid,
     parse_int user_id = Some uid -> is_owner E uid = true ->
     member_step E group_id cfg user_id user_info user_data c w0
       = (Ret (user_data, c), w0)) /\
  exists evs,
    trace (snd (periodic_verification E w)) = trace w ++ evs /\
    (forall chat_id uid,
       EvBanChatMember chat_id uid ∈ evs \/ EvUnbanChatMember chat_id uid ∈ evs ->
       is_owner E uid = false) /\
    (forall name data,
       EvFileWrite name data ∈ evs \/ EvDbSave name data ∈ evs ->
       name = USER_DATA_PATH E /\ same_owner_records E (user_doc E w) data) /\
    (forall doc',
       stored E (snd (periodic_verification E w)) (USER_DATA_PATH E) = Some doc' ->
       same_owner_records E (user_doc E w) doc').
Proof.
  split.
  { intros group_id cfg user_id user_info user_data c w0 uid Hparse Howner.
    unfold member_step. cbn [py_int]. rewrite Hparse. cbn [bind lift].
    by rewrite Howner. }
  assert (Hstore : store_spares_owner E (user_doc E w) w).
  { unfold store_spares_owner, user_doc.
    by destruct (stored E w (USER_DATA_PATH E)). }
  destruct (periodic_verification_spares E (user_doc E w) w Hstore)
    as [(evs & Htrace & Hevs) Hafter].
  exists evs. split; [done|].
  rewrite Forall_forall in Hevs.
  split; [|split].
  - intros chat_id uid [Hin|Hin]; by apply Hevs in Hin.
  - intros name data [Hin|Hin]; by apply Hevs in Hin.
  - intros doc' Hdoc'. specialize (Hafter Hstore).
    unfold store_spares_owner in Hafter. by rewrite Hdoc' in Hafter.
Qed.

(** *** One member's turn *)





(** C3, the code at a blocked group: after three rejections
    [is_group_blocked] answers [True], and the next pass still bans and
    unbans the group's non-compliant member and rewrites its record (the
    owner's record being skipped as usual). *)
Lemma blocked_group_still_enforced :
  fst (is_group_blocked offline_env "-1001234567890" blocked_world) = Ret (JBool true) /\
  user_doc offline_env blocked_world = sample_users /\
  drop (length (trace blocked_world))
       (trace (snd (periodic_verification offline_env blocked_world)))
    = [ EvMoralisMetadata (JStr "bsc")
          [JStr "0x1234567890123456789012345678901234567890"];
        EvBanChatMember "-1001234567890" 7585807164;
        EvUnbanChatMember "-1001234567890" 7585807164;
        EvFileWrite "/data/user_data.json"
          (JDict [("-1001234567890",
                   JDict [ ("7585807164", sample_member false);
                           ("1825755152", sample_member true) ])]) ] /\
  member_record
    (user_doc offline_env (snd (periodic_verification offline_env blocked_world)))
    "-1001234567890" "7585807164" = Some (sample_member false).
Proof. repeat split; vm_compute; reflexivity. Qed.

(** * Further properties of the code *)

(** ** The store: round trip *)

(** X1. A save that goes through is read back as it was written, on either
    backend, and leaves every other resource as it was. *)
Theorem save_then_load (E : Env) (name : string) (data : pyval) (w : World) :
  write_ok E w name data = true ->
  fst (save_json_file E name data w) = Ret true /\
  fst (load_json_file E name (snd (save_json_file E name data w))) = Ret data /\
  (forall name', name' <> name ->
     fst (load_json_file E name' (snd (save_json_file E name data w)))
       = fst (load_json_file E name' w)).
Proof.
  intros Hok. split; [by rewrite save_json_file_result, Hok|]. split.
  - rewrite load_json_file_eq. cbn [fst]. rewrite save_json_file_stored.
    by rewrite decide_True, Hok.
  - intros name' Hne. rewrite !load_json_file_eq. cbn [fst].
    rewrite save_json_file_stored. by rewrite decide_False.
Qed.

Lemma save_then_load_witness :
  fst (load_json_file offline_env "/data/config.json"
         (snd (save_json_file offline_env "/data/config.json" sample_config empty_world)))
    = Ret sample_config.
Proof.
  apply (save_then_load offline_env "/data/config.json" sample_config empty_world).
  reflexivity.
Defined.

(** ** The tracker: what a strike writes *)

Section StrikeFacts.

Variable E : Env.

(** The exact effect of a strike on a record with an integer count: the
    document is saved with the record replaced by [struck_record], and the
    value returned is that record's [blocked] field. *)
Lemma record_strike_exact d group_id r n gn ai an now w :
  dict_get d group_id = Some (JDict r) ->
  dict_get r "rejection_count" = Some (JInt n) ->
  record_strike E (JDict d) group_id gn ai an now w
    = (match dict_get (struck_record r n gn ai an now) "blocked" with
       | Some v => Ret v
       | None => Raise KeyError
       end,
       snd (save_json_file E (REJECTED_GROUPS_PATH E)
              (JDict (dict_set d group_id (JDict (struck_record r n gn ai an now)))) w)).
Proof.
  intros Hrec Hcount. unfold record_strike.
  field_step. rewrite Hcount. cbn [bind lift py_succ num_of num_succ].
  do 5 field_step.
  field_step.
  rewrite !dict_get_if_set, dict_get_set_ne, dict_get_set_eq by done.
  cbn [bind lift]. rewrite py_ge_int. cbn [bind lift].
  field_step. fold (struck_record r n gn ai an now).
  unfold bind at 1.
  destruct (save_json_file E (REJECTED_GROUPS_PATH E) _ w) as [[ok|e] w'] eqn:Hs.
  - cbn [snd]. by field_step.
  - apply (f_equal fst) in Hs. rewrite save_json_file_result in Hs. discriminate.
Qed.

Lemma track_rejection_known d group_id r n gn ai an w :
  rejected_doc E w = JDict d ->
  dict_get d group_id = Some (JDict r) ->
  dict_get r "rejection_count" = Some (JInt n) ->
  let now := JInt (clock E (trace w)) in
  track_rejection E group_id gn ai an w
    = (match dict_get (struck_record r n gn ai an now) "blocked" with
       | Some v => Ret v
       | None => Raise KeyError
       end,
       snd (save_json_file E (REJECTED_GROUPS_PATH E)
              (JDict (dict_set d group_id (JDict (struck_record r n gn ai an now)))) w)).
Proof.
  intros Hdoc Hrec Hcount now. unfold track_rejection.
  unfold bind at 1. rewrite load_json_file_eq. fold (rejected_doc E w). rewrite Hdoc.
  unfold bind at 1, current_time. cbn [bind lift py_in].
  unfold dict_mem. rewrite Hrec. cbn [negb bind ret].
  by apply record_strike_exact.
Qed.

Lemma track_rejection_fresh d group_id gn ai an w :
  rejected_doc E w = JDict d ->
  dict_get d group_id = None ->
  let now := JInt (clock E (trace w)) in
  track_rejection E group_id gn ai an w
    = (Ret (JBool false),
       snd (save_json_file E (REJECTED_GROUPS_PATH E)
              (JDict (dict_set d group_id
                        (JDict [ ("rejection_count", JInt 1);
                                 ("group_name", py_or gn (JStr ("Group " +:+ group_id)));
                                 ("last_admin_id", ai);
                                 ("last_admin_name", py_or an (JStr "Unknown"));
                                 ("first_rejection", now);
                                 ("last_rejection", now);
                                 ("blocked", JBool false) ]))) w)).
Proof.
  intros Hdoc Hnone now. unfold track_rejection.
  unfold bind at 1. rewrite load_json_file_eq. fold (rejected_doc E w). rewrite Hdoc.
  unfold bind at 1, current_time. cbn [bind lift py_in].
  unfold dict_mem. rewrite Hnone. cbn [negb bind lift py_setitem]. fold now.
  rewrite (record_strike_exact _ group_id
             [ ("rejection_count", JInt 0);
               ("group_name", py_or gn (JStr ("Group " +:+ group_id)));
               ("last_admin_id", ai);
               ("last_admin_name", py_or an (JStr "Unknown"));
               ("first_rejection", now);
               ("last_rejection", now);
               ("blocked", JBool false) ] 0);
    [|apply dict_get_set_eq|done].
  rewrite dict_set_set.
  assert (Hrec : struck_record
            [ ("rejection_count", JInt 0);
              ("group_name", py_or gn (JStr ("Group " +:+ group_id)));
              ("last_admin_id", ai);
              ("last_admin_name", py_or an (JStr "Unknown"));
              ("first_rejection", now);
              ("last_rejection", now);
              ("blocked", JBool false) ] 0 gn ai an now
          = [ ("rejection_count", JInt 1);
              ("group_name", py_or gn (JStr ("Group " +:+ group_id)));
              ("last_admin_id", ai);
              ("last_admin_name", py_or an (JStr "Unknown"));
              ("first_rejection", now);
              ("last_rejection", now);
              ("blocked", JBool false) ]).
  { unfold struck_record, py_or.
    destruct (truthy ai), (truthy an), (truthy gn); reflexivity. }
  by rewrite Hrec.
Qed.

End StrikeFacts.

Lemma struck_record_lookup r n gn ai an now f :
  dict_get (struck_record r n gn ai an now) f =
    if String.eqb "blocked" f && (3 <=? n + 1) then Some (JBool true)
    else if String.eqb "group_name" f && truthy gn then Some gn
    else if String.eqb "last_admin_name" f && truthy an then Some an
    else if String.eqb "last_admin_id" f && truthy ai then Some ai
    else if String.eqb "last_rejection" f then Some now
    else if String.eqb "rejection_count" f then Some (JInt (n + 1))
    else dict_get r f.
Proof.
  unfold struck_record.
  destruct (3 <=? n + 1), (truthy gn), (truthy an), (truthy ai);
    rewrite ?dict_get_set, ?andb_true_r, ?andb_false_r; reflexivity.
Qed.

(** X2. A rejection of a group that already has a record (with an integer
    count) rewrites that record only where the code says so: the count goes
    up by one, [last_rejection] becomes the current time, each piece of
    metadata is replaced when the caller provided it and kept when it is
    missing or empty, [blocked] is raised when the new count reaches 3 and
    otherwise kept, and every other field, [first_rejection] included, is
    as it was. *)
Theorem strike_keeps_history (E : Env) (d : pydict) (group_id : string) (r : pydict)
    (n : Z) (gn ai an : pyval) (w : World) :
  rejected_doc E w = JDict d ->
  dict_get d group_id = Some (JDict r) ->
  dict_get r "rejection_count" = Some (JInt n) ->
  exists r',
    snd (track_rejection E group_id gn ai an w)
      = snd (save_json_file E (REJECTED_GROUPS_PATH E)
               (JDict (dict_set d group_id (JDict r'))) w) /\
    dict_get r' "rejection_count" = Some (JInt (n + 1)) /\
    dict_get r' "last_rejection" = Some (JInt (clock E (trace w))) /\
    dict_get r' "first_rejection" = dict_get r "first_rejection" /\
    dict_get r' "last_admin_id"
      = (if truthy ai then Some ai else dict_get r "last_admin_id") /\
    dict_get r' "last_admin_name"
      = (if truthy an then Some an else dict_get r "last_admin_name") /\
    dict_get r' "group_name"
      = (if truthy gn then Some gn else dict_get r "group_name") /\
    dict_get r' "blocked"
      = (if 3 <=? n + 1 then Some (JBool true) else dict_get r "blocked") /\
    (forall f, f <> "rejection_count" -> f <> "last_rejection" ->
       f <> "last_admin_id" -> f <> "last_admin_name" -> f <> "group_name" ->
       f <> "blocked" -> dict_get r' f = dict_get r f).
Proof.
  intros Hdoc Hrec Hcount.
  exists (struck_record r n gn ai an (JInt (clock E (trace w)))).
  split; [by rewrite (track_rejection_known E d group_id r n)|].
  repeat split; try (rewrite struck_record_lookup; cbn;
                     rewrite ?andb_false_r; by repeat case_match).
  intros f H1 H2 H3 H4 H5 H6. rewrite struck_record_lookup.
  repeat match goal with
         | H : f <> ?s |- _ =>
             rewrite (proj2 (String.eqb_neq s f)) by (intros Heq; by apply H); clear H
         end.
  done.
Qed.

Lemma strike_keeps_history_witness :
  exists r',
    snd (track_rejection offline_env "g" JNull JNull (JStr "Bob")
           (snd (track_rejection offline_env "g" (JStr "Chat") (JStr "7") (JStr "Ann")
                   empty_world)))
      = snd (save_json_file offline_env (REJECTED_GROUPS_PATH offline_env)
               (JDict (dict_set
                         [("g", JDict [ ("rejection_count", JInt 1);
                                        ("group_name", JStr "Chat");
                                        ("last_admin_id", JStr "7");
                                        ("last_admin_name", JStr "Ann");
                                        ("first_rejection", JInt 1700000000);
                                        ("last_rejection", JInt 1700000000);
                                        ("blocked", JBool false) ])]
                         "g" (JDict r')))
               (snd (track_rejection offline_env "g" (JStr "Chat") (JStr "7") (JStr "Ann")
                       empty_world))) /\
    dict_get r' "group_name" = Some (JStr "Chat") /\
    dict_get r' "last_admin_name" = Some (JStr "Bob").
Proof.
  destruct (strike_keeps_history offline_env
              [("g", JDict [ ("rejection_count", JInt 1);
                             ("group_name", JStr "Chat");
                             ("last_admin_id", JStr "7");
                             ("last_admin_name", JStr "Ann");
                             ("first_rejection", JInt 1700000000);
                             ("last_rejection", JInt 1700000000);
                             ("blocked", JBool false) ])]
              "g" _ 1 JNull JNull (JStr "Bob")
              (snd (track_rejection offline_env "g" (JStr "Chat") (JStr "7") (JStr "Ann")
                      empty_world))
              eq_refl eq_refl eq_refl)
    as (r' & Hw & _ & _ & _ & _ & Han & Hgn & _).
  exists r'. split; [exact Hw|]. split; [exact Hgn|exact Han].
Defined.

Section TrackerFrame.

Variable E : Env.

(** A strike either raises before anything is saved, or saves the document
    with exactly one record replaced. *)
Lemma record_strike_world doc group_id gn ai an now w :
  snd (record_strike E doc group_id gn ai an now w) = w \/
  exists d rec',
    doc = JDict d /\
    snd (record_strike E doc group_id gn ai an now w)
      = snd (save_json_file E (REJECTED_GROUPS_PATH E)
               (JDict (dict_set d group_id rec')) w).
Proof.
  unfold record_strike.
  destruct doc as [ | | | | | |d]; try (by left).
  destruct (dict_get d group_id) as [rec|] eqn:Hrec.
  2: { left. unfold get_field. cbn [py_getitem]. by rewrite Hrec. }
  destruct rec as [ | | | | | |r].
  1-6: left; unfold get_field; cbn [py_getitem]; by rewrite Hrec.
  field_step.
  destruct (dict_get r "rejection_count") as [c|]; [|by left].
  cbn [bind lift]. unfold py_succ.
  destruct (num_of c) as [m|]; [|by left]. cbn [bind lift].
  do 5 field_step. field_step.
  rewrite !dict_get_if_set, dict_get_set_ne, dict_get_set_eq by done.
  cbn [bind lift].
  assert (Hge : exists over, py_ge (num_succ m) (JInt 3) = Ret over).
  { destruct m as [x|[q| | |]]; by eexists. }
  destruct Hge as [over ->]. cbn [bind lift].
  field_step.
  right.
  match goal with
  | |- context [save_json_file E _ (JDict (dict_set d group_id ?x))] => exists d, x
  end.
  split; [done|].
  unfold bind at 1.
  destruct (save_json_file E (REJECTED_GROUPS_PATH E) _ w) as [[ok|e] w'] eqn:Hs.
  - reflexivity.
  - apply (f_equal fst) in Hs. rewrite save_json_file_result in Hs. discriminate.
Qed.

Lemma track_rejection_unfold group_id gn ai an w :
  track_rejection E group_id gn ai an w =
    let now := JInt (clock E (trace w)) in
    match py_in group_id (rejected_doc E w) with
    | Raise e => (Raise e, w)
    | Ret true => record_strike E (rejected_doc E w) group_id gn ai an now w
    | Ret false =>
        match py_setitem (rejected_doc E w) group_id
                (new_record group_id gn ai an now) with
        | Ret doc => record_strike E doc group_id gn ai an now w
        | Raise e => (Raise e, w)
        end
    end.
Proof.
  unfold track_rejection.
  unfold bind at 1. rewrite load_json_file_eq. fold (rejected_doc E w).
  unfold bind at 1, current_time.
  destruct (py_in group_id (rejected_doc E w)) as [[|]|e]; cbn [bind lift negb ret];
    [done| |done].
  by destruct (py_setitem _ _ _).
Qed.

Lemma reset_rejection_count_unfold group_id w :
  reset_rejection_count E group_id w =
    match py_in group_id (rejected_doc E w) with
    | Raise e => (Raise e, w)
    | Ret false => (Ret true, w)
    | Ret true =>
        match set_field (rejected_doc E w) group_id "rejection_count" (JInt 0) with
        | Raise e => (Raise e, w)
        | Ret doc =>
            match set_field doc group_id "blocked" (JBool false) with
            | Raise e => (Raise e, w)
            | Ret doc' => save_json_file E (REJECTED_GROUPS_PATH E) doc' w
            end
        end
    end.
Proof.
  unfold reset_rejection_count.
  unfold bind at 1. rewrite load_json_file_eq. fold (rejected_doc E w).
  destruct (py_in group_id (rejected_doc E w)) as [[|]|e]; cbn [bind lift]; [|done..].
  destruct (set_field (rejected_doc E w) _ _ _) as [doc|e]; cbn [bind lift]; [|done].
  by destruct (set_field doc _ _ _).
Qed.

Lemma track_rejection_world group_id gn ai an w :
  snd (track_rejection E group_id gn ai an w) = w \/
  exists d rec',
    rejected_doc E w = JDict d /\
    snd (track_rejection E group_id gn ai an w)
      = snd (save_json_file E (REJECTED_GROUPS_PATH E)
               (JDict (dict_set d group_id rec')) w).
Proof.
  rewrite track_rejection_unfold. cbv zeta.
  destruct (py_in group_id (rejected_doc E w)) as [[|]|e] eqn:Hin; [| |by left].
  - destruct (record_strike_world (rejected_doc E w) group_id gn ai an
                (JInt (clock E (trace w))) w) as [Hw|(d & rec' & Hd & Hw)];
      [by left|right; by exists d, rec'].
  - destruct (rejected_doc E w) as [ | | | | | |d] eqn:Hdoc; try (by left).
    cbn [py_setitem].
    destruct (record_strike_world
                (JDict (dict_set d group_id
                          (new_record group_id gn ai an (JInt (clock E (trace w))))))
                group_id gn ai an (JInt (clock E (trace w))) w)
      as [Hw|(d' & rec' & Hd & Hw)]; [by left|].
    right. exists d, rec'. split; [done|].
    injection Hd as <-. by rewrite dict_set_set in Hw.
Qed.

Lemma reset_rejection_count_world group_id w :
  snd (reset_rejection_count E group_id w) = w \/
  exists d rec',
    rejected_doc E w = JDict d /\
    snd (reset_rejection_count E group_id w)
      = snd (save_json_file E (REJECTED_GROUPS_PATH E)
               (JDict (dict_set d group_id rec')) w).
Proof.
  rewrite reset_rejection_count_unfold.
  destruct (py_in group_id (rejected_doc E w)) as [[|]|e] eqn:Hin; [|by left..].
  destruct (rejected_doc E w) as [ | | | | | |d] eqn:Hdoc; try (by left).
  destruct (dict_get d group_id) as [rec|] eqn:Hrec.
  2: { left. unfold set_field. cbn [py_getitem]. by rewrite Hrec. }
  destruct rec as [ | | | | | |r].
  1-6: left; unfold set_field; cbn [py_getitem]; by rewrite Hrec.
  rewrite (set_field_at d group_id r) by done.
  rewrite (set_field_at _ group_id _) by apply dict_get_set_eq.
  rewrite dict_set_set. right. by eexists d, _.
Qed.

(** Readers of another group see the same thing in a document where only
    [group_id]'s record was replaced. *)
Lemma readers_other_group d group_id rec' other w w' :
  other <> group_id ->
  rejected_doc E w = JDict d ->
  rejected_doc E w' = JDict (dict_set d group_id rec') ->
  fst (get_rejection_count E other w') = fst (get_rejection_count E other w) /\
  fst (is_group_blocked E other w') = fst (is_group_blocked E other w).
Proof.
  intros Hne Hd Hd'.
  rewrite (get_rejection_count_at E _ other w' Hd').
  rewrite (get_rejection_count_at E _ other w Hd).
  rewrite (is_group_blocked_at E _ other w' Hd').
  rewrite (is_group_blocked_at E _ other w Hd).
  cbn [fst]. rewrite dict_get_set_ne by done. done.
Qed.

End TrackerFrame.

(** X3. On a store whose writes succeed, neither a rejection nor a reset of
    one group changes what [get_rejection_count] and [is_group_blocked]
    answer for any other group, whatever the stored document looks like and
    whether or not the call raises. *)
Theorem other_groups_untouched (E : Env) (op : tracker_op) (other : string) (w : World) :
  reliable E ->
  other <> match op with OpTrack g _ _ _ => g | OpReset g => g end ->
  fst (get_rejection_count E other (run_op E op w)) = fst (get_rejection_count E other w) /\
  fst (is_group_blocked E other (run_op E op w)) = fst (is_group_blocked E other w).
Proof.
  intros Hrel Hne.
  assert (Hsame : forall w', rejected_doc E w' = rejected_doc E w ->
            fst (get_rejection_count E other w') = fst (get_rejection_count E other w) /\
            fst (is_group_blocked E other w') = fst (is_group_blocked E other w)).
  { intros w' Hw'. unfold get_rejection_count, is_group_blocked, bind.
    rewrite !load_json_file_eq. fold (rejected_doc E w') (rejected_doc E w).
    rewrite Hw'. unfold lift.
    by destruct (py_get (rejected_doc E w) other empty_dict). }
  destruct op as [g gn ai an|g]; cbn [run_op].
  - destruct (track_rejection_world E g gn ai an w) as [->|(d & rec' & Hd & ->)];
      [by apply Hsame|].
    apply (readers_other_group E d g rec'); [done..|]. by apply rejected_doc_saved.
  - destruct (reset_rejection_count_world E g w) as [->|(d & rec' & Hd & ->)];
      [by apply Hsame|].
    apply (readers_other_group E d g rec'); [done..|]. by apply rejected_doc_saved.
Qed.

Lemma other_groups_untouched_witness :
  fst (get_rejection_count offline_env "-1001234567890"
         (run_op offline_env (OpTrack "-1005555555555" JNull JNull JNull) blocked_world))
    = fst (get_rejection_count offline_env "-1001234567890" blocked_world) /\
  fst (is_group_blocked offline_env "-1001234567890"
         (run_op offline_env (OpTrack "-1005555555555" JNull JNull JNull) blocked_world))
    = fst (is_group_blocked offline_env "-1001234567890" blocked_world).
Proof.
  apply (other_groups_untouched offline_env
           (OpTrack "-1005555555555" JNull JNull JNull) "-1001234567890" blocked_world).
  - intros tr name data. split; reflexivity.
  - discriminate.
Defined.

Lemma strike_results_blocked k n :
  3 <= k -> strike_results k n = repeat (JBool true) n.
Proof.
  revert k. induction n as [|n IH]; intros k Hk; cbn [strike_results repeat]; [done|].
  rewrite (proj2 (Z.leb_le 3 k) Hk). f_equal. apply IH. lia.
Qed.

(** X4. There is no terminal state and no upper bound: on a store whose
    writes succeed, every further rejection of a group that is already
    blocked (count [n >= 3]) returns [True], the count keeps growing by one
    per call and the group stays blocked. *)
Theorem blocked_stays_blocked (E : Env) (group_id : string)
    (calls : list (pyval * pyval * pyval)) (n : Z) (w : World) :
  reliable E ->
  group_at (rejected_doc E w) group_id n ->
  3 <= n ->
  exists w',
    track_many E group_id calls w = (Ret (repeat (JBool true) (length calls)), w') /\
    fst (get_rejection_count E group_id w') = Ret (JInt (n + Z.of_nat (length calls))) /\
    fst (is_group_blocked E group_id w') = Ret (JBool true).
Proof.
  intros Hrel Hat Hn.
  destruct (track_many_at E group_id calls n w Hrel Hat) as (w' & Hrun & Hat').
  destruct (readers_at E group_id _ w' Hat') as [Hcount Hblocked].
  exists w'. rewrite Hrun, Hcount, Hblocked. cbn [fst].
  rewrite strike_results_blocked by lia.
  repeat split. f_equal. f_equal. apply Z.leb_le. lia.
Qed.

Lemma blocked_stays_blocked_witness :
  exists w',
    track_many offline_env "-1001234567890" [(JNull, JNull, JNull); (JNull, JNull, JNull)]
      blocked_world = (Ret [JBool true; JBool true], w') /\
    fst (get_rejection_count offline_env "-1001234567890" w') = Ret (JInt 5) /\
    fst (is_group_blocked offline_env "-1001234567890" w') = Ret (JBool true).
Proof.
  apply (blocked_stays_blocked offline_env "-1001234567890"
           [(JNull, JNull, JNull); (JNull, JNull, JNull)] 3 blocked_world).
  - intros tr name data. split; reflexivity.
  - eexists. split; [vm_compute; reflexivity|]. right. eexists. split; [reflexivity|].
    eexists. split; [reflexivity|]. split; reflexivity.
  - lia.
Defined.

(** X5. Resetting a group that has a record sets its count to 0 and its flag
    to [False] and keeps every other field of the record (the history of the
    group stays); on a store whose writes succeed the reset reports [True],
    the readers answer 0 and [False], and the next rejections run a fresh
    three-strike cycle. *)
Theorem reset_clears_strikes (E : Env) (d : pydict) (group_id : string) (r : pydict)
    (w : World) :
  reliable E ->
  rejected_doc E w = JDict d ->
  dict_get d group_id = Some (JDict r) ->
  let w' := snd (reset_rejection_count E group_id w) in
  fst (reset_rejection_count E group_id w) = Ret true /\
  (exists r',
     rejected_doc E w' = JDict (dict_set d group_id (JDict r')) /\
     dict_get r' "rejection_count" = Some (JInt 0) /\
     dict_get r' "blocked" = Some (JBool false) /\
     forall f, f <> "rejection_count" -> f <> "blocked" -> dict_get r' f = dict_get r f) /\
  fst (get_rejection_count E group_id w') = Ret (JInt 0) /\
  fst (is_group_blocked E group_id w') = Ret (JBool false) /\
  (forall calls, exists w'',
     track_many E group_id calls w' = (Ret (strike_results 1 (length calls)), w'') /\
     fst (get_rejection_count E group_id w'') = Ret (JInt (Z.of_nat (length calls)))).
Proof.
  intros Hrel Hdoc Hrec w'. subst w'.
  rewrite reset_rejection_count_unfold. rewrite Hdoc. cbn [py_in].
  unfold dict_mem. rewrite Hrec.
  rewrite (set_field_at d group_id r) by done.
  rewrite (set_field_at _ group_id _) by apply dict_get_set_eq.
  rewrite dict_set_set.
  set (r' := dict_set (dict_set r "rejection_count" (JInt 0)) "blocked" (JBool false)).
  set (w' := snd (save_json_file E (REJECTED_GROUPS_PATH E)
                    (JDict (dict_set d group_id (JDict r'))) w)).
  assert (Hw' : rejected_doc E w' = JDict (dict_set d group_id (JDict r'))).
  { by apply rejected_doc_saved. }
  assert (Hc : dict_get r' "rejection_count" = Some (JInt 0)).
  { unfold r'. by rewrite dict_get_set_ne, dict_get_set_eq. }
  assert (Hb : dict_get r' "blocked" = Some (JBool false)).
  { unfold r'. by rewrite dict_get_set_eq. }
  assert (Hat : group_at (rejected_doc E w') group_id 0).
  { rewrite Hw'. eexists. split; [done|]. right. eexists.
    split; [apply dict_get_set_eq|]. by exists r'. }
  destruct (readers_at E group_id 0 w' Hat) as [Hcount Hblocked].
  split.
  { rewrite save_json_file_result. unfold write_ok.
    destruct (Hrel (trace w) (REJECTED_GROUPS_PATH E)
                (JDict (dict_set d group_id (JDict r')))) as [-> ->].
    by destruct (env_set (DATABASE_URL E)). }
  split.
  { exists r'. repeat split; try done.
    intros f H1 H2. unfold r'. by rewrite !dict_get_set_ne. }
  split; [by rewrite Hcount|]. split; [by rewrite Hblocked|].
  intros calls.
  destruct (track_many_at E group_id calls 0 w' Hrel Hat) as (w'' & Hrun & Hat'').
  destruct (readers_at E group_id _ w'' Hat'') as [Hcount'' _].
  exists w''. by rewrite Hrun, Hcount''.
Qed.

Lemma reset_clears_strikes_witness :
  fst (reset_rejection_count offline_env "-1001234567890" blocked_world) = Ret true /\
  fst (is_group_blocked offline_env "-1001234567890"
         (snd (reset_rejection_count offline_env "-1001234567890" blocked_world)))
    = Ret (JBool false).
Proof.
  destruct (reset_clears_strikes offline_env
              [("-1001234567890", JDict blocked_record)]
              "-1001234567890" blocked_record blocked_world)
    as (Hret & _ & _ & Hblocked & _).
  - intros tr name data. split; reflexivity.
  - vm_compute. reflexivity.
  - reflexivity.
  - split; [exact Hret|exact Hblocked].
Defined.

(** X6. Resetting a group that has no record is not an error: the call
    reports [True] and nothing is written, the world is exactly as it was. *)
Theorem reset_of_clean_group (E : Env) (d : pydict) (group_id : string) (w : World) :
  rejected_doc E w = JDict d ->
  dict_get d group_id = None ->
  reset_rejection_count E group_id w = (Ret true, w).
Proof.
  intros Hdoc Hnone. rewrite reset_rejection_count_unfold, Hdoc. cbn [py_in].
  unfold dict_mem. by rewrite Hnone.
Qed.

Lemma reset_of_clean_group_witness :
  reset_rejection_count offline_env "-1005555555555" blocked_world
    = (Ret true, blocked_world).
Proof.
  apply (reset_of_clean_group offline_env [("-1001234567890", JDict blocked_record)]).
  - vm_compute. reflexivity.
  - reflexivity.
Defined.

(** ** The tracker: the admin views *)

Lemma dict_get_notin (d : pydict) k : k ∉ dict_keys d -> dict_get d k = None.
Proof.
  induction d as [|[k' v] d IH]; cbn; [done|]. intros Hnotin.
  destruct (String.eqb_spec k' k) as [->|Hne].
  - exfalso. apply Hnotin. by left.
  - apply IH. intros Hin. apply Hnotin. by right.
Qed.

Lemma dict_get_in (d : pydict) k v : dict_get d k = Some v -> (k, v) ∈ d.
Proof.
  induction d as [|[k' v'] d IH]; cbn; [done|].
  destruct (String.eqb_spec k' k) as [->|Hne].
  - intros [= ->]. by left.
  - intros H. right. by apply IH.
Qed.

Lemma dict_set_fresh (d : pydict) k v : dict_get d k = None -> dict_set d k v = d ++ [(k, v)].
Proof.
  induction d as [|[k' v'] d IH]; cbn; [done|].
  destruct (String.eqb k' k); [done|]. intros H. by rewrite IH.
Qed.

Lemma dict_get_app (d1 d2 : pydict) k :
  dict_get (d1 ++ d2) k = match dict_get d1 k with Some v => Some v | None => dict_get d2 k end.
Proof.
  induction d1 as [|[k' v'] d1 IH]; cbn; [done|]. by destruct (String.eqb k' k).
Qed.

Lemma blocked_entries_keys d k : k ∈ dict_keys (blocked_entries d) -> k ∈ dict_keys d.
Proof.
  unfold blocked_entries, dict_keys. induction d as [|[k' v] d IH]; cbn; [done|].
  destruct (record_blocked v); cbn.
  - intros [->|Hin]%elem_of_cons; [by left|right; by apply IH].
  - intros Hin. right. by apply IH.
Qed.

Lemma blocked_entries_lookup d k rec :
  NoDup (dict_keys d) ->
  dict_get (blocked_entries d) k = Some rec <->
  dict_get d k = Some rec /\ record_blocked rec = true.
Proof.
  unfold blocked_entries. induction d as [|[k' v] d IH]; cbn.
  { intros _. split; [done|]. by intros [? _]. }
  intros [Hnotin Hnodup]%NoDup_cons. specialize (IH Hnodup).
  destruct (String.eqb_spec k' k) as [->|Hne].
  - destruct (record_blocked v) eqn:Hb; cbn.
    + rewrite String.eqb_refl. split.
      * intros [= <-]. by split.
      * by intros [? _].
    + fold (blocked_entries d). rewrite (dict_get_notin (blocked_entries d) k).
      * split; [done|]. intros [[= ->] ?]. congruence.
      * intros Hin. by apply Hnotin, blocked_entries_keys.
  - destruct (record_blocked v); cbn; [|done].
    by rewrite (proj2 (String.eqb_neq k' k) Hne).
Qed.

Section AdminViews.

Variable E : Env.

Lemma blocked_loop items : forall acc w,
  NoDup (dict_keys items) ->
  (forall k, k ∈ dict_keys items -> dict_get acc k = None) ->
  (forall k v, (k, v) ∈ items -> exists r, v = JDict r) ->
  (fix loop (items : pydict) (blocked : pydict) : M pyval :=
     match items with
     | [] => ret (JDict blocked)
     | (group_id, data) :: rest =>
         b <- lift (py_get data "blocked" (JBool false));;
         loop rest (if truthy b then dict_set blocked group_id data else blocked)
     end) items acc w
  = (Ret (JDict (acc ++ blocked_entries items)), w).
Proof.
  induction items as [|[g data] rest IH]; intros acc w Hnodup Hacc Hdict.
  - cbn. by rewrite app_nil_r.
  - apply NoDup_cons in Hnodup as [Hnotin Hnodup].
    destruct (Hdict g data) as [r ->]; [by left|].
    cbn [py_get]. cbn [bind lift].
    unfold blocked_entries. cbn [List.filter snd]. unfold record_blocked at 1.
    cbn [py_get]. fold (blocked_entries rest).
    destruct (truthy _).
    + rewrite IH.
      * rewrite dict_set_fresh by (apply Hacc; by left). by rewrite <- app_assoc.
      * done.
      * intros k Hk. rewrite dict_set_fresh by (apply Hacc; by left).
        rewrite dict_get_app, Hacc by by right. cbn.
        destruct (String.eqb_spec g k) as [->|]; [done|done].
      * intros k v Hin. apply (Hdict k v). by right.
    + rewrite IH; [done..| |].
      * intros k Hk. apply Hacc. by right.
      * intros k v Hin. apply (Hdict k v). by right.
Qed.

End AdminViews.

(** X7. When the stored document is a mapping of records, [get_blocked_groups]
    returns, in the document's order and without touching the world, exactly
    the entries of [get_all_rejections] whose [blocked] field is true: a
    group is in the result, with the record it has in the document, if and
    only if it is in the document and blocked. *)
Theorem blocked_groups_are_the_blocked_entries (E : Env) (d : pydict) (w : World) :
  rejected_doc E w = JDict d ->
  NoDup (dict_keys d) ->
  (forall k v, (k, v) ∈ d -> exists r, v = JDict r) ->
  get_all_rejections E w = (Ret (JDict d), w) /\
  get_blocked_groups E w = (Ret (JDict (blocked_entries d)), w) /\
  (forall group_id rec,
     dict_get (blocked_entries d) group_id = Some rec <->
     dict_get d group_id = Some rec /\ record_blocked rec = true).
Proof.
  intros Hdoc Hnodup Hdict. split; [|split].
  - unfold get_all_rejections. rewrite load_json_file_eq.
    fold (rejected_doc E w). by rewrite Hdoc.
  - unfold get_blocked_groups.
    unfold bind at 1. rewrite load_json_file_eq. fold (rejected_doc E w). rewrite Hdoc.
    cbn [py_items bind lift].
    by rewrite (blocked_loop d [] w).
  - intros g rec. by apply blocked_entries_lookup.
Qed.

Lemma blocked_groups_are_the_blocked_entries_witness :
  get_blocked_groups offline_env blocked_world
    = (Ret (JDict [("-1001234567890", JDict blocked_record)]), blocked_world).
Proof.
  destruct (blocked_groups_are_the_blocked_entries offline_env
              [("-1001234567890", JDict blocked_record)] blocked_world)
    as (_ & H & _).
  - vm_compute. reflexivity.
  - repeat constructor. by intros ?%elem_of_nil.
  - intros k v [[= -> ->]|Hin%elem_of_nil]%elem_of_cons; [by eexists|done].
  - exact H.
Defined.

(** X8. The two readers of the tracker never change the world.  For a group
    without a record they answer [False] and 0; for a record that lacks the
    field they answer the same defaults; otherwise they answer the stored
    field. *)
Theorem tracker_readers (E : Env) (group_id : string) (w : World) :
  snd (is_group_blocked E group_id w) = w /\
  snd (get_rejection_count E group_id w) = w /\
  (forall d, rejected_doc E w = JDict d -> dict_get d group_id = None ->
     fst (is_group_blocked E group_id w) = Ret (JBool false) /\
     fst (get_rejection_count E group_id w) = Ret (JInt 0)) /\
  (forall d r, rejected_doc E w = JDict d -> dict_get d group_id = Some (JDict r) ->
     fst (is_group_blocked E group_id w)
       = Ret (default (JBool false) (dict_get r "blocked")) /\
     fst (get_rejection_count E group_id w)
       = Ret (default (JInt 0) (dict_get r "rejection_count"))).
Proof.
  assert (Hpure : snd (is_group_blocked E group_id w) = w /\
                  snd (get_rejection_count E group_id w) = w).
  { unfold is_group_blocked, get_rejection_count, bind.
    rewrite !load_json_file_eq. unfold lift.
    by destruct (py_get _ group_id empty_dict). }
  destruct Hpure as [H1 H2]. repeat split; try done.
  - rewrite (is_group_blocked_at E d) by done. by rewrite H0.
  - rewrite (get_rejection_count_at E d) by done. by rewrite H0.
  - rewrite (is_group_blocked_at E d) by done. rewrite H0. cbn.
    by destruct (dict_get r "blocked").
  - rewrite (get_rejection_count_at E d) by done. rewrite H0. cbn.
    by destruct (dict_get r "rejection_count").
Qed.

(** ** Whitelist bookkeeping *)

Lemma dict_get_del_ne (d : pydict) k k' : k <> k' -> dict_get (dict_del d k) k' = dict_get d k'.
Proof.
  intros Hne. induction d as [|[k0 v0] d IH]; cbn; [done|].
  destruct (String.eqb_spec k0 k) as [->|Hk].
  - by rewrite (proj2 (String.eqb_neq k k') Hne).
  - cbn. by rewrite IH.
Qed.

Lemma dict_get_del_eq (d : pydict) k : NoDup (dict_keys d) -> dict_get (dict_del d k) k = None.
Proof.
  induction d as [|[k0 v0] d IH]; cbn; [done|].
  intros [Hnotin Hnodup]%NoDup_cons.
  destruct (String.eqb_spec k0 k) as [->|Hk].
  - by apply dict_get_notin.
  - cbn. rewrite (proj2 (String.eqb_neq k0 k) Hk). by apply IH.
Qed.

Lemma dict_mem_notin (d : pydict) k : dict_mem d k = false -> k ∉ dict_keys d.
Proof.
  unfold dict_mem, dict_keys. induction d as [|[k' v] d IH]; cbn.
  - intros _. by intros ?%elem_of_nil.
  - destruct (String.eqb_spec k' k) as [->|Hne]; [done|].
    intros H [->|Hin]%elem_of_cons; [done|]. by apply IH.
Qed.

Lemma dict_set_NoDup (d : pydict) k v :
  NoDup (dict_keys d) -> NoDup (dict_keys (dict_set d k v)).
Proof.
  intros Hnodup. rewrite dict_keys_set.
  destruct (dict_mem d k) eqn:Hmem; [done|].
  apply NoDup_app. split; [done|]. split.
  - intros x Hx [->|?%elem_of_nil]%elem_of_cons; [|done].
    by apply (dict_mem_notin d k).
  - apply NoDup_singleton.
Qed.

(** X9. Whitelisting a group, when the whitelist is a mapping and the write
    goes through, reports [True], makes [is_group_whitelisted] answer
    [True] for that group and leaves its answer for every other group as it
    was; a group is not whitelisted while the whitelist holds no entry for
    it. *)
Theorem whitelisted_after_whitelisting (E : Env) (group_id : string) (d : pydict)
    (w : World) :
  whitelist_doc E w = JDict d ->
  write_ok E w (WHITELIST_PATH E) (JDict (dict_set d group_id (JBool true))) = true ->
  let w' := snd (whitelist_group E group_id w) in
  fst (is_group_whitelisted E group_id w) = Ret (dict_mem d group_id) /\
  fst (whitelist_group E group_id w) = Ret true /\
  fst (is_group_whitelisted E group_id w') = Ret true /\
  (forall other, other <> group_id ->
     fst (is_group_whitelisted E other w') = fst (is_group_whitelisted E other w)).
Proof.
  intros Hdoc Hok w'. subst w'.
  assert (Hread : forall g w0,
            fst (is_group_whitelisted E g w0) = py_in g (whitelist_doc E w0)).
  { intros g w0. unfold is_group_whitelisted, bind. by rewrite load_json_file_eq. }
  assert (Hrun : whitelist_group E group_id w
                 = save_json_file E (WHITELIST_PATH E)
                     (JDict (dict_set d group_id (JBool true))) w).
  { unfold whitelist_group. unfold bind at 1. rewrite load_json_file_eq.
    fold (whitelist_doc E w). by rewrite Hdoc. }
  assert (Hafter : whitelist_doc E (snd (whitelist_group E group_id w))
                   = JDict (dict_set d group_id (JBool true))).
  { rewrite Hrun. unfold whitelist_doc. rewrite save_json_file_stored.
    by rewrite decide_True, Hok. }
  split; [by rewrite Hread, Hdoc|].
  split; [by rewrite Hrun, save_json_file_result, Hok|].
  split.
  - rewrite Hread, Hafter. cbn. unfold dict_mem. by rewrite dict_get_set_eq.
  - intros other Hne. rewrite !Hread, Hafter, Hdoc. cbn. unfold dict_mem.
    by rewrite dict_get_set_ne.
Qed.

Lemma whitelisted_after_whitelisting_witness :
  fst (is_group_whitelisted offline_env "-1001234567890" empty_world) = Ret false /\
  fst (is_group_whitelisted offline_env "-1001234567890"
         (snd (whitelist_group offline_env "-1001234567890" empty_world))) = Ret true.
Proof.
  destruct (whitelisted_after_whitelisting offline_env "-1001234567890" [] empty_world)
    as (H0 & _ & H1 & _); [reflexivity..|].
  split; [exact H0|exact H1].
Defined.

(** X10. Adding a group to the pending whitelist and then removing it, on a
    store whose writes succeed, reports [True] twice and leaves the pending
    document without that group and with every other entry as it was before
    the addition; in between, the group's entry carries the metadata given
    and the time of the call. *)
Theorem pending_add_then_remove (E : Env) (group_id : string)
    (group_name admin_id admin_name : pyval) (d : pydict) (w : World) :
  reliable E ->
  pending_doc E w = JDict d ->
  NoDup (dict_keys d) ->
  let w1 := snd (add_pending_whitelist E group_id group_name admin_id admin_name w) in
  let w2 := snd (remove_pending_whitelist E group_id w1) in
  fst (add_pending_whitelist E group_id group_name admin_id admin_name w) = Ret true /\
  (exists d1, pending_doc E w1 = JDict d1 /\
     dict_get d1 group_id
       = Some (JDict [ ("group_name", group_name); ("admin_id", admin_id);
                       ("admin_name", admin_name);
                       ("timestamp", JInt (clock E (trace w))) ])) /\
  fst (remove_pending_whitelist E group_id w1) = Ret true /\
  (exists d2, pending_doc E w2 = JDict d2 /\
     dict_get d2 group_id = None /\
     forall other, other <> group_id -> dict_get d2 other = dict_get d other).
Proof.
  intros Hrel Hdoc Hnodup w1 w2.
  assert (Hsaved : forall doc w0,
            fst (save_json_file E (PENDING_WHITELIST_PATH E) doc w0) = Ret true /\
            pending_doc E (snd (save_json_file E (PENDING_WHITELIST_PATH E) doc w0)) = doc).
  { intros doc w0.
    assert (Hok : write_ok E w0 (PENDING_WHITELIST_PATH E) doc = true).
    { unfold write_ok. destruct (Hrel (trace w0) (PENDING_WHITELIST_PATH E) doc) as [-> ->].
      by destruct (env_set (DATABASE_URL E)). }
    split; [by rewrite save_json_file_result, Hok|].
    unfold pending_doc. rewrite save_json_file_stored. by rewrite decide_True, Hok. }
  set (entry := JDict [ ("group_name", group_name); ("admin_id", admin_id);
                        ("admin_name", admin_name);
                        ("timestamp", JInt (clock E (trace w))) ]).
  assert (Hadd : add_pending_whitelist E group_id group_name admin_id admin_name w
                 = save_json_file E (PENDING_WHITELIST_PATH E)
                     (JDict (dict_set d group_id entry)) w).
  { unfold add_pending_whitelist. unfold bind at 1. rewrite load_json_file_eq.
    fold (pending_doc E w). by rewrite Hdoc. }
  assert (Hw1 : pending_doc E w1 = JDict (dict_set d group_id entry)).
  { unfold w1. rewrite Hadd. apply Hsaved. }
  assert (Hrem : remove_pending_whitelist E group_id w1
                 = save_json_file E (PENDING_WHITELIST_PATH E)
                     (JDict (dict_del (dict_set d group_id entry) group_id)) w1).
  { unfold remove_pending_whitelist. unfold bind at 1. rewrite load_json_file_eq.
    fold (pending_doc E w1). rewrite Hw1. cbn [py_in bind lift].
    unfold dict_mem at 1. rewrite dict_get_set_eq. cbn [py_delitem bind lift].
    unfold dict_mem. by rewrite dict_get_set_eq. }
  split; [rewrite Hadd; apply Hsaved|].
  split; [exists (dict_set d group_id entry); split; [done|apply dict_get_set_eq]|].
  split; [rewrite Hrem; apply Hsaved|].
  exists (dict_del (dict_set d group_id entry) group_id). split.
  { unfold w2. rewrite Hrem. apply Hsaved. }
  split.
  - apply dict_get_del_eq. by apply dict_set_NoDup.
  - intros other Hne. rewrite dict_get_del_ne, dict_get_set_ne by done. done.
Qed.

Lemma pending_add_then_remove_witness :
  exists d2,
    pending_doc offline_env
      (snd (remove_pending_whitelist offline_env "g"
              (snd (add_pending_whitelist offline_env "g" (JStr "Chat") (JStr "7")
                      (JStr "Ann") empty_world)))) = JDict d2 /\
    dict_get d2 "g" = None.
Proof.
  destruct (pending_add_then_remove offline_env "g" (JStr "Chat") (JStr "7") (JStr "Ann")
              [] empty_world) as (_ & _ & _ & d2 & Hd2 & Hnone & _).
  - intros tr name data. split; reflexivity.
  - reflexivity.
  - constructor.
  - exists d2. split; [exact Hd2|exact Hnone].
Defined.

(** ** The balance verifier: further behaviour *)

Lemma find_token_balance_skip pre : forall rest tk,
  (forall e, e ∈ pre -> exists a, entry_address e = JStr a /\ lower a <> lower tk) ->
  find_token_balance (map JDict pre ++ rest) (JStr tk) = find_token_balance rest (JStr tk).
Proof.
  induction pre as [|e pre IH]; intros rest tk Hpre; [done|].
  destruct (Hpre e) as (a & Ha & Hne); [by left|].
  cbv [entry_address default from_option id] in Ha.
  cbn [map app find_token_balance py_get]. rewrite Ha.
  cbn [py_lower]. rewrite (proj2 (String.eqb_neq _ _) Hne).
  apply IH. intros e' He'. apply Hpre. by right.
Qed.

(** X11. [get_token_balance_moralis] never raises.  For addresses in ASCII,
    entries of the answer whose address differs from the token (compared in
    lower case) are passed over; the first entry whose address equals the
    token up to case decides, and the balance is its raw balance over
    [10 ** decimals] (zero if that division raises); when every entry
    differs the balance is zero. *)
Theorem moralis_first_match_decides (E : Env) (wallet chain : pyval) (tk : string)
    (w : World) (pre : list pydict) :
  ascii_text tk = true ->
  (forall e, e ∈ pre ->
     exists a, entry_address e = JStr a /\ ascii_text a = true /\ lower a <> lower tk) ->
  (exists f, fst (get_token_balance_moralis E wallet (JStr tk) chain w) = Ret f) /\
  (get_wallet_token_balances E (trace w) wallet chain [JStr tk]
     = Ret (JList (map JDict pre)) ->
   fst (get_token_balance_moralis E wallet (JStr tk) chain w) = Ret (FFin 0)) /\
  (forall entry rest addr b raw dv dec,
     get_wallet_token_balances E (trace w) wallet chain [JStr tk]
       = Ret (JList (map JDict pre ++ JDict entry :: rest)) ->
     dict_get entry "token_address" = Some (JStr addr) ->
     lower addr = lower tk ->
     dict_get entry "balance" = Some b -> py_int b = Ret raw ->
     dict_get entry "decimals" = Some dv -> py_int dv = Ret dec ->
     fst (get_token_balance_moralis E wallet (JStr tk) chain w)
       = Ret (match num_truediv (NInt raw) (pow10 dec) with
              | Ret f => f
              | Raise _ => FFin 0
              end)).
Proof.
  intros _ Hascii.
  assert (Hpre : forall e, e ∈ pre ->
            exists a, entry_address e = JStr a /\ lower a <> lower tk).
  { intros e He. destruct (Hascii e He) as (a & Ha & _ & Hne). by exists a. }
  clear Hascii. split; [|split].
  - unfold get_token_balance_moralis.
    match goal with
    | |- context [try_except ?body _ w] =>
        destruct (try_except_total body (FFin 0) w) as (f & w' & ->)
    end.
    by exists f.
  - intros Hres. unfold get_token_balance_moralis, try_except, bind,
      sdk_get_wallet_token_balances. rewrite Hres.
    destruct pre as [|e pre']; [done|]. cbn [map]. unfold lift.
    change (JDict e :: map JDict pre') with (map JDict (e :: pre')).
    rewrite <- (app_nil_r (map JDict (e :: pre'))).
    by rewrite find_token_balance_skip.
  - intros entry rest addr b raw dv dec Hres Haddr Hlow Hb Hraw Hdv Hdec.
    unfold get_token_balance_moralis, try_except, bind, sdk_get_wallet_token_balances.
    rewrite Hres.
    assert (Hfind : find_token_balance (map JDict pre ++ JDict entry :: rest) (JStr tk)
                    = match num_truediv (NInt raw) (pow10 dec) with
                      | Ret f => Ret (Some f)
                      | Raise e => Raise e
                      end).
    { rewrite find_token_balance_skip by done.
      cbn [find_token_balance py_get]. rewrite Haddr. cbn [py_lower].
      rewrite Hlow, String.eqb_refl, Hb, Hraw, Hdv, Hdec. done. }
    destruct (map JDict pre ++ JDict entry :: rest) as [|x l] eqn:Hl.
    { by destruct pre. }
    unfold lift. rewrite Hfind.
    by destruct (num_truediv (NInt raw) (pow10 dec)).
Qed.

Lemma moralis_first_match_decides_witness :
  fst (get_token_balance_moralis two_token_env member_address
         (JStr "0X1234567890123456789012345678901234567890") (JStr "bsc") empty_world)
    = Ret (match num_truediv (NInt 2500000000000000000000) (pow10 18) with
           | Ret f => f
           | Raise _ => FFin 0
           end).
Proof.
  destruct (moralis_first_match_decides two_token_env member_address (JStr "bsc")
              "0X1234567890123456789012345678901234567890" empty_world
              [[ ("token_address", JStr "0xabcdefabcdefabcdefabcdefabcdefabcdefabcd");
                 ("balance", JStr "7"); ("decimals", JInt 0) ]])
    as (_ & _ & H).
  - reflexivity.
  - intros e [->|Hin%elem_of_nil]%elem_of_cons; [|done].
    exists "0xabcdefabcdefabcdefabcdefabcdefabcdefabcd".
    split; [reflexivity|]. split; [reflexivity|discriminate].
  - apply (H [ ("token_address", JStr "0x1234567890123456789012345678901234567890");
               ("balance", JStr "2500000000000000000000");
               ("decimals", JInt 18) ] []
             "0x1234567890123456789012345678901234567890"
             (JStr "2500000000000000000000") 2500000000000000000000 (JInt 18) 18);
      reflexivity.
Defined.

(** X12. A malformed group configuration never lets a member pass: without a
    [token] or a [min_balance] entry the check answers [False] at once,
    before any provider is asked; with a threshold that is not a number it
    answers [False] whatever the providers say. *)
Theorem malformed_config_fails_closed (E : Env) (cfg addr : pyval) (w : World) :
  (forall e, py_getitem cfg "token" = Raise e ->
     verify_user_balance E cfg addr w = (Ret false, w)) /\
  (forall e, py_getitem cfg "min_balance" = Raise e ->
     verify_user_balance E cfg addr w = (Ret false, w)) /\
  (forall min, py_getitem cfg "min_balance" = Ret min -> num_of min = None ->
     fst (verify_user_balance E cfg addr w) = Ret false).
Proof.
  split; [|split].
  - intros e He. unfold verify_user_balance, try_except. by rewrite He.
  - intros e He. unfold verify_user_balance, try_except. rewrite He.
    by destruct (py_getitem cfg "token").
  - intros min Hmin Hnum.
    destruct (py_getitem cfg "token") as [token|e] eqn:Ht.
    2: { unfold verify_user_balance, try_except. by rewrite Ht. }
    destruct (py_get cfg "chain_id" (JStr "eth")) as [chain|e] eqn:Hc.
    2: { unfold verify_user_balance, try_except. by rewrite Ht, Hmin, Hc. }
    destruct (moralis_attempt_total E addr token chain w) as (f1 & w1 & Hp).
    rewrite (verify_user_balance_eq E cfg addr w token min chain f1 w1) by done.
    assert (Hno : forall r, compliance r min = false).
    { intros [f|e]; [|done]. unfold compliance, py_ge. cbn [num_of]. by rewrite Hnum. }
    destruct (float_le f1 (FFin 0)); cbn [fst]; by rewrite Hno.
Qed.

(** X13. A balance check leaves the files and the database as they are and
    never calls the chat platform: all it adds to the trace is, in this
    order, at most one Moralis balance query (for the member's address, the
    canonical chain and the token), and then, only when that balance is not
    positive, the Etherscan query and the Moralis metadata query of the
    fallback. *)
Theorem balance_check_requests (E : Env) (cfg addr : pyval) (w : World) :
  (exists evs,
     snd (verify_user_balance E cfg addr w) = mkWorld (files w) (db w) (trace w ++ evs) /\
     Forall provider_event evs) /\
  (forall token min chain f1 w1,
     py_getitem cfg "token" = Ret token ->
     py_getitem cfg "min_balance" = Ret min ->
     py_get cfg "chain_id" (JStr "eth") = Ret chain ->
     moralis_attempt E addr token chain w = (Ret f1, w1) ->
     exists primary,
       trace (snd (verify_user_balance E cfg addr w))
         = trace w ++ check_requests E addr token chain primary (float_le f1 (FFin 0))).
Proof.
  split; [apply verify_user_balance_world|].
  intros token min chain f1 w1 Ht Hm Hc Hp.
  rewrite (verify_user_balance_eq E cfg addr w token min chain f1 w1) by done.
  unfold check_requests.
  destruct (moralis_attempt_world E addr token chain w) as [Hw|(c & Hchain & Hw)];
    rewrite Hp in Hw; cbn [snd] in Hw; subst w1.
  - exists false. destruct (float_le f1 (FFin 0)); cbn [snd app].
    + by rewrite etherscan_fallback_world.
    + by rewrite app_nil_r.
  - exists true. rewrite Hchain.
    destruct (float_le f1 (FFin 0)); cbn [snd].
    + rewrite etherscan_fallback_world. cbn [trace]. by rewrite <- app_assoc.
    + cbn [trace]. by rewrite app_nil_r.
Qed.

Lemma float_le_trans a b c : float_le a b = true -> float_le b c = true -> float_le a c = true.
Proof.
  destruct a as [x| | |], b as [y| | |], c as [z| | |]; cbn; try done.
  rewrite !Qle_bool_iff. apply Qle_trans.
Qed.

(** X14. Lowering the threshold never turns a compliant member away: for two
    configurations of the same token and chain whose thresholds are numbers
    with [min2 <= min1], a check that passes against [min1] passes against
    [min2], in the same world. *)
Theorem lower_threshold_still_complies (E : Env) (cfg1 cfg2 addr : pyval) (w : World)
    (token chain min1 min2 : pyval) (m1 m2 : pynum) :
  py_getitem cfg1 "token" = Ret token -> py_getitem cfg2 "token" = Ret token ->
  py_get cfg1 "chain_id" (JStr "eth") = Ret chain ->
  py_get cfg2 "chain_id" (JStr "eth") = Ret chain ->
  py_getitem cfg1 "min_balance" = Ret min1 -> py_getitem cfg2 "min_balance" = Ret min2 ->
  num_of min1 = Some m1 -> num_of min2 = Some m2 ->
  num_le m2 m1 = true ->
  fst (verify_user_balance E cfg1 addr w) = Ret true ->
  fst (verify_user_balance E cfg2 addr w) = Ret true.
Proof.
  intros Ht1 Ht2 Hc1 Hc2 Hm1 Hm2 Hn1 Hn2 Hle.
  destruct (moralis_attempt_total E addr token chain w) as (f1 & w1 & Hp).
  rewrite (verify_user_balance_eq E cfg1 addr w token min1 chain f1 w1) by done.
  rewrite (verify_user_balance_eq E cfg2 addr w token min2 chain f1 w1) by done.
  assert (Hmono : forall r, compliance r min1 = true -> compliance r min2 = true).
  { intros [f|e]; [|done]. unfold compliance, py_ge. cbn [num_of].
    rewrite Hn1, Hn2. unfold num_le in *. cbn [float_of_num].
    intros H. by apply (float_le_trans _ (float_of_num m1)). }
  destruct (float_le f1 (FFin 0)); cbn [fst]; intros [= H]; f_equal; by apply Hmono.
Qed.

Lemma lower_threshold_still_complies_witness :
  fst (verify_user_balance moralis_env (group_config_with (JInt 10)) member_address
         empty_world) = Ret true.
Proof.
  apply (lower_threshold_still_complies moralis_env
           (group_config_with (JFloat (FFin 1000))) (group_config_with (JInt 10))
           member_address empty_world
           (JStr "0x1234567890123456789012345678901234567890") (JStr "bsc")
           (JFloat (FFin 1000)) (JInt 10) (NFloat (FFin 1000)) (NInt 10));
    reflexivity.
Defined.

(** X15. The chain table is a canonicalisation: whatever identifier is looked
    up, looking up the answer again gives the same answer, and an alias is
    always sent to one of the three canonical names. *)
Theorem chain_map_is_canonical (chain c : pyval) :
  chain_map_get chain = Ret c ->
  chain_map_get c = Ret c /\
  (c = chain \/ c = JStr "eth" \/ c = JStr "bsc" \/ c = JStr "polygon").
Proof.
  destruct chain as [ |b|z|f|s|l|d]; cbn [chain_map_get]; try (intros [= <-]; by split; [|left]);
    try done.
  destruct (assoc CHAIN_MAP s) as [c'|] eqn:Hassoc.
  - intros [= <-]. revert Hassoc. cbn [assoc CHAIN_MAP].
    repeat (destruct (String.eqb _ s);
            [intros [= <-]; split; [reflexivity|auto]|]).
    done.
  - intros [= <-]. split; [|by left]. cbn [chain_map_get]. by rewrite Hassoc.
Qed.

Lemma chain_map_is_canonical_witness :
  chain_map_get (JStr "eth") = Ret (JStr "eth") /\
  (JStr "eth" = JStr "mainnet" \/ JStr "eth" = JStr "eth" \/ JStr "eth" = JStr "bsc"
   \/ JStr "eth" = JStr "polygon").
Proof.
  apply (chain_map_is_canonical (JStr "mainnet") (JStr "eth")). reflexivity.
Defined.

(** ** The reverification pass: what it keeps *)

Section PassInvariant.

Variable E : Env.
Variable Inv : World -> Prop.
Variable Q : event -> Prop.
Variable P : pyval -> Prop.

Hypothesis Inv_trace : forall w evs,
  Inv w -> Inv (mkWorld (files w) (db w) (trace w ++ evs)).
Hypothesis Inv_save : forall w user_data,
  P user_data ->
  (Inv w -> Inv (snd (save_json_file E (USER_DATA_PATH E) user_data w))) /\
  Q (save_event E (USER_DATA_PATH E) user_data).
Hypothesis P_load : forall w doc,
  Inv w -> stored E w (USER_DATA_PATH E) = Some doc -> P doc.
Hypothesis P_mark : forall user_data group_id user_id user_data',
  mark_unverified user_data group_id user_id = Ret user_data' ->
  P user_data -> P user_data'.
Hypothesis Q_provider : forall ev, provider_event ev -> Q ev.
Hypothesis Q_chat : forall chat_id uid,
  Q (EvBanChatMember chat_id uid) /\ Q (EvUnbanChatMember chat_id uid).

Lemma keeps_refl w : keeps Inv Q w w.
Proof. split; [done|]. exists []. split; [by rewrite app_nil_r|constructor]. Qed.

Lemma keeps_trans w1 w2 w3 : keeps Inv Q w1 w2 -> keeps Inv Q w2 w3 -> keeps Inv Q w1 w3.
Proof.
  intros [Hi1 (evs1 & Ht1 & Hf1)] [Hi2 (evs2 & Ht2 & Hf2)]. split; [auto|].
  exists (evs1 ++ evs2). split; [by rewrite Ht2, Ht1, app_assoc|by apply Forall_app].
Qed.

Lemma keeps_events w evs :
  Forall Q evs -> keeps Inv Q w (mkWorld (files w) (db w) (trace w ++ evs)).
Proof. intros Hf. split; [by apply Inv_trace|by exists evs]. Qed.

Lemma keeps_save user_data w :
  P user_data -> keeps Inv Q w (snd (save_json_file E (USER_DATA_PATH E) user_data w)).
Proof.
  intros HP. destruct (Inv_save w user_data HP) as [Hinv HQ]. split; [done|].
  eexists. split; [apply save_json_file_trace|]. by repeat constructor.
Qed.

Lemma keeps_verify cfg addr w : keeps Inv Q w (snd (verify_user_balance E cfg addr w)).
Proof.
  destruct (verify_user_balance_world E cfg addr w) as (evs & -> & Hf).
  apply keeps_events. eapply Forall_impl; [exact Hf|]. apply Q_provider.
Qed.

Lemma keeps_remove group_id user_id uid user_data c w :
  P user_data ->
  keeps Inv Q w (snd (remove_member E group_id user_id uid user_data c w)) /\
  exists user_data' c',
    fst (remove_member E group_id user_id uid user_data c w) = Ret (user_data', c') /\
    P user_data'.
Proof.
  intros HP. rewrite remove_member_eq.
  assert (H1 : Forall Q [EvBanChatMember group_id uid]).
  { repeat constructor. apply Q_chat. }
  assert (H2 : Forall Q [EvBanChatMember group_id uid; EvUnbanChatMember group_id uid]).
  { repeat constructor; apply Q_chat. }
  destruct (ban_chat_member E (trace w) group_id uid) as [[]|e].
  2: { split; [by apply keeps_events|by eexists _, _]. }
  destruct (unban_chat_member E _ group_id uid) as [[]|e].
  2: { split; [by apply keeps_events|by eexists _, _]. }
  destruct (mark_unverified user_data group_id user_id) as [ud'|e] eqn:Hmark.
  2: { split; [by apply keeps_events|by eexists _, _]. }
  pose proof (P_mark _ _ _ _ Hmark HP) as HP'.
  split; [|by eexists _, _].
  eapply keeps_trans; [by apply keeps_events|]. by apply keeps_save.
Qed.

Lemma keeps_member_step group_id cfg user_id user_info user_data c w :
  P user_data ->
  keeps Inv Q w (snd (member_step E group_id cfg user_id user_info user_data c w)) /\
  forall user_data' c',
    fst (member_step E group_id cfg user_id user_info user_data c w)
      = Ret (user_data', c') ->
    P user_data'.
Proof.
  intros HP. unfold member_step. cbn [py_int].
  destruct (parse_int user_id) as [uid|]; cbn [bind lift].
  2: { split; [apply keeps_refl|done]. }
  destruct (is_owner E uid).
  { split; [apply keeps_refl|]. by intros ? ? [= <- <-]. }
  destruct (py_get user_info "verified" JNull) as [v|e]; cbn [bind lift].
  2: { split; [apply keeps_refl|done]. }
  destruct (truthy v).
  2: { split; [apply keeps_refl|]. by intros ? ? [= <- <-]. }
  destruct (py_getitem user_info "address") as [addr|e]; cbn [bind lift].
  2: { split; [apply keeps_refl|done]. }
  pose proof (keeps_verify cfg addr w) as Hv.
  unfold bind.
  destruct (verify_user_balance E cfg addr w) as [[has_balance|e] w1]; cbn [snd] in Hv.
  2: { by split. }
  destruct has_balance; cbn [negb ret fst snd].
  - split; [done|]. by intros ? ? [= <- <-].
  - destruct (keeps_remove group_id user_id uid user_data c w1 HP)
      as [Hr (ud' & c' & Hfst & HP')].
    split; [by eapply keeps_trans|].
    intros ud'' c''. rewrite Hfst. by intros [= <- <-].
Qed.

Lemma keeps_members_loop group_id cfg items : forall user_data c w,
  (items <> [] -> P user_data) ->
  keeps Inv Q w (snd (members_loop E group_id cfg items user_data c w)).
Proof.
  induction items as [|[user_id user_info] rest IH]; intros user_data c w HP.
  - apply keeps_refl.
  - cbn [members_loop]. unfold bind at 1.
    destruct (keeps_member_step group_id cfg user_id user_info user_data c w)
      as [Hstep Hout]; [by apply HP|].
    destruct (member_step E group_id cfg user_id user_info user_data c w)
      as [[[ud' c']|e] w1]; cbn [fst snd] in *; [|done].
    eapply keeps_trans; [done|]. apply IH. intros _. by apply (Hout ud' c').
Qed.

Lemma keeps_verify_all_members group_id cfg w :
  Inv w -> keeps Inv Q w (snd (verify_all_members E group_id cfg w)).
Proof.
  intros Hinv. unfold verify_all_members, try_except.
  destruct (py_get cfg "min_balance" JNull) as [?|e]; cbn [bind lift ret snd];
    [|apply keeps_refl].
  destruct (py_get cfg "token" JNull) as [?|e]; cbn [bind lift ret snd];
    [|apply keeps_refl].
  unfold bind at 1. rewrite load_json_file_eq.
  destruct (py_get (default empty_dict (stored E w (USER_DATA_PATH E))) group_id
              empty_dict) as [group_users|e] eqn:Hget; cbn [bind lift ret snd];
    [|apply keeps_refl].
  destruct (py_len group_users) as [?|e]; cbn [bind lift ret snd]; [|apply keeps_refl].
  destruct (py_items group_users) as [items|e] eqn:Hitems; cbn [bind lift ret snd];
    [|apply keeps_refl].
  assert (Hloop : keeps Inv Q w
            (snd (members_loop E group_id cfg items
                    (default empty_dict (stored E w (USER_DATA_PATH E)))
                    (mkCounts 0 0 0) w))).
  { apply keeps_members_loop. intros Hne.
    destruct (stored E w (USER_DATA_PATH E)) as [doc|] eqn:Hst; [by apply (P_load w)|].
    cbn in Hget. injection Hget as <-. cbn in Hitems. by injection Hitems as <-. }
  unfold bind.
  by destruct (members_loop E group_id cfg items _ (mkCounts 0 0 0) w) as [[[? ?]|e] w1].
Qed.

Lemma keeps_groups_loop items : forall w,
  Inv w -> keeps Inv Q w (snd (groups_loop E items w)).
Proof.
  induction items as [|[group_id group_config] rest IH]; intros w Hinv.
  - apply keeps_refl.
  - cbn [groups_loop]. unfold bind at 1. rewrite load_json_file_eq.
    destruct (py_get _ group_id group_config) as [fresh|e]; cbn [bind lift snd];
      [|apply keeps_refl].
    pose proof (keeps_verify_all_members group_id fresh w Hinv) as Hpass.
    unfold bind at 1.
    destruct (verify_all_members E group_id fresh w) as [[r|e] w1]; cbn [snd] in *;
      [|done].
    eapply keeps_trans; [done|]. apply IH. by apply Hpass.
Qed.

Lemma keeps_periodic_verification w :
  Inv w -> keeps Inv Q w (snd (periodic_verification E w)).
Proof.
  intros Hinv. unfold periodic_verification. unfold bind at 1.
  rewrite load_json_file_eq.
  destruct (negb (truthy _)); [apply keeps_refl|].
  destruct (py_len _) as [?|e]; cbn [bind lift snd]; [|apply keeps_refl].
  destruct (py_items _) as [items|e]; cbn [bind lift snd]; [|apply keeps_refl].
  destruct (log_configs items) as [?|e]; cbn [bind lift snd]; [|apply keeps_refl].
  by apply keeps_groups_loop.
Qed.

End PassInvariant.

Lemma append_inj_r s a b : s +:+ a = s +:+ b -> a = b.
Proof. induction s as [|c s IH]; cbn; [done|]. intros [= H]. by apply IH. Qed.

Lemma path_join_inj dir a b : path_join dir a = path_join dir b -> a = b.
Proof.
  unfold path_join. destruct (String.eqb dir ""); [done|].
  destruct (ends_with_slash dir).
  - apply append_inj_r.
  - intros H. apply append_inj_r in H. by apply append_inj_r in H.
Qed.

Lemma config_path_not_user_data E : CONFIG_PATH E <> USER_DATA_PATH E.
Proof. intros H. apply path_join_inj in H. discriminate. Qed.

Lemma rejected_path_not_user_data E : REJECTED_GROUPS_PATH E <> USER_DATA_PATH E.
Proof. intros H. apply path_join_inj in H. discriminate. Qed.

Section FrameFacts.

Variable E : Env.
Variable w0 : World.

Lemma same_elsewhere_trace w evs :
  same_elsewhere E w0 w ->
  same_elsewhere E w0 (mkWorld (files w) (db w) (trace w ++ evs)).
Proof. intros H name Hne. rewrite stored_trace_irrelevant. by apply H. Qed.

Lemma same_elsewhere_save w user_data :
  True ->
  (same_elsewhere E w0 w ->
   same_elsewhere E w0 (snd (save_json_file E (USER_DATA_PATH E) user_data w))) /\
  writes_only_user_data E (save_event E (USER_DATA_PATH E) user_data).
Proof.
  intros _. split.
  - intros H name Hne. rewrite save_json_file_stored.
    rewrite decide_False by done. by apply H.
  - unfold save_event. by destruct (env_set (DATABASE_URL E)).
Qed.

Lemma verify_all_members_elsewhere group_id cfg w :
  same_elsewhere E w0 w ->
  same_elsewhere E w0 (snd (verify_all_members E group_id cfg w)).
Proof.
  intros H.
  refine (proj1 (keeps_verify_all_members E (same_elsewhere E w0)
                   (writes_only_user_data E) (fun _ => True) _ _ _ _ _ _
                   group_id cfg w H) H).
  - apply same_elsewhere_trace.
  - apply same_elsewhere_save.
  - done.
  - done.
  - intros ev. by destruct ev.
  - done.
Qed.

Lemma periodic_verification_elsewhere w :
  same_elsewhere E w0 w ->
  keeps (same_elsewhere E w0) (writes_only_user_data E) w
    (snd (periodic_verification E w)).
Proof.
  intros H.
  refine (keeps_periodic_verification E (same_elsewhere E w0)
            (writes_only_user_data E) (fun _ => True) _ _ _ _ _ _ w H).
  - apply same_elsewhere_trace.
  - apply same_elsewhere_save.
  - done.
  - done.
  - intros ev. by destruct ev.
  - done.
Qed.

End FrameFacts.

(** X16. A full pass writes to the member document and to nothing else:
    every save it issues names [user_data], and every other resource, the
    configuration and the rejected_groups document among them, holds after
    the pass what it held before. *)
Theorem pass_writes_only_user_data (E : Env) (w : World) :
  (forall name, name <> USER_DATA_PATH E ->
     stored E (snd (periodic_verification E w)) name = stored E w name) /\
  config_doc E (snd (periodic_verification E w)) = config_doc E w /\
  rejected_doc E (snd (periodic_verification E w)) = rejected_doc E w /\
  exists evs,
    trace (snd (periodic_verification E w)) = trace w ++ evs /\
    forall name data,
      EvFileWrite name data ∈ evs \/ EvDbSave name data ∈ evs ->
      name = USER_DATA_PATH E.
Proof.
  destruct (periodic_verification_elsewhere E w w) as [Hinv (evs & Htrace & Hevs)];
    [done|].
  assert (Hsame : same_elsewhere E w (snd (periodic_verification E w))) by by apply Hinv.
  split; [exact Hsame|].
  split; [unfold config_doc; by rewrite Hsame by apply config_path_not_user_data|].
  split; [unfold rejected_doc; by rewrite Hsame by apply rejected_path_not_user_data|].
  exists evs. split; [done|].
  rewrite Forall_forall in Hevs.
  intros name data [Hin|Hin]; by apply Hevs in Hin.
Qed.

Lemma mark_unverified_lookup user_data group_id user_id user_data' g k :
  mark_unverified user_data group_id user_id = Ret user_data' ->
  (g = group_id /\ k = user_id) \/
  member_record user_data' g k = member_record user_data g k.
Proof.
  intros H.
  destruct (String.eqb_spec k user_id) as [->|Hk].
  - destruct (String.eqb_spec g group_id) as [->|Hg]; [by left|right].
    apply mark_unverified_inv in H as (d & group & r & -> & Hg' & Hu & ->).
    unfold member_record. by rewrite dict_get_set_ne.
  - right. by apply (mark_unverified_other _ _ _ _ g k H).
Qed.

Lemma mark_unverified_only doc0 user_data group_id user_id user_data' :
  mark_unverified user_data group_id user_id = Ret user_data' ->
  only_unverified doc0 user_data -> only_unverified doc0 user_data'.
Proof.
  intros Hmark Hold g k.
  destruct (mark_unverified_lookup _ _ _ _ g k Hmark) as [[-> ->]|Hsame].
  - right. destruct (mark_unverified_self _ _ _ _ Hmark) as (r & Hr & Hr').
    destruct (Hold group_id user_id) as [Heq|(r0 & H0 & H1)].
    + exists r. by rewrite <- Heq.
    + exists r0. split; [done|]. rewrite Hr'. rewrite Hr in H1. injection H1 as ->.
      by rewrite dict_set_set.
  - rewrite Hsame. apply Hold.
Qed.

(** X17. The pass only ever turns [verified] off.  Every member document it
    saves, and the document it leaves in the store, is the document that was
    stored at the start with some members' [verified] flag set to [False]:
    no group or member is added or dropped and no other field of any record
    is changed. *)
Theorem pass_only_unverifies (E : Env) (w : World) :
  (forall doc',
     stored E (snd (periodic_verification E w)) (USER_DATA_PATH E) = Some doc' ->
     only_unverified (user_doc E w) doc') /\
  exists evs,
    trace (snd (periodic_verification E w)) = trace w ++ evs /\
    forall name data,
      EvFileWrite name data ∈ evs \/ EvDbSave name data ∈ evs ->
      only_unverified (user_doc E w) data.
Proof.
  set (doc0 := user_doc E w).
  assert (Hinit : store_only_unverified E doc0 w).
  { unfold store_only_unverified, doc0, user_doc.
    destruct (stored E w (USER_DATA_PATH E)); [|done]. intros g k. by left. }
  assert (Hkeeps : keeps (store_only_unverified E doc0) (saves_only_unverified doc0) w
                      (snd (periodic_verification E w))).
  { refine (keeps_periodic_verification E (store_only_unverified E doc0)
              (saves_only_unverified doc0) (only_unverified doc0) _ _ _ _ _ _ w Hinit).
    - intros w1 evs H. unfold store_only_unverified in *.
      by rewrite stored_trace_irrelevant.
    - intros w1 ud HP. split.
      + intros H. unfold store_only_unverified in *. rewrite save_json_file_stored.
        rewrite decide_True by done.
        destruct (write_ok E w1 (USER_DATA_PATH E) ud); [done|].
        destruct (env_set (DATABASE_URL E)); [done|].
        by destruct (file_write E (trace w1) (USER_DATA_PATH E) ud).
      + unfold save_event. by destruct (env_set (DATABASE_URL E)).
    - intros w1 doc H Hst. unfold store_only_unverified in H. by rewrite Hst in H.
    - intros ud g k ud'. apply mark_unverified_only.
    - intros ev. by destruct ev.
    - done. }
  destruct Hkeeps as [Hinv (evs & Htrace & Hevs)].
  - split.
    + intros doc' Hdoc'. specialize (Hinv Hinit).
      unfold store_only_unverified in Hinv. by rewrite Hdoc' in Hinv.
    + exists evs. split; [done|]. rewrite Forall_forall in Hevs.
      intros name data [Hin|Hin]; by apply Hevs in Hin.
Qed.

(** ** The cycle as a whole *)

Lemma log_configs_result d :
  log_configs d = if forallb (fun kv => is_dict (snd kv)) d then Ret tt
                  else Raise AttributeError.
Proof.
  induction d as [|[g [ | | | | | |gconf]] d IH]; cbn; try done.
Qed.

Section CycleFacts.

Variable E : Env.

Lemma verify_all_members_total group_id cfg w :
  exists r w', verify_all_members E group_id cfg w = (Ret r, w').
Proof. unfold verify_all_members. apply try_except_total. Qed.

Lemma groups_loop_returns items : forall w,
  is_dict (config_doc E w) = true ->
  fst (groups_loop E items w) = Ret tt.
Proof.
  induction items as [|[group_id group_config] rest IH]; intros w Hdict; [done|].
  cbn [groups_loop]. unfold bind at 1. rewrite load_json_file_eq.
  fold (config_doc E w).
  destruct (config_doc E w) as [ | | | | | |d] eqn:Hcfg; try done.
  cbn [py_get bind lift].
  destruct (verify_all_members_total group_id
              (match dict_get d group_id with Some v => v | None => group_config end) w)
    as (r & w1 & Hpass).
  unfold bind at 1. rewrite Hpass.
  apply IH.
  pose proof (verify_all_members_elsewhere E w group_id
                (match dict_get d group_id with Some v => v | None => group_config end) w)
    as Hsame.
  rewrite Hpass in Hsame. cbn [snd] in Hsame.
  unfold config_doc. rewrite Hsame; [|done|apply config_path_not_user_data].
  fold (config_doc E w). by rewrite Hcfg.
Qed.

Lemma periodic_verification_returns w :
  is_ret (fst (periodic_verification E w))
    = negb (truthy (config_doc E w)) || config_walkable (config_doc E w).
Proof.
  unfold periodic_verification. unfold bind at 1. rewrite load_json_file_eq.
  fold (config_doc E w).
  destruct (config_doc E w) as [ |b|z|f|s|l|d] eqn:Hcfg; cbn [truthy negb orb];
    try done.
  - destruct b; done.
  - destruct (z =? 0); done.
  - destruct f as [q| | |]; try done. destruct (Qnum q =? 0); done.
  - destruct (String.eqb s ""); done.
  - destruct l; done.
  - destruct d as [|kv d']; [done|]. cbn [negb orb py_len py_items bind lift].
    rewrite log_configs_result. cbn [config_walkable].
    destruct (forallb _ (kv :: d')); cbn [bind lift]; [|done].
    rewrite groups_loop_returns; [done|]. by rewrite Hcfg.
Qed.

End CycleFacts.

(** X18. A group's pass never raises, so no group can take the cycle down.
    With no configuration (missing, unreadable or empty) the cycle returns
    at once and does nothing.  The cron job ends with status 0 exactly when
    the stored configuration is empty or a mapping whose values are all
    mappings, and with status 1 otherwise. *)
Theorem cycle_exit_status (E : Env) (w : World) :
  (forall group_id cfg w0, exists r w', verify_all_members E group_id cfg w0 = (Ret r, w')) /\
  (truthy (config_doc E w) = false -> periodic_verification E w = (Ret tt, w)) /\
  fst (main E w)
    = Ret (if negb (truthy (config_doc E w)) || config_walkable (config_doc E w)
           then 0 else 1).
Proof.
  split; [apply verify_all_members_total|]. split.
  - intros Hfalsy. unfold periodic_verification. unfold bind at 1.
    rewrite load_json_file_eq. fold (config_doc E w). by rewrite Hfalsy.
  - rewrite <- periodic_verification_returns.
    unfold main, try_except, bind.
    by destruct (periodic_verification E w) as [[[]|e] w'].
Qed.

(** ** The counters of a pass *)

Section CounterFacts.

Variable E : Env.

Lemma remove_member_total group_id user_id uid user_data c w user_data' c' w' :
  remove_member E group_id user_id uid user_data c w = (Ret (user_data', c'), w') ->
  counts_total c' = counts_total c + 1.
Proof.
  rewrite remove_member_eq. unfold counts_total.
  destruct (ban_chat_member E (trace w) group_id uid) as [[]|e].
  2: { intros [= <- <- <-]. cbn. lia. }
  destruct (unban_chat_member E _ group_id uid) as [[]|e].
  2: { intros [= <- <- <-]. cbn. lia. }
  destruct (mark_unverified user_data group_id user_id) as [ud'|e].
  - intros [= <- <- <-]. cbn. lia.
  - intros [= <- <- <-]. cbn. lia.
Qed.

Lemma member_step_total group_id cfg user_id user_info user_data c w user_data' c' w' :
  member_step E group_id cfg user_id user_info user_data c w
    = (Ret (user_data', c'), w') ->
  counts_total c'
    = counts_total c + (if checked_member E (user_id, user_info) then 1 else 0).
Proof.
  unfold member_step, checked_member. cbn [py_int fst snd].
  destruct (parse_int user_id) as [uid|]; cbn [bind lift]; [|done].
  destruct (is_owner E uid); cbn [negb andb].
  { intros [= <- <- <-]. lia. }
  destruct (py_get user_info "verified" JNull) as [v|e]; cbn [bind lift]; [|done].
  destruct (truthy v).
  2: { intros [= <- <- <-]. lia. }
  destruct (py_getitem user_info "address") as [addr|e]; cbn [bind lift]; [|done].
  unfold bind.
  destruct (verify_user_balance E cfg addr w) as [[has_balance|e] w1]; [|done].
  destruct has_balance; cbn [negb].
  - intros [= <- <- <-]. unfold counts_total. cbn. lia.
  - apply remove_member_total.
Qed.

Lemma members_loop_total group_id cfg items : forall user_data c w user_data' c' w',
  members_loop E group_id cfg items user_data c w = (Ret (user_data', c'), w') ->
  counts_total c'
    = counts_total c + Z.of_nat (length (List.filter (checked_member E) items)).
Proof.
  induction items as [|[user_id user_info] rest IH]; intros ud c w ud' c' w'.
  - cbn. intros [= <- <- <-]. lia.
  - cbn [members_loop]. unfold bind at 1.
    destruct (member_step E group_id cfg user_id user_info ud c w)
      as [[[ud1 c1]|e] w1] eqn:Hstep; [|done].
    cbn [fst snd]. intros Hrest.
    apply member_step_total in Hstep. apply IH in Hrest.
    cbn [List.filter]. destruct (checked_member E (user_id, user_info));
      cbn [length]; lia.
Qed.

End CounterFacts.

(** X19. When a group's pass runs to its end, the three counters it reports
    account for every member it had to check, once each: verified, removed
    and errors add up to the number of members of the group that are not the
    owner and whose stored flag is true. *)
Theorem counters_account_for_members (E : Env) (group_id : string) (cfg : pyval)
    (w : World) (c : counts) (w' : World) :
  verify_all_members E group_id cfg w = (Ret (Some c), w') ->
  exists items,
    py_get (user_doc E w) group_id empty_dict = Ret (JDict items) /\
    verified_count c + removed_count c + error_count c
      = Z.of_nat (length (List.filter (checked_member E) items)).
Proof.
  unfold verify_all_members, try_except.
  destruct (py_get cfg "min_balance" JNull) as [?|e]; cbn [bind lift ret]; [|done].
  destruct (py_get cfg "token" JNull) as [?|e]; cbn [bind lift ret]; [|done].
  unfold bind at 1. rewrite load_json_file_eq. fold (user_doc E w).
  destruct (py_get (user_doc E w) group_id empty_dict) as [group_users|e];
    cbn [bind lift ret]; [|done].
  destruct (py_len group_users) as [?|e]; cbn [bind lift ret]; [|done].
  destruct group_users as [ | | | | | |items]; cbn [py_items bind lift ret]; try done.
  unfold bind.
  destruct (members_loop E group_id cfg items (user_doc E w) (mkCounts 0 0 0) w)
    as [[[ud' c']|e] w1] eqn:Hloop; [|done].
  cbn [snd]. intros [= <- <-]. exists items. split; [done|].
  apply members_loop_total in Hloop. unfold counts_total in Hloop. cbn in Hloop. lia.
Qed.

Lemma counters_account_for_members_witness :
  exists items,
    py_get (user_doc offline_env sample_world) "-1001234567890" empty_dict
      = Ret (JDict items) /\
    0 + 1 + 0 = Z.of_nat (length (List.filter (checked_member offline_env) items)).
Proof.
  apply (counters_account_for_members offline_env "-1001234567890"
           (group_config_with (JFloat (FFin 1000))) sample_world (mkCounts 0 1 0)
           (snd (verify_all_members offline_env "-1001234567890"
                   (group_config_with (JFloat (FFin 1000))) sample_world))).
  vm_compute. reflexivity.
Defined.

(** ** The pass does not look at the rejection state *)

Lemma blind_ret {A} (a : A) : blind (ret a).
Proof. done. Qed.

Lemma blind_lift {A} (o : outcome A) : blind (lift o).
Proof. done. Qed.

Lemma blind_bind {A B} (m : M A) (k : A -> M B) :
  blind m -> (forall a, blind (k a)) -> blind (bind m k).
Proof.
  intros Hm Hk w fs d. unfold bind. rewrite Hm.
  destruct (m w) as [[a|e] w1]; cbn [fst snd]; [|done].
  apply Hk.
Qed.

Lemma blind_try {A} (body : M A) (handler : exn -> M A) :
  blind body -> (forall e, blind (handler e)) -> blind (try_except body handler).
Proof.
  intros Hm Hk w fs d. unfold try_except. rewrite Hm.
  destruct (body w) as [[a|e] w1]; cbn [fst snd]; [done|].
  apply Hk.
Qed.

Ltac blind_step :=
  match goal with
  | |- blind (bind _ _) => apply blind_bind; [|intros ?]
  | |- blind (try_except _ _) => apply blind_try; [|intros ?]
  | |- blind (ret _) => apply blind_ret
  | |- blind (lift _) => apply blind_lift
  | |- blind (if ?b then _ else _) => destruct b
  | |- blind (match ?x with _ => _ end) => destruct x
  end.

Section StoreBlind.

Variable E : Env.

Lemma blind_sdk_balances address chain tokens :
  blind (sdk_get_wallet_token_balances E address chain tokens).
Proof. done. Qed.

Lemma blind_sdk_metadata chain addresses : blind (sdk_get_token_metadata E chain addresses).
Proof. done. Qed.

Lemma blind_http_get url : blind (http_get E url).
Proof. done. Qed.

Lemma blind_ban chat_id uid : blind (bot_ban_chat_member E chat_id uid).
Proof. done. Qed.

Lemma blind_unban chat_id uid : blind (bot_unban_chat_member E chat_id uid).
Proof. done. Qed.

Lemma blind_get_token_decimals token chain : blind (get_token_decimals E token chain).
Proof.
  unfold get_token_decimals.
  repeat first [blind_step | apply blind_sdk_metadata].
Qed.

Lemma blind_get_token_balance_moralis wallet token chain :
  blind (get_token_balance_moralis E wallet token chain).
Proof.
  unfold get_token_balance_moralis.
  repeat first [blind_step | apply blind_sdk_balances].
Qed.

Lemma blind_get_token_balance_etherscan wallet token :
  blind (get_token_balance_etherscan E wallet token).
Proof.
  unfold get_token_balance_etherscan.
  repeat first [blind_step | apply blind_http_get].
Qed.

Lemma blind_verify_user_balance cfg addr : blind (verify_user_balance E cfg addr).
Proof.
  unfold verify_user_balance, moralis_attempt, etherscan_fallback.
  repeat first [ blind_step
               | apply blind_get_token_balance_moralis
               | apply blind_get_token_balance_etherscan
               | apply blind_get_token_decimals ].
Qed.

End StoreBlind.

Lemma respects_ret {A} E (a : A) : respects E (ret a).
Proof. by intros w1 w2 H. Qed.

Lemma respects_lift {A} E (o : outcome A) : respects E (lift o).
Proof. by intros w1 w2 H. Qed.

Lemma respects_bind {A B} E (m : M A) (k : A -> M B) :
  respects E m -> (forall a, respects E (k a)) -> respects E (bind m k).
Proof.
  intros Hm Hk w1 w2 H. unfold bind.
  destruct (Hm w1 w2 H) as [Hfst Hsnd].
  destruct (m w1) as [[a1|e1] w1'], (m w2) as [[a2|e2] w2']; cbn [fst snd] in *;
    try done.
  - injection Hfst as ->. by apply Hk.
  - by injection Hfst as ->.
Qed.

Lemma respects_try {A} E (body : M A) (handler : exn -> M A) :
  respects E body -> (forall e, respects E (handler e)) ->
  respects E (try_except body handler).
Proof.
  intros Hm Hk w1 w2 H. unfold try_except.
  destruct (Hm w1 w2 H) as [Hfst Hsnd].
  destruct (body w1) as [[a1|e1] w1'], (body w2) as [[a2|e2] w2']; cbn [fst snd] in *;
    try done.
  injection Hfst as ->. by apply Hk.
Qed.

Lemma blind_respects {A} E (m : M A) : blind m -> respects E m.
Proof.
  intros Hm w1 w2 (Htr & Hc & Hu).
  pose proof (Hm w2 (files w1) (db w1)) as H1. rewrite <- Htr, world_eta in H1.
  pose proof (Hm w2 (files w2) (db w2)) as H2. rewrite world_eta in H2.
  rewrite H1. cbn [fst snd]. split; [done|].
  rewrite H2 at 2. cbn [snd].
  repeat split; cbn [trace]; rewrite ?stored_trace_irrelevant; done.
Qed.

Ltac respects_step :=
  match goal with
  | |- respects _ (bind _ _) => apply respects_bind; [|intros ?]
  | |- respects _ (try_except _ _) => apply respects_try; [|intros ?]
  | |- respects _ (ret _) => apply respects_ret
  | |- respects _ (lift _) => apply respects_lift
  | |- respects _ (if ?b then _ else _) => destruct b
  | |- respects _ (match ?x with _ => _ end) => destruct x
  end.

Section SchedulerRespects.

Variable E : Env.

Lemma respects_load_config : respects E (load_json_file E (CONFIG_PATH E)).
Proof.
  intros w1 w2 H. rewrite !load_json_file_eq. cbn [fst snd].
  destruct H as (Htr & Hc & Hu). by rewrite Hc.
Qed.

Lemma respects_load_user_data : respects E (load_json_file E (USER_DATA_PATH E)).
Proof.
  intros w1 w2 H. rewrite !load_json_file_eq. cbn [fst snd].
  destruct H as (Htr & Hc & Hu). by rewrite Hu.
Qed.

Lemma respects_save_user_data user_data :
  respects E (save_json_file E (USER_DATA_PATH E) user_data).
Proof.
  intros w1 w2 (Htr & Hc & Hu).
  assert (Hok : write_ok E w1 (USER_DATA_PATH E) user_data
                = write_ok E w2 (USER_DATA_PATH E) user_data).
  { unfold write_ok. by rewrite Htr. }
  split; [by rewrite !save_json_file_result, Hok|].
  split; [by rewrite !save_json_file_trace, Htr|].
  split.
  - rewrite !save_json_file_stored.
    by rewrite !decide_False by (apply not_eq_sym, config_path_not_user_data).
  - rewrite !save_json_file_stored. rewrite !decide_True by done.
    by rewrite Hok, Htr, Hu.
Qed.

Lemma respects_remove_member group_id user_id uid user_data c :
  respects E (remove_member E group_id user_id uid user_data c).
Proof.
  unfold remove_member.
  repeat first [ respects_step
               | apply blind_respects, blind_ban
               | apply blind_respects, blind_unban
               | apply respects_save_user_data ].
Qed.

Lemma respects_member_step group_id cfg user_id user_info user_data c :
  respects E (member_step E group_id cfg user_id user_info user_data c).
Proof.
  unfold member_step.
  repeat first [ respects_step
               | apply blind_respects, blind_verify_user_balance
               | apply respects_remove_member ].
Qed.

Lemma respects_members_loop group_id cfg items : forall user_data c,
  respects E (members_loop E group_id cfg items user_data c).
Proof.
  induction items as [|[user_id user_info] rest IH]; intros user_data c;
    cbn [members_loop].
  - apply respects_ret.
  - apply respects_bind; [apply respects_member_step|]. intros r. apply IH.
Qed.

Lemma respects_verify_all_members group_id cfg :
  respects E (verify_all_members E group_id cfg).
Proof.
  unfold verify_all_members.
  repeat first [ respects_step
               | apply respects_load_user_data
               | apply respects_members_loop ].
Qed.

Lemma respects_groups_loop items : respects E (groups_loop E items).
Proof.
  induction items as [|[group_id group_config] rest IH]; cbn [groups_loop].
  - apply respects_ret.
  - repeat first [ respects_step
                 | apply respects_load_config
                 | apply respects_verify_all_members
                 | apply IH ].
Qed.

Lemma respects_periodic_verification : respects E (periodic_verification E).
Proof.
  unfold periodic_verification.
  repeat first [ respects_step
               | apply respects_load_config
               | apply respects_groups_loop ].
Qed.

Lemma agree_with_rejected doc w : agree E (with_rejected E doc w) w.
Proof.
  unfold with_rejected, agree, stored.
  destruct (env_set (DATABASE_URL E)); cbn [files db trace].
  - split; [done|].
    split; apply lookup_insert_ne; intros H; apply path_join_inj in H; discriminate.
  - split; [done|].
    split; rewrite lookup_insert_ne; try done;
      intros H; apply path_join_inj in H; discriminate.
Qed.

Lemma rejected_doc_with_rejected doc w : rejected_doc E (with_rejected E doc w) = doc.
Proof.
  unfold with_rejected, rejected_doc, stored.
  destruct (env_set (DATABASE_URL E)); cbn [files db]; by rewrite lookup_insert_eq.
Qed.

End SchedulerRespects.

(** X20. The pass never looks at the rejection state.  Replace the
    rejected_groups document by anything at all, a record that blocks the
    group included: the pass returns the same result, makes the same
    external calls in the same order, and leaves the same member document
    and the same configuration. *)
Theorem pass_ignores_rejections (E : Env) (doc : pyval) (w : World) :
  rejected_doc E (with_rejected E doc w) = doc /\
  fst (periodic_verification E (with_rejected E doc w)) = fst (periodic_verification E w) /\
  trace (snd (periodic_verification E (with_rejected E doc w)))
    = trace (snd (periodic_verification E w)) /\
  user_doc E (snd (periodic_verification E (with_rejected E doc w)))
    = user_doc E (snd (periodic_verification E w)) /\
  config_doc E (snd (periodic_verification E (with_rejected E doc w)))
    = config_doc E (snd (periodic_verification E w)).
Proof.
  split; [apply rejected_doc_with_rejected|].
  destruct (respects_periodic_verification E (with_rejected E doc w) w
              (agree_with_rejected E doc w)) as [Hfst (Htr & Hc & Hu)].
  repeat split; try done.
  - unfold user_doc. by rewrite Hu.
  - unfold config_doc. by rewrite Hc.
Qed.

(** ** Secrets from the environment *)

Lemma prefix_split p : forall s, String.prefix p s = true -> exists rest, s = p +:+ rest.
Proof.
  induction p as [|c p IH]; intros s; cbn.
  - intros _. by exists s.
  - destruct s as [|c' s]; [done|]. simpl.
    destruct (Ascii.ascii_dec c c') as [<-|Hne]; [|done].
    intros H. destruct (IH s H) as [rest ->]. by exists rest.
Qed.

Lemma prefix_append p rest : String.prefix p (p +:+ rest) = true.
Proof.
  induction p as [|c p IH]; simpl.
  - by destruct rest.
  - by destruct (Ascii.ascii_dec c c).
Qed.

(** A line that defines one of the three variables always has a value to
    take: the lookup after the first [=] cannot fail. *)
Lemma read_secret_line_total line acc : exists acc', read_secret_line line acc = Ret acc'.
Proof.
  unfold read_secret_line.
  destruct (String.prefix "TELEGRAM_BOT_TOKEN=" (strip line)) eqn:H1; cbn [andb].
  { apply prefix_split in H1 as [rest ->].
    destruct (negb (secret_set (telegram_token acc))); cbn; [by eexists|].
    destruct (negb (secret_set (moralis_key acc))), (negb (secret_set (etherscan_key acc)));
      by eexists. }
  destruct (String.prefix "MORALIS_API_KEY=" (strip line)) eqn:H2; cbn [andb].
  { apply prefix_split in H2 as [rest ->].
    destruct (negb (secret_set (moralis_key acc))); cbn; [by eexists|].
    destruct (negb (secret_set (etherscan_key acc))); by eexists. }
  destruct (String.prefix "ETHERSCAN_API_KEY=" (strip line)) eqn:H3; cbn [andb].
  { apply prefix_split in H3 as [rest ->].
    destruct (negb (secret_set (etherscan_key acc))); cbn; by eexists. }
  by eexists.
Qed.

(** A secret that is already set is never replaced. *)
Lemma read_secret_line_keeps line acc acc' :
  read_secret_line line acc = Ret acc' ->
  (secret_set (telegram_token acc) = true -> telegram_token acc' = telegram_token acc) /\
  (secret_set (moralis_key acc) = true -> moralis_key acc' = moralis_key acc) /\
  (secret_set (etherscan_key acc) = true -> etherscan_key acc' = etherscan_key acc).
Proof.
  unfold read_secret_line.
  destruct (secret_set (telegram_token acc)) eqn:Ht,
           (secret_set (moralis_key acc)) eqn:Hm,
           (secret_set (etherscan_key acc)) eqn:He;
    cbn [negb andb]; rewrite ?andb_false_r, ?andb_true_r;
    repeat match goal with
           | |- context [if String.prefix ?p ?l then _ else _] =>
               destruct (String.prefix p l)
           | |- context [match after_first_eq ?l with _ => _ end] =>
               destruct (after_first_eq l)
           end;
    intros [= <-]; cbn; repeat split; done.
Qed.

Lemma read_secret_lines_total lines : forall acc, exists acc', read_secret_lines lines acc = Ret acc'.
Proof.
  induction lines as [|line rest IH]; intros acc; cbn; [by eexists|].
  destruct (read_secret_line_total line acc) as [acc1 ->]. apply IH.
Qed.

Lemma read_secret_lines_keeps lines : forall acc acc',
  read_secret_lines lines acc = Ret acc' ->
  (secret_set (telegram_token acc) = true -> telegram_token acc' = telegram_token acc) /\
  (secret_set (moralis_key acc) = true -> moralis_key acc' = moralis_key acc) /\
  (secret_set (etherscan_key acc) = true -> etherscan_key acc' = etherscan_key acc).
Proof.
  induction lines as [|line rest IH]; intros acc acc'; cbn.
  - by intros [= <-].
  - destruct (read_secret_line line acc) as [acc1|e] eqn:Hline; [|done].
    intros Hrest. apply read_secret_line_keeps in Hline as (H1 & H2 & H3).
    apply IH in Hrest as (H1' & H2' & H3').
    repeat split; intros Hset.
    + rewrite <- (H1 Hset). apply H1'. by rewrite (H1 Hset).
    + rewrite <- (H2 Hset). apply H2'. by rewrite (H2 Hset).
    + rewrite <- (H3 Hset). apply H3'. by rewrite (H3 Hset).
Qed.

(** X21. The environment takes precedence over the [.env] file.  When the
    three variables are set the file is not even opened; without a file the
    environment's values are returned as they are; with a readable file the
    call never raises, and a variable that is set (and not empty) in the
    environment keeps the environment's value whatever the file says. *)
Theorem environment_takes_precedence (getenv : string -> option string) (file : dotenv) :
  (secret_set (getenv "TELEGRAM_BOT_TOKEN") = true ->
   secret_set (getenv "MORALIS_API_KEY") = true ->
   secret_set (getenv "ETHERSCAN_API_KEY") = true ->
   get_token_from_env getenv file
     = Ret (mkSecrets (getenv "TELEGRAM_BOT_TOKEN") (getenv "MORALIS_API_KEY")
                      (getenv "ETHERSCAN_API_KEY"))) /\
  get_token_from_env getenv DotenvMissing
    = Ret (mkSecrets (getenv "TELEGRAM_BOT_TOKEN") (getenv "MORALIS_API_KEY")
                     (getenv "ETHERSCAN_API_KEY")) /\
  (forall lines, exists s, get_token_from_env getenv (DotenvLines lines) = Ret s) /\
  (forall s, get_token_from_env getenv file = Ret s ->
     (secret_set (getenv "TELEGRAM_BOT_TOKEN") = true ->
      telegram_token s = getenv "TELEGRAM_BOT_TOKEN") /\
     (secret_set (getenv "MORALIS_API_KEY") = true ->
      moralis_key s = getenv "MORALIS_API_KEY") /\
     (secret_set (getenv "ETHERSCAN_API_KEY") = true ->
      etherscan_key s = getenv "ETHERSCAN_API_KEY")).
Proof.
  unfold get_token_from_env. cbn [telegram_token moralis_key etherscan_key].
  split; [|split; [|split]].
  - by intros -> -> ->.
  - by destruct (negb _).
  - intros lines. destruct (negb _); [apply read_secret_lines_total|by eexists].
  - intros s. destruct (negb _).
    + destruct file as [|lines|]; [by intros [= <-]| |done].
      intros H. by apply read_secret_lines_keeps in H.
    + by intros [= <-].
Qed.

Lemma read_secret_line_other line acc acc' :
  String.prefix "TELEGRAM_BOT_TOKEN=" (strip line) = false ->
  read_secret_line line acc = Ret acc' ->
  telegram_token acc' = telegram_token acc.
Proof.
  intros Hp. unfold read_secret_line. rewrite Hp. cbn [andb].
  repeat match goal with
         | |- context [if ?b then _ else _] => destruct b
         | |- context [match after_first_eq ?l with _ => _ end] =>
             destruct (after_first_eq l)
         end;
    by intros [= <-].
Qed.

(** X22. For a variable the environment does not provide, the first line of
    the file that defines it with a non-empty value decides (lines in
    ASCII): lines before it that do not start (once stripped) with
    [TELEGRAM_BOT_TOKEN=] are passed over, the value is what follows the
    [=], stripped, and later lines do not change it. *)
Theorem first_definition_in_file_wins (getenv : string -> option string)
    (pre post : list string) (line value : string) :
  forallb ascii_text (pre ++ [line]) = true ->
  secret_set (getenv "TELEGRAM_BOT_TOKEN") = false ->
  (forall l, l ∈ pre -> String.prefix "TELEGRAM_BOT_TOKEN=" (strip l) = false) ->
  strip line = "TELEGRAM_BOT_TOKEN=" +:+ value ->
  strip value <> "" ->
  exists s,
    get_token_from_env getenv (DotenvLines (pre ++ line :: post)) = Ret s /\
    telegram_token s = Some (strip value).
Proof.
  intros _ Hunset Hpre Hline Hvalue. unfold get_token_from_env.
  cbn [telegram_token moralis_key etherscan_key]. rewrite Hunset. cbn [andb negb].
  set (acc0 := mkSecrets _ _ _).
  assert (Hacc0 : secret_set (telegram_token acc0) = false) by done.
  clearbody acc0. revert acc0 Hacc0.
  induction pre as [|l pre IH]; intros acc Hacc.
  - cbn [app read_secret_lines].
    assert (Hstep : read_secret_line line acc
                    = Ret (mkSecrets (Some (strip value)) (moralis_key acc)
                             (etherscan_key acc))).
    { unfold read_secret_line. rewrite Hline, Hacc, prefix_append. reflexivity. }
    rewrite Hstep.
    destruct (read_secret_lines_total post
                (mkSecrets (Some (strip value)) (moralis_key acc) (etherscan_key acc)))
      as [s Hs].
    exists s. split; [done|].
    apply read_secret_lines_keeps in Hs as [Hkeep _]. apply Hkeep.
    cbn. by apply negb_true_iff, String.eqb_neq.
  - cbn [app read_secret_lines].
    destruct (read_secret_line_total l acc) as [acc1 Hl]. rewrite Hl.
    apply IH.
    + intros l' Hl'. apply Hpre. by right.
    + rewrite (read_secret_line_other l acc acc1); [done| |done]. apply Hpre. by left.
Qed.

Lemma first_definition_in_file_wins_witness :
  exists s,
    get_token_from_env (fun _ => None)
      (DotenvLines (["# secrets"; "MORALIS_API_KEY=abc"]
                    ++ "  TELEGRAM_BOT_TOKEN= 123:xyz  " :: ["TELEGRAM_BOT_TOKEN=other"]))
      = Ret s /\
    telegram_token s = Some (strip " 123:xyz").
Proof.
  apply (first_definition_in_file_wins (fun _ => None)
           ["# secrets"; "MORALIS_API_KEY=abc"] ["TELEGRAM_BOT_TOKEN=other"]
           "  TELEGRAM_BOT_TOKEN= 123:xyz  " " 123:xyz").
  - reflexivity.
  - reflexivity.
  - intros l [->|[->|Hin%elem_of_nil]%elem_of_cons]%elem_of_cons; [reflexivity..|done].
  - reflexivity.
  - discriminate.
Defined.
